(** * shinytimer: the timer time-accounting model

    A shallow embedding of the three implementations of the stopwatch
    widget found in the repository:

    - [Part000]   : the stand-alone component (ticking [nowSec] state,
                    single-focus start, adjustments folded into
                    [elapsedSec]);
    - [AppFirst]  : the first component of [src/App.jsx] (a timer loop that
                    materialises the run every second, adjustments kept in
                    [revisionSec]);
    - [AppSecond] : the second component of [src/App.jsx] (millisecond
                    timestamps, fractional seconds, single-focus start).

    Every [setTimers(prev => prev.map(cb))] updater of the source is a
    function on [list timer]; its callback [cb] is given a name of its own
    (suffix [1]) so that it can be reasoned about per timer.  The wall
    clock ([Date.now()]) is an explicit argument. *)

From stdpp Require Import gmap strings list pretty.
From Stdlib Require Import ZArith QArith Qminmax Qround Lqa Lia Sorted.

Local Open Scope Z_scope.

(** ** JavaScript value conventions used by the source *)

Module JS.

(** [x || d] on a number: a number is falsy exactly when it is [0]. *)
Definition or_num (x d : Z) : Z := if x =? 0 then d else x.

(** Truthiness of a number, as in [x ? a : b] and [!x]. *)
Definition truthy (x : Z) : bool := negb (x =? 0).

(** [ts || d] on a [number | null] field. *)
Definition or_ts (ts : option Z) (d : Z) : Z :=
  match ts with Some s => or_num s d | None => d end.

(** [String(n)] on an integer. *)
Definition String_of (n : Z) : string := pretty n.

(** [padStart] with fill character 0 and width [n]. *)
Definition padStart0 (n : nat) (s : string) : string :=
  String.concat "" (replicate (n - String.length s) "0"%string) +:+ s.

(** The one-character string holding a double quote. *)
Definition dquote : string := String (Ascii.ascii_of_nat 34) EmptyString.

(** [replaceAll] as the export uses it: every double quote of the text
    is written twice. *)
Fixpoint double_quotes (s : string) : string :=
  match s with
  | EmptyString => EmptyString
  | String c r =>
      if Ascii.eqb c (Ascii.ascii_of_nat 34)
      then String c (String c (double_quotes r))
      else String c (double_quotes r)
  end.

(** One CSV cell: the template literal that wraps the escaped text in
    double quotes. *)
Definition csv_cell (x : string) : string :=
  dquote +:+ double_quotes x +:+ dquote.

(** The rows joined: cells by a comma, lines by a line feed. *)
Definition csv_text (rows : list (list string)) : string :=
  String.concat (String (Ascii.ascii_of_nat 10) EmptyString)
    (map (fun r => String.concat "," (map csv_cell r)) rows).

(** [fmtHMS(sec)] on an integer number of seconds. *)
Definition fmtHMS (sec : Z) : string :=
  let s := Z.max 0 sec in
  let h := s / 3600 in
  let m := Z.rem s 3600 / 60 in
  let ss := Z.rem s 60 in
  padStart0 2 (String_of h) +:+ ":" +:+ padStart0 2 (String_of m)
    +:+ ":" +:+ padStart0 2 (String_of ss).

(** [Math.floor(Date.now()/1000)]. *)
Definition nowSeconds (dateNow : Z) : Z := dateNow / 1000.

End JS.

(** ** The formula of the specification

    net elapsed time = max(0, accumulatedSeconds + (isRunning ? now -
    startTimestamp : 0) - revisionSeconds), the run being counted for a
    running timer whose start timestamp is not null.  Written once over
    whole seconds and once over fractional seconds. *)

Module Spec.

Definition net (accumulatedSeconds : Z) (isRunning : bool)
    (startTimestamp : option Z) (revisionSeconds now : Z) : Z :=
  Z.max 0
    (accumulatedSeconds
     + match startTimestamp with
       | Some s => if isRunning then now - s else 0
       | None => 0
       end
     - revisionSeconds).

Definition netQ (accumulatedSeconds : Q) (isRunning : bool)
    (startTimestamp : option Q) (revisionSeconds now : Q) : Q :=
  Qmax 0
    (accumulatedSeconds
     + match startTimestamp with
       | Some s => if isRunning then now - s else 0
       | None => 0
       end
     - revisionSeconds)%Q.

End Spec.

(** ** Helpers and array operations the components share

    [toSeconds] and the quick-adjust form are the same text in the first
    component of App.jsx and in the stand-alone component; the
    drag-and-drop updater and the realtime upsert are the same text in
    all three.  The array operations are written once, over any element
    type. *)

Module Common.

(** [Number(x) || 0] and [parseInt(x) || 0] on a form field holding a
    whole number; [None] stands for a text that gives NaN. *)
Definition field_or0 (x : option Z) : Z :=
  match x with Some n => JS.or_num n 0 | None => 0 end.

(** [toSeconds(h, m)]. *)
Definition toSeconds (h m : option Z) : Z :=
  let H := field_or0 h in
  let M := field_or0 m in
  Z.max 0 H * 3600 + Z.max 0 M * 60.

(** [fire(delta)] of [QuickAdjust], with the card's wiring
    [onAdd = s => adjust(+s)] and [onSub = s => adjust(-s)]: the argument
    [adjust] is called with, or [None] when it is not called. *)
Definition fire (delta : Z) (h m : option Z) : option Z :=
  let s := toSeconds h m in
  if 0 <? s then Some (if 0 <? delta then s else - s) else None.

(** A row of the [timers] table.  [sort_index] and [deleted] are the
    columns the code reads through [??] and [!!], so they may be null;
    so may [start_ts]. *)
Record row := mkRow {
  row_id : string;
  user_id : string;
  row_name : string;
  target_sec : Z;
  revision_sec : Z;
  elapsed_sec : Z;
  start_ts : option Z;
  row_running : bool;
  goal_on : bool;
  goal_fired : bool;
  row_category : string;
  row_color : string;
  row_sort_index : option Z;
  row_deleted : option bool;
  updated_at : string
}.

(** [!!r.deleted] and [r.sort_index ?? 0]. *)
Definition deleted_flag (r : row) : bool :=
  match row_deleted r with Some b => b | None => false end.
Definition sort_index_or0 (r : row) : Z :=
  match row_sort_index r with Some k => k | None => 0 end.

(** A change notice of the realtime channel: a DELETE carries the id of
    the old row, if any; an INSERT or UPDATE carries the new row and
    possibly the old one. *)
Inductive payload :=
| DELETE (old_id : option string)
| CHANGE (new old : option row).

Section Arrays.
Context {A : Type}.

(** [arr.findIndex(p)]; [None] stands for -1. *)
Fixpoint findIndex (p : A -> bool) (arr : list A) : option nat :=
  match arr with
  | [] => None
  | x :: rest => if p x then Some 0%nat else S <$> findIndex p rest
  end.

(** [arr.splice(j, 0, m)]: [m] goes in before position [j], at the end
    when [j] is past it. *)
Definition splice_in (j : nat) (m : A) (arr : list A) : list A :=
  take j arr ++ m :: drop j arr.

(** The updater of the drag-over handler: the element with key [from]
    is cut out with [splice(i, 1)] and put back at the index the element
    with key [over] had; then every element gets its position as sort
    index.  When either key is missing the list is returned as it is. *)
Definition reorder (key : A -> string) (reindex : nat -> A -> A)
    (from over : string) (prev : list A) : list A :=
  match findIndex (fun t => String.eqb (key t) from) prev,
        findIndex (fun t => String.eqb (key t) over) prev with
  | Some i, Some j =>
      match prev !! i with
      | Some m => imap reindex (splice_in j m (delete i prev))
      | None => prev
      end
  | _, _ => prev
  end.

(** The guard of the handler in front of the updater:
    [if (!from || from === overId) return]. *)
Definition drag_over (key : A -> string) (reindex : nat -> A -> A)
    (dragId : option string) (overId : string) (prev : list A) : list A :=
  match dragId with
  | None => prev
  | Some from =>
      if String.eqb from "" || String.eqb from overId then prev
      else reorder key reindex from overId prev
  end.

(** [arr.sort((a, b) => k(a) - k(b))].  The sort of the language is
    stable; it is written here as the insertion sort that puts an element
    in front of the first one whose key is not smaller. *)
Fixpoint insert_by (k : A -> Z) (x : A) (l : list A) : list A :=
  match l with
  | [] => [x]
  | y :: rest => if k x <=? k y then x :: y :: rest else y :: insert_by k x rest
  end.

Definition sort_by (k : A -> Z) (l : list A) : list A :=
  foldr (insert_by k) [] l.

(** The updater of the realtime handler for a live row: the mapped timer
    replaces the first one with its id, or is pushed; then the list is
    sorted by sort index. *)
Definition upsert (key : A -> string) (k : A -> Z) (mapped : A)
    (prev : list A) : list A :=
  let next :=
    match findIndex (fun t => String.eqb (key t) (key mapped)) prev with
    | None => prev ++ [mapped]
    | Some i => <[i := mapped]> prev
    end in
  sort_by k next.

(** [prev.filter(t => t.id !== id)]. *)
Definition drop_id (key : A -> string) (i : string) (prev : list A) : list A :=
  List.filter (fun t => negb (String.eqb (key t) i)) prev.

End Arrays.

End Common.

(** The celebration payload [{ name, target }] of the two components that
    carry one. *)
Record celebration := mkCelebration { cname : string; ctarget : Z }.

(** ** The stand-alone component *)

Module Part000.

Record timer := mkTimer {
  id : string;
  name : string;
  targetSec : Z;
  revisionSec : Z;
  elapsedSec : Z;
  startTs : option Z;
  running : bool;
  goalOn : bool;
  goalFired : bool;
  category : string;
  color : string;
  sort_index : Z;
  deleted : bool
}.

(** Object spread with one overridden key: [{ ...t, key: v }]. *)
Definition set_name (v : string) (t : timer) : timer :=
  mkTimer (id t) v (targetSec t) (revisionSec t) (elapsedSec t) (startTs t)
    (running t) (goalOn t) (goalFired t) (category t) (color t)
    (sort_index t) (deleted t).
Definition set_targetSec (v : Z) (t : timer) : timer :=
  mkTimer (id t) (name t) v (revisionSec t) (elapsedSec t) (startTs t)
    (running t) (goalOn t) (goalFired t) (category t) (color t)
    (sort_index t) (deleted t).
Definition set_revisionSec (v : Z) (t : timer) : timer :=
  mkTimer (id t) (name t) (targetSec t) v (elapsedSec t) (startTs t)
    (running t) (goalOn t) (goalFired t) (category t) (color t)
    (sort_index t) (deleted t).
Definition set_elapsedSec (v : Z) (t : timer) : timer :=
  mkTimer (id t) (name t) (targetSec t) (revisionSec t) v (startTs t)
    (running t) (goalOn t) (goalFired t) (category t) (color t)
    (sort_index t) (deleted t).
Definition set_startTs (v : option Z) (t : timer) : timer :=
  mkTimer (id t) (name t) (targetSec t) (revisionSec t) (elapsedSec t) v
    (running t) (goalOn t) (goalFired t) (category t) (color t)
    (sort_index t) (deleted t).
Definition set_running (v : bool) (t : timer) : timer :=
  mkTimer (id t) (name t) (targetSec t) (revisionSec t) (elapsedSec t)
    (startTs t) v (goalOn t) (goalFired t) (category t) (color t)
    (sort_index t) (deleted t).
Definition set_goalOn (v : bool) (t : timer) : timer :=
  mkTimer (id t) (name t) (targetSec t) (revisionSec t) (elapsedSec t)
    (startTs t) (running t) v (goalFired t) (category t) (color t)
    (sort_index t) (deleted t).
Definition set_goalFired (v : bool) (t : timer) : timer :=
  mkTimer (id t) (name t) (targetSec t) (revisionSec t) (elapsedSec t)
    (startTs t) (running t) (goalOn t) v (category t) (color t)
    (sort_index t) (deleted t).
Definition set_category (v : string) (t : timer) : timer :=
  mkTimer (id t) (name t) (targetSec t) (revisionSec t) (elapsedSec t)
    (startTs t) (running t) (goalOn t) (goalFired t) v (color t)
    (sort_index t) (deleted t).
Definition set_color (v : string) (t : timer) : timer :=
  mkTimer (id t) (name t) (targetSec t) (revisionSec t) (elapsedSec t)
    (startTs t) (running t) (goalOn t) (goalFired t) (category t) v
    (sort_index t) (deleted t).

(** [DEFAULT_TIMERS]; [uid k] stands for the k-th call of the random
    [uid()]. *)
Definition DEFAULT_TIMERS (uid : nat -> string) : list timer :=
  [ mkTimer (uid 0%nat) "Working Hour" (11 * 3600) 0 0 None false true false
      "work" "from-slate-400/20 to-slate-600/20" 0 false;
    mkTimer (uid 1%nat) "Music" (0 * 3600 + 60) 0 0 None false true false
      "neutral" "from-rose-400/20 to-rose-600/20" 1 false;
    mkTimer (uid 2%nat) "Exercise" (1 * 3600) 0 0 None false false false
      "neutral" "from-emerald-400/20 to-green-600/20" 2 false;
    mkTimer (uid 3%nat) "Learning" (2 * 3600) 0 0 None false false false
      "work" "from-cyan-400/20 to-blue-600/20" 3 false;
    mkTimer (uid 4%nat) "Break Time" (28 * 60) 0 0 None false true false
      "break" "from-amber-400/20 to-orange-600/20" 4 false;
    mkTimer (uid 5%nat) "Sleeping" (6 * 3600) 0 0 None false true false
      "neutral" "from-purple-400/20 to-violet-700/20" 5 false ].

(** [runExtra]: the seconds of the current run, counted against the
    ticking [nowSec]. *)
Definition runExtra (nowSec : Z) (t : timer) : Z :=
  match startTs t with
  | Some s => if running t then nowSec - s else 0
  | None => 0
  end.

(** [net]: the expression shared by [totals], the goal check and
    [exportCSV]. *)
Definition net (nowSec : Z) (t : timer) : Z :=
  Z.max 0 ((elapsedSec t + runExtra nowSec t) - JS.or_num (revisionSec t) 0).

(** The goal-check effect, run whenever [nowSec] changes.  The callback
    returns the new timer and the celebration it raised, if any. *)
Definition goalCheck1 (nowSec : Z) (t : timer) : timer * option celebration :=
  if negb (goalOn t) || goalFired t || negb (JS.truthy (targetSec t))
  then (t, None)
  else if targetSec t <=? net nowSec t
       then (set_goalFired true t,
             Some (mkCelebration (name t) (targetSec t)))
       else (t, None).

Definition goalCheck (nowSec : Z) (prev : list timer) : list timer :=
  map (fun t => fst (goalCheck1 nowSec t)) prev.

(** The [setCelebration] calls made while mapping, in order. *)
Definition goalCheck_events (nowSec : Z) (prev : list timer) : list celebration :=
  omap (fun t => snd (goalCheck1 nowSec t)) prev.

(** *** Actions *)

Definition startTimer1 (now : Z) (i : string) (t : timer) : timer :=
  if String.eqb (id t) i then
    if running t then t
    else set_startTs (Some now) (set_running true t)
  else if running t then
    let extra := now - JS.or_ts (startTs t) now in
    set_elapsedSec (elapsedSec t + extra)
      (set_startTs None (set_running false t))
  else t.

Definition startTimer (now : Z) (i : string) (prev : list timer) : list timer :=
  map (startTimer1 now i) prev.

Definition pauseTimer1 (now : Z) (i : string) (t : timer) : timer :=
  if negb (String.eqb (id t) i) || negb (running t) then t
  else
    let extra := now - JS.or_ts (startTs t) now in
    set_elapsedSec (elapsedSec t + extra)
      (set_startTs None (set_running false t)).

Definition pauseTimer (now : Z) (i : string) (prev : list timer) : list timer :=
  map (pauseTimer1 now i) prev.

(** [{ ...t, running:false, startTs:null, elapsedSec:0, revisionSec:0,
    goalFired:false }]. *)
Definition cleared (t : timer) : timer :=
  set_goalFired false
    (set_revisionSec 0
       (set_elapsedSec 0 (set_startTs None (set_running false t)))).

Definition resetTimer1 (i : string) (t : timer) : timer :=
  if String.eqb (id t) i then cleared t else t.

Definition resetTimer (i : string) (prev : list timer) : list timer :=
  map (resetTimer1 i) prev.

Definition removeTimer (i : string) (prev : list timer) : list timer :=
  List.filter (fun t => negb (String.eqb (id t) i)) prev.

(** The object built by [addTimer]; [fresh] is the value of [uid()] and
    [len] the value of [timers.length]. *)
Definition newTimer (fresh : string) (len : nat) : timer :=
  mkTimer fresh "New Timer" 0 0 0 None false false false "neutral"
    "from-slate-400/20 to-slate-700/20" (Z.of_nat len) false.

Definition addTimer (fresh : string) (prev : list timer) : list timer :=
  prev ++ [newTimer fresh (length prev)].

Definition adjustTimer1 (now : Z) (i : string) (deltaSec : Z) (t : timer) : timer :=
  if negb (String.eqb (id t) i) then t
  else
    let elapsed := elapsedSec t in
    match startTs t with
    | Some s =>
        if running t then
          let elapsed := elapsed + (now - s) in
          set_startTs (Some now)
            (set_elapsedSec (Z.max 0 (elapsed + deltaSec)) t)
        else set_elapsedSec (Z.max 0 (elapsed + deltaSec)) t
    | None => set_elapsedSec (Z.max 0 (elapsed + deltaSec)) t
    end.

Definition adjustTimer (now : Z) (i : string) (deltaSec : Z)
    (prev : list timer) : list timer :=
  map (adjustTimer1 now i deltaSec) prev.

Definition setTheme (i cls : string) (prev : list timer) : list timer :=
  map (fun t => if String.eqb (id t) i then set_color cls t else t) prev.
Definition setTarget (i : string) (sec : Z) (prev : list timer) : list timer :=
  map (fun t => if String.eqb (id t) i then set_targetSec sec t else t) prev.
Definition setName (i nm : string) (prev : list timer) : list timer :=
  map (fun t => if String.eqb (id t) i then set_name nm t else t) prev.
Definition setGoal (i : string) (on : bool) (prev : list timer) : list timer :=
  map (fun t => if String.eqb (id t) i then set_goalOn on t else t) prev.
Definition setCategory (i c : string) (prev : list timer) : list timer :=
  map (fun t => if String.eqb (id t) i then set_category c t else t) prev.

Definition resetDay (prev : list timer) : list timer := map cleared prev.

(** [exportCSV]: the rows before quoting, and the file text. *)
Definition exportCSV_rows (nowSec : Z) (timers : list timer) : list (list string) :=
  ["Name"; "Seconds"; "Time"]
    :: map (fun t =>
              let n := net nowSec t in
              [name t; JS.String_of n; JS.fmtHMS n]) timers.

Definition exportCSV (nowSec : Z) (timers : list timer) : string :=
  JS.csv_text (exportCSV_rows nowSec timers).

(** [totals]: the loop fills a [Map] from id to net seconds and sums the
    nets. *)
Definition totals_loop (nowSec : Z) (timers : list timer) : Z * gmap string Z :=
  fold_left
    (fun (acc : Z * gmap string Z) t =>
       let n := net nowSec t in
       (fst acc + n, <[id t := n]> (snd acc)))
    timers (0, ∅).

Record totalsT := mkTotals { total : string; nets : gmap string Z }.

Definition totals (nowSec : Z) (timers : list timer) : totalsT :=
  let r := totals_loop nowSec timers in
  mkTotals (JS.fmtHMS (fst r)) (snd r).

(** The [netSeconds] prop of a card: [totals.nets.get(t.id) || 0]. *)
Definition netSeconds (nowSec : Z) (timers : list timer) (t : timer) : Z :=
  match nets (totals nowSec timers) !! id t with
  | Some n => JS.or_num n 0
  | None => 0
  end.

(** *** The component as a state machine *)

Record app := mkApp {
  timers : list timer;
  celebrating : option celebration;
  nowSec : Z
}.

Inductive event :=
| Tick
| Start (i : string)
| Pause (i : string)
| Reset (i : string)
| Remove (i : string)
| Add (fresh : string)
| Adjust (i : string) (deltaSec : Z)
| SetTheme (i cls : string)
| SetTarget (i : string) (sec : Z)
| SetName (i nm : string)
| SetGoal (i : string) (on : bool)
| SetCategory (i c : string)
| ResetDay
| CloseCelebration.

(** One event handled at wall-clock reading [dateNow] (milliseconds).
    [Tick] is the interval callback: it stores the new [nowSec], and when
    that value changed the goal-check effect runs; the last
    [setCelebration] of a pass wins. *)
Definition handle (dateNow : Z) (e : event) (a : app) : app :=
  let now := JS.nowSeconds dateNow in
  match e with
  | Tick =>
      if now =? nowSec a then a
      else
        mkApp (goalCheck now (timers a))
          (match last (goalCheck_events now (timers a)) with
           | Some c => Some c
           | None => celebrating a
           end)
          now
  | Start i => mkApp (startTimer now i (timers a)) (celebrating a) (nowSec a)
  | Pause i => mkApp (pauseTimer now i (timers a)) (celebrating a) (nowSec a)
  | Reset i => mkApp (resetTimer i (timers a)) (celebrating a) (nowSec a)
  | Remove i => mkApp (removeTimer i (timers a)) (celebrating a) (nowSec a)
  | Add fresh => mkApp (addTimer fresh (timers a)) (celebrating a) (nowSec a)
  | Adjust i d => mkApp (adjustTimer now i d (timers a)) (celebrating a) (nowSec a)
  | SetTheme i c => mkApp (setTheme i c (timers a)) (celebrating a) (nowSec a)
  | SetTarget i s => mkApp (setTarget i s (timers a)) (celebrating a) (nowSec a)
  | SetName i n => mkApp (setName i n (timers a)) (celebrating a) (nowSec a)
  | SetGoal i b => mkApp (setGoal i b (timers a)) (celebrating a) (nowSec a)
  | SetCategory i c => mkApp (setCategory i c (timers a)) (celebrating a) (nowSec a)
  | ResetDay => mkApp (resetDay (timers a)) (celebrating a) (nowSec a)
  | CloseCelebration => mkApp (timers a) None (nowSec a)
  end.

(** What one event does to a timer that stays in the list, at the clock
    reading [now]: the callback its updater maps over the timers, with
    the celebration that callback raises.  Events that only add or drop
    list elements leave the timers they keep as they are. *)
Definition handle1 (now : Z) (e : event) (t : timer) : timer * option celebration :=
  match e with
  | Tick => goalCheck1 now t
  | Start i => (startTimer1 now i t, None)
  | Pause i => (pauseTimer1 now i t, None)
  | Reset i => (resetTimer1 i t, None)
  | Adjust i d => (adjustTimer1 now i d t, None)
  | SetTheme i c => (if String.eqb (id t) i then set_color c t else t, None)
  | SetTarget i s => (if String.eqb (id t) i then set_targetSec s t else t, None)
  | SetName i n => (if String.eqb (id t) i then set_name n t else t, None)
  | SetGoal i b => (if String.eqb (id t) i then set_goalOn b t else t, None)
  | SetCategory i c => (if String.eqb (id t) i then set_category c t else t, None)
  | ResetDay => (cleared t, None)
  | Remove _ | Add _ | CloseCelebration => (t, None)
  end.

(** Events that reset the timer with id [i]. *)
Definition resets (i : string) (e : event) : bool :=
  match e with
  | Reset j => String.eqb i j
  | ResetDay => true
  | _ => false
  end.

(** Events that adjust or reset some timer. *)
Definition adjusts_or_resets (e : event) : bool :=
  match e with
  | Adjust _ _ | Reset _ | ResetDay => true
  | _ => false
  end.

(** [history ok c t c' t' log]: starting as [t] at clock reading [c], the
    timer is [t'] at reading [c'] after a sequence of events, each
    allowed by [ok] and handled at a reading not before the previous
    one; [log] lists the celebrations raised for it on the way. *)
Inductive history (ok : event -> bool) (c : Z) (t : timer)
    : Z -> timer -> list celebration -> Prop :=
| history_nil : history ok c t c t []
| history_step c' t' log d e :
    history ok c t c' t' log ->
    c' <= d ->
    ok e = true ->
    history ok c t d (fst (handle1 d e t'))
      (log ++ option_list (snd (handle1 d e t'))).

(** The formula of the specification read on a timer. *)
Definition spec_net (now : Z) (t : timer) : Z :=
  Spec.net (elapsedSec t) (running t) (startTs t) (revisionSec t) now.

(** A timer is consistent when it runs exactly when it has a start
    timestamp. *)
Definition consistent (t : timer) : Prop :=
  running t = true <-> is_Some (startTs t).

(** At clock reading [c] a timer is well stamped when its start
    timestamp, if any, is a positive reading not after [c]. *)
Definition stamped (c : Z) (t : timer) : Prop :=
  forall s, startTs t = Some s -> 0 < s <= c.

(** The goal check at each of the clock readings [l], oldest first, as
    the timer sees it. *)
Definition ticks (l : list Z) (t : timer) : timer :=
  fold_left (fun t d => fst (goalCheck1 d t)) l t.

(** The state after mounting with no saved timers: the goal-check effect
    has run once on the defaults. *)
Definition initial (uid : nat -> string) (dateNow : Z) : app :=
  let now := JS.nowSeconds dateNow in
  mkApp (goalCheck now (DEFAULT_TIMERS uid))
    (last (goalCheck_events now (DEFAULT_TIMERS uid))) now.

(** A run of the component: events with the clock reading at which each
    is handled, oldest first. *)
Definition run (evs : list (Z * event)) (a : app) : app :=
  fold_left (fun a de => handle (fst de) (snd de) a) evs a.

(** A timer is in good order at clock reading [c] (seconds) when it is
    consistent, well stamped, and has accumulated no negative time. *)
Definition good (c : Z) (t : timer) : Prop :=
  consistent t /\ stamped c t /\ 0 <= elapsedSec t.

(** [reachable d a]: the component is in state [a] at wall-clock reading
    [d] (milliseconds), having been mounted on the defaults at a reading of
    at least one second and having handled events at readings that never
    went back. *)
Inductive reachable : Z -> app -> Prop :=
| reachable_initial uid d :
    0 < JS.nowSeconds d -> reachable d (initial uid d)
| reachable_step d a d' e :
    reachable d a -> d <= d' -> reachable d' (handle d' e a).

(** *** The editor, quick adjust, drag and drop, and the rows that come
    from the cloud *)

Definition set_sort_index (v : Z) (t : timer) : timer :=
  mkTimer (id t) (name t) (targetSec t) (revisionSec t) (elapsedSec t)
    (startTs t) (running t) (goalOn t) (goalFired t) (category t) (color t)
    v (deleted t).

(** The local state of [TimerEditor]. *)
Record editor := mkEditor {
  ed_name : string;
  th : option Z;
  tm : option Z;
  goal : bool;
  cat : string;
  theme : string
}.

(** The state the editor opens with on the timer [t]. *)
Definition TimerEditor_open (t : timer) : editor :=
  mkEditor (name t)
    (Some (JS.or_num (targetSec t) 0 / 3600))
    (Some (Z.rem (JS.or_num (targetSec t) 0) 3600 / 60))
    (goalOn t)
    (if String.eqb (category t) "" then "neutral" else category t)
    (color t).

(** [save] of the editor opened on [editTimer]: the five field updaters,
    in the order they are called. *)
Definition TimerEditor_save (editTimer : timer) (s : editor)
    (prev : list timer) : list timer :=
  let i := id editTimer in
  setTheme i (theme s)
    (setCategory i (cat s)
       (setGoal i (goal s)
          (setTarget i (Common.toSeconds (th s) (tm s))
             (setName i (ed_name s) prev)))).

(** A press of Add ([delta = 1]) or Subtract ([delta = -1]) on the card
    of the timer [i], with the form fields [h] and [m]. *)
Definition QuickAdjust_fire (now : Z) (i : string) (delta : Z)
    (h m : option Z) (prev : list timer) : list timer :=
  match Common.fire delta h m with
  | Some d => adjustTimer now i d prev
  | None => prev
  end.

Definition onDragOverList (dragId : option string) (overId : string)
    (prev : list timer) : list timer :=
  Common.drag_over id (fun idx t => set_sort_index (Z.of_nat idx) t)
    dragId overId prev.

(** The timer a row is mapped to, on load and on a realtime notice. *)
Definition fromRow (r : Common.row) : timer :=
  mkTimer (Common.row_id r) (Common.row_name r) (Common.target_sec r)
    (Common.revision_sec r) (Common.elapsed_sec r) (Common.start_ts r)
    (Common.row_running r) (Common.goal_on r) (Common.goal_fired r)
    (Common.row_category r) (Common.row_color r) (Common.sort_index_or0 r)
    (Common.deleted_flag r).

(** The timers after the load on sign-in answered with [rows] ([None]
    for null): with no rows the local timers stay (and are uploaded). *)
Definition loadFromCloud (rows : option (list Common.row))
    (timers : list timer) : list timer :=
  match rows with
  | None | Some [] => timers
  | Some rows => Common.sort_by sort_index (map fromRow rows)
  end.

(** The realtime handler as an updater of the timers. *)
Definition onRealtime (p : Common.payload) (prev : list timer) : list timer :=
  match p with
  | Common.DELETE old_id =>
      match old_id with
      | Some i => if String.eqb i "" then prev else Common.drop_id id i prev
      | None => prev
      end
  | Common.CHANGE new _ =>
      match new with
      | None => prev
      | Some r =>
          if Common.deleted_flag r then Common.drop_id id (Common.row_id r) prev
          else Common.upsert id sort_index (fromRow r) prev
      end
  end.

End Part000.

(** ** The first component of [src/App.jsx] *)

Module AppFirst.

Record timer := mkTimer {
  id : string;
  name : string;
  targetSec : Z;
  revisionSec : Z;
  elapsedSec : Z;
  startTs : option Z;
  running : bool;
  goalOn : bool;
  goalFired : bool;
  category : string;
  color : string;
  sort_index : Z
}.

Definition set_name (v : string) (t : timer) : timer :=
  mkTimer (id t) v (targetSec t) (revisionSec t) (elapsedSec t) (startTs t)
    (running t) (goalOn t) (goalFired t) (category t) (color t) (sort_index t).
Definition set_targetSec (v : Z) (t : timer) : timer :=
  mkTimer (id t) (name t) v (revisionSec t) (elapsedSec t) (startTs t)
    (running t) (goalOn t) (goalFired t) (category t) (color t) (sort_index t).
Definition set_revisionSec (v : Z) (t : timer) : timer :=
  mkTimer (id t) (name t) (targetSec t) v (elapsedSec t) (startTs t)
    (running t) (goalOn t) (goalFired t) (category t) (color t) (sort_index t).
Definition set_elapsedSec (v : Z) (t : timer) : timer :=
  mkTimer (id t) (name t) (targetSec t) (revisionSec t) v (startTs t)
    (running t) (goalOn t) (goalFired t) (category t) (color t) (sort_index t).
Definition set_startTs (v : option Z) (t : timer) : timer :=
  mkTimer (id t) (name t) (targetSec t) (revisionSec t) (elapsedSec t) v
    (running t) (goalOn t) (goalFired t) (category t) (color t) (sort_index t).
Definition set_running (v : bool) (t : timer) : timer :=
  mkTimer (id t) (name t) (targetSec t) (revisionSec t) (elapsedSec t)
    (startTs t) v (goalOn t) (goalFired t) (category t) (color t) (sort_index t).
Definition set_goalOn (v : bool) (t : timer) : timer :=
  mkTimer (id t) (name t) (targetSec t) (revisionSec t) (elapsedSec t)
    (startTs t) (running t) v (goalFired t) (category t) (color t) (sort_index t).
Definition set_goalFired (v : bool) (t : timer) : timer :=
  mkTimer (id t) (name t) (targetSec t) (revisionSec t) (elapsedSec t)
    (startTs t) (running t) (goalOn t) v (category t) (color t) (sort_index t).
Definition set_category (v : string) (t : timer) : timer :=
  mkTimer (id t) (name t) (targetSec t) (revisionSec t) (elapsedSec t)
    (startTs t) (running t) (goalOn t) (goalFired t) v (color t) (sort_index t).
Definition set_color (v : string) (t : timer) : timer :=
  mkTimer (id t) (name t) (targetSec t) (revisionSec t) (elapsedSec t)
    (startTs t) (running t) (goalOn t) (goalFired t) (category t) v (sort_index t).

Definition DEFAULT_TIMERS (uid : nat -> string) : list timer :=
  [ mkTimer (uid 0%nat) "Working Hour" (11 * 3600) 0 0 None false true false
      "work" "from-slate-400/20 to-slate-600/20" 0;
    mkTimer (uid 1%nat) "Music" (0 * 3600 + 60) 0 0 None false true false
      "neutral" "from-rose-400/20 to-rose-600/20" 1;
    mkTimer (uid 2%nat) "Exercise" (1 * 3600) 0 0 None false false false
      "neutral" "from-emerald-400/20 to-green-600/20" 2;
    mkTimer (uid 3%nat) "Learning" (2 * 3600) 0 0 None false false false
      "work" "from-cyan-400/20 to-blue-600/20" 3;
    mkTimer (uid 4%nat) "Break Time" (28 * 60) 0 0 None false true false
      "break" "from-amber-400/20 to-orange-600/20" 4;
    mkTimer (uid 5%nat) "Sleeping" (6 * 3600) 0 0 None false true false
      "neutral" "from-purple-400/20 to-violet-700/20" 5 ].

(** The net seconds of a card, of [totalTracked] and of [exportCSV]:
    [Math.max(0, (t.elapsedSec||0) - (t.revisionSec||0))]. *)
Definition netSeconds (t : timer) : Z :=
  Z.max 0 (JS.or_num (elapsedSec t) 0 - JS.or_num (revisionSec t) 0).

(** The timer loop, once a second.  The callback returns the new timer
    and the celebration it raised, if any. *)
Definition loop1 (now : Z) (t : timer) : timer * option celebration :=
  match startTs t with
  | None => (t, None)
  | Some s =>
      if negb (running t) then (t, None)
      else
        let elapsed := elapsedSec t + (now - s) in
        let net := Z.max 0 (elapsed - JS.or_num (revisionSec t) 0) in
        if goalOn t && negb (goalFired t) && (0 <? targetSec t)
           && (targetSec t <=? net)
        then (set_elapsedSec elapsed (set_goalFired true t),
              Some (mkCelebration (name t) (targetSec t)))
        else (set_elapsedSec elapsed t, None)
  end.

Definition loop (now : Z) (prev : list timer) : list timer :=
  map (fun t => fst (loop1 now t)) prev.

Definition loop_events (now : Z) (prev : list timer) : list celebration :=
  omap (fun t => snd (loop1 now t)) prev.

(** *** Actions *)

Definition startTimer1 (now : Z) (i : string) (t : timer) : timer :=
  if String.eqb (id t) i then
    if running t then t
    else set_startTs (Some now) (set_running true t)
  else t.

Definition startTimer (now : Z) (i : string) (prev : list timer) : list timer :=
  map (startTimer1 now i) prev.

Definition pauseTimer1 (now : Z) (i : string) (t : timer) : timer :=
  if negb (String.eqb (id t) i) || negb (running t) then t
  else
    let extra := now - JS.or_ts (startTs t) now in
    set_elapsedSec (elapsedSec t + extra)
      (set_startTs None (set_running false t)).

Definition pauseTimer (now : Z) (i : string) (prev : list timer) : list timer :=
  map (pauseTimer1 now i) prev.

Definition cleared (t : timer) : timer :=
  set_goalFired false
    (set_revisionSec 0
       (set_elapsedSec 0 (set_startTs None (set_running false t)))).

Definition resetTimer1 (i : string) (t : timer) : timer :=
  if String.eqb (id t) i then cleared t else t.

Definition resetTimer (i : string) (prev : list timer) : list timer :=
  map (resetTimer1 i) prev.

Definition removeTimer (i : string) (prev : list timer) : list timer :=
  List.filter (fun t => negb (String.eqb (id t) i)) prev.

Definition newTimer (fresh : string) (len : nat) : timer :=
  mkTimer fresh "New Timer" 0 0 0 None false false false "neutral"
    "from-slate-400/20 to-slate-700/20" (Z.of_nat len).

Definition addTimer (fresh : string) (prev : list timer) : list timer :=
  prev ++ [newTimer fresh (length prev)].

(** The adjustment is kept in [revisionSec], with the sign inverted. *)
Definition adjustTimer1 (i : string) (deltaSec : Z) (t : timer) : timer :=
  if String.eqb (id t) i
  then set_revisionSec (Z.max 0 (JS.or_num (revisionSec t) 0 - deltaSec)) t
  else t.

Definition adjustTimer (i : string) (deltaSec : Z) (prev : list timer) : list timer :=
  map (adjustTimer1 i deltaSec) prev.

Definition setTheme (i cls : string) (prev : list timer) : list timer :=
  map (fun t => if String.eqb (id t) i then set_color cls t else t) prev.
Definition setTarget (i : string) (sec : Z) (prev : list timer) : list timer :=
  map (fun t => if String.eqb (id t) i then set_targetSec sec t else t) prev.
Definition setName (i nm : string) (prev : list timer) : list timer :=
  map (fun t => if String.eqb (id t) i then set_name nm t else t) prev.
Definition setGoal (i : string) (on : bool) (prev : list timer) : list timer :=
  map (fun t => if String.eqb (id t) i then set_goalOn on t else t) prev.
Definition setCategory (i c : string) (prev : list timer) : list timer :=
  map (fun t => if String.eqb (id t) i then set_category c t else t) prev.

Definition resetDay (prev : list timer) : list timer := map cleared prev.

Definition exportCSV_rows (timers : list timer) : list (list string) :=
  ["Name"; "Seconds"; "Time"]
    :: map (fun t =>
              let n := netSeconds t in
              [name t; JS.String_of n; JS.fmtHMS n]) timers.

Definition exportCSV (timers : list timer) : string :=
  JS.csv_text (exportCSV_rows timers).

(** [totalTracked]: the reduce over the timers, formatted. *)
Definition totalTracked (timers : list timer) : string :=
  JS.fmtHMS (fold_left (fun a t => a + netSeconds t) timers 0).

(** *** The component as a state machine *)

Record app := mkApp {
  timers : list timer;
  celebrating : option celebration
}.

Inductive event :=
| Tick
| Start (i : string)
| Pause (i : string)
| Reset (i : string)
| Remove (i : string)
| Add (fresh : string)
| Adjust (i : string) (deltaSec : Z)
| SetTheme (i cls : string)
| SetTarget (i : string) (sec : Z)
| SetName (i nm : string)
| SetGoal (i : string) (on : bool)
| SetCategory (i c : string)
| ResetDay
| CloseCelebration.

Definition handle (dateNow : Z) (e : event) (a : app) : app :=
  let now := JS.nowSeconds dateNow in
  match e with
  | Tick =>
      mkApp (loop now (timers a))
        (match last (loop_events now (timers a)) with
         | Some c => Some c
         | None => celebrating a
         end)
  | Start i => mkApp (startTimer now i (timers a)) (celebrating a)
  | Pause i => mkApp (pauseTimer now i (timers a)) (celebrating a)
  | Reset i => mkApp (resetTimer i (timers a)) (celebrating a)
  | Remove i => mkApp (removeTimer i (timers a)) (celebrating a)
  | Add fresh => mkApp (addTimer fresh (timers a)) (celebrating a)
  | Adjust i d => mkApp (adjustTimer i d (timers a)) (celebrating a)
  | SetTheme i c => mkApp (setTheme i c (timers a)) (celebrating a)
  | SetTarget i s => mkApp (setTarget i s (timers a)) (celebrating a)
  | SetName i n => mkApp (setName i n (timers a)) (celebrating a)
  | SetGoal i b => mkApp (setGoal i b (timers a)) (celebrating a)
  | SetCategory i c => mkApp (setCategory i c (timers a)) (celebrating a)
  | ResetDay => mkApp (resetDay (timers a)) (celebrating a)
  | CloseCelebration => mkApp (timers a) None
  end.

(** What one event does to a timer that stays in the list, at the clock
    reading [now]: the callback its updater maps over the timers, with
    the celebration that callback raises.  Events that only add or drop
    list elements leave the timers they keep as they are. *)
Definition handle1 (now : Z) (e : event) (t : timer) : timer * option celebration :=
  match e with
  | Tick => loop1 now t
  | Start i => (startTimer1 now i t, None)
  | Pause i => (pauseTimer1 now i t, None)
  | Reset i => (resetTimer1 i t, None)
  | Adjust i d => (adjustTimer1 i d t, None)
  | SetTheme i c => (if String.eqb (id t) i then set_color c t else t, None)
  | SetTarget i s => (if String.eqb (id t) i then set_targetSec s t else t, None)
  | SetName i n => (if String.eqb (id t) i then set_name n t else t, None)
  | SetGoal i b => (if String.eqb (id t) i then set_goalOn b t else t, None)
  | SetCategory i c => (if String.eqb (id t) i then set_category c t else t, None)
  | ResetDay => (cleared t, None)
  | Remove _ | Add _ | CloseCelebration => (t, None)
  end.

(** Events that reset the timer with id [i]. *)
Definition resets (i : string) (e : event) : bool :=
  match e with
  | Reset j => String.eqb i j
  | ResetDay => true
  | _ => false
  end.

(** Events that adjust or reset some timer. *)
Definition adjusts_or_resets (e : event) : bool :=
  match e with
  | Adjust _ _ | Reset _ | ResetDay => true
  | _ => false
  end.

(** [history ok c t c' t' log]: starting as [t] at clock reading [c], the
    timer is [t'] at reading [c'] after a sequence of events, each
    allowed by [ok] and handled at a reading not before the previous
    one; [log] lists the celebrations raised for it on the way. *)
Inductive history (ok : event -> bool) (c : Z) (t : timer)
    : Z -> timer -> list celebration -> Prop :=
| history_nil : history ok c t c t []
| history_step c' t' log d e :
    history ok c t c' t' log ->
    c' <= d ->
    ok e = true ->
    history ok c t d (fst (handle1 d e t'))
      (log ++ option_list (snd (handle1 d e t'))).

(** The formula of the specification read on a timer. *)
Definition spec_net (now : Z) (t : timer) : Z :=
  Spec.net (elapsedSec t) (running t) (startTs t) (revisionSec t) now.

(** A timer is consistent when it runs exactly when it has a start
    timestamp. *)
Definition consistent (t : timer) : Prop :=
  running t = true <-> is_Some (startTs t).

(** At clock reading [c] a timer is well stamped when its start
    timestamp, if any, is a positive reading not after [c]. *)
Definition stamped (c : Z) (t : timer) : Prop :=
  forall s, startTs t = Some s -> 0 < s <= c.

(** The timer loop at each of the clock readings [l], oldest first, as
    the timer sees it. *)
Definition ticks (l : list Z) (t : timer) : timer :=
  fold_left (fun t d => fst (loop1 d t)) l t.

Definition initial (uid : nat -> string) : app :=
  mkApp (DEFAULT_TIMERS uid) None.

Definition run (evs : list (Z * event)) (a : app) : app :=
  fold_left (fun a de => handle (fst de) (snd de) a) evs a.

(** A timer is in good order at clock reading [c] (seconds) when it is
    consistent, well stamped, and has accumulated no negative time. *)
Definition good (c : Z) (t : timer) : Prop :=
  consistent t /\ stamped c t /\ 0 <= elapsedSec t.

(** [reachable d a]: the component is in state [a] at wall-clock reading
    [d] (milliseconds), having been mounted on the defaults at a reading of
    at least one second and having handled events at readings that never
    went back. *)
Inductive reachable : Z -> app -> Prop :=
| reachable_initial uid d :
    0 < JS.nowSeconds d -> reachable d (initial uid)
| reachable_step d a d' e :
    reachable d a -> d <= d' -> reachable d' (handle d' e a).

(** *** The editor, quick adjust and drag and drop *)

Definition set_sort_index (v : Z) (t : timer) : timer :=
  mkTimer (id t) (name t) (targetSec t) (revisionSec t) (elapsedSec t)
    (startTs t) (running t) (goalOn t) (goalFired t) (category t) (color t) v.

(** The local state of [TimerEditor]. *)
Record editor := mkEditor {
  ed_name : string;
  th : option Z;
  tm : option Z;
  goal : bool;
  cat : string;
  theme : string
}.

(** The state the editor opens with on the timer [t]. *)
Definition TimerEditor_open (t : timer) : editor :=
  mkEditor (name t)
    (Some (JS.or_num (targetSec t) 0 / 3600))
    (Some (Z.rem (JS.or_num (targetSec t) 0) 3600 / 60))
    (goalOn t)
    (if String.eqb (category t) "" then "neutral" else category t)
    (color t).

(** [save] of the editor opened on [editTimer]: the five field updaters,
    in the order they are called. *)
Definition TimerEditor_save (editTimer : timer) (s : editor)
    (prev : list timer) : list timer :=
  let i := id editTimer in
  setTheme i (theme s)
    (setCategory i (cat s)
       (setGoal i (goal s)
          (setTarget i (Common.toSeconds (th s) (tm s))
             (setName i (ed_name s) prev)))).

(** A press of Add ([delta = 1]) or Subtract ([delta = -1]) on the card
    of the timer [i], with the form fields [h] and [m]. *)
Definition QuickAdjust_fire (i : string) (delta : Z) (h m : option Z)
    (prev : list timer) : list timer :=
  match Common.fire delta h m with
  | Some d => adjustTimer i d prev
  | None => prev
  end.

Definition onDragOverList (dragId : option string) (overId : string)
    (prev : list timer) : list timer :=
  Common.drag_over id (fun idx t => set_sort_index (Z.of_nat idx) t)
    dragId overId prev.

End AppFirst.

(** ** The second component of [src/App.jsx]

    Timestamps are [Date.now()] readings in milliseconds; second counts are
    fractional.  JavaScript numbers are idealised as exact rationals: the
    rounding of double-precision arithmetic is not modelled. *)

Module AppSecond.

Local Open Scope Q_scope.

Record timer := mkTimer {
  id : string;
  name : string;
  targetSec : Q;
  revisionSec : Q;
  elapsedSec : Q;
  startTs : option Z;
  running : bool;
  goalOn : bool;
  goalFired : bool;
  category : string;
  color : string;
  sort_index : Z;
  deleted : bool
}.

Definition set_name (v : string) (t : timer) : timer :=
  mkTimer (id t) v (targetSec t) (revisionSec t) (elapsedSec t) (startTs t)
    (running t) (goalOn t) (goalFired t) (category t) (color t)
    (sort_index t) (deleted t).
Definition set_targetSec (v : Q) (t : timer) : timer :=
  mkTimer (id t) (name t) v (revisionSec t) (elapsedSec t) (startTs t)
    (running t) (goalOn t) (goalFired t) (category t) (color t)
    (sort_index t) (deleted t).
Definition set_revisionSec (v : Q) (t : timer) : timer :=
  mkTimer (id t) (name t) (targetSec t) v (elapsedSec t) (startTs t)
    (running t) (goalOn t) (goalFired t) (category t) (color t)
    (sort_index t) (deleted t).
Definition set_elapsedSec (v : Q) (t : timer) : timer :=
  mkTimer (id t) (name t) (targetSec t) (revisionSec t) v (startTs t)
    (running t) (goalOn t) (goalFired t) (category t) (color t)
    (sort_index t) (deleted t).
Definition set_startTs (v : option Z) (t : timer) : timer :=
  mkTimer (id t) (name t) (targetSec t) (revisionSec t) (elapsedSec t) v
    (running t) (goalOn t) (goalFired t) (category t) (color t)
    (sort_index t) (deleted t).
Definition set_running (v : bool) (t : timer) : timer :=
  mkTimer (id t) (name t) (targetSec t) (revisionSec t) (elapsedSec t)
    (startTs t) v (goalOn t) (goalFired t) (category t) (color t)
    (sort_index t) (deleted t).
Definition set_goalOn (v : bool) (t : timer) : timer :=
  mkTimer (id t) (name t) (targetSec t) (revisionSec t) (elapsedSec t)
    (startTs t) (running t) v (goalFired t) (category t) (color t)
    (sort_index t) (deleted t).
Definition set_goalFired (v : bool) (t : timer) : timer :=
  mkTimer (id t) (name t) (targetSec t) (revisionSec t) (elapsedSec t)
    (startTs t) (running t) (goalOn t) v (category t) (color t)
    (sort_index t) (deleted t).
Definition set_category (v : string) (t : timer) : timer :=
  mkTimer (id t) (name t) (targetSec t) (revisionSec t) (elapsedSec t)
    (startTs t) (running t) (goalOn t) (goalFired t) v (color t)
    (sort_index t) (deleted t).
Definition set_color (v : string) (t : timer) : timer :=
  mkTimer (id t) (name t) (targetSec t) (revisionSec t) (elapsedSec t)
    (startTs t) (running t) (goalOn t) (goalFired t) (category t) v
    (sort_index t) (deleted t).

(** [clamp(n, a, b)]. *)
Definition clamp (n a b : Q) : Q := Qmax a (Qmin b n).

(** [x || d] on a fractional number. *)
Definition or_q (x d : Q) : Q := if Qeq_bool x 0 then d else x.

(** [a > 0] and [a >= b] as the conditions evaluate them. *)
Definition gt0 (a : Q) : bool := negb (Qle_bool a 0).
Definition geq (a b : Q) : bool := Qle_bool b a.

(** [fmtHMS(sec)]: the argument is floored first. *)
Definition fmtHMS (sec : Q) : string := JS.fmtHMS (Qfloor sec).

Definition DEFAULT_TIMERS (uid : nat -> string) : list timer :=
  [ mkTimer (uid 0%nat) "Working Hour" (11 * 3600) 0 0 None false true false
      "work" "from-cyan-500/30 to-blue-500/30" 0 false ].

(** [t.startTs ? (Date.now() - t.startTs) / 1000 : 0], the run so far. *)
Definition runSoFar (dateNow : Z) (t : timer) : Q :=
  match startTs t with
  | Some s => if JS.truthy s then inject_Z (dateNow - s) / 1000 else 0
  | None => 0
  end.

(** [runningNow] of [timerNetSeconds] and of [exportCSV]:
    [t.running && t.startTs ? (Date.now() - t.startTs) / 1000 : 0]. *)
Definition runningNow (dateNow : Z) (t : timer) : Q :=
  if running t then runSoFar dateNow t else 0.

Definition timerNetSeconds (dateNow : Z) (t : timer) : Q :=
  Qmax 0 ((elapsedSec t + runningNow dateNow t) - or_q (revisionSec t) 0).

(** The text handed to [startCelebration]. *)
Definition goalMessage (t : timer) : string :=
  ("Congratulations! You reached your goal of " +:+ fmtHMS (targetSec t)
     +:+ " for " +:+ JS.dquote +:+ name t +:+ JS.dquote)%string.

(** The goal checker, once a second.  The callback returns the new timer
    and the message of the celebration it started, if any. *)
Definition goalCheck1 (dateNow : Z) (t : timer) : timer * option string :=
  let net := timerNetSeconds dateNow t in
  if goalOn t && negb (goalFired t) && gt0 (targetSec t)
     && geq net (targetSec t)
  then (set_goalFired true t, Some (goalMessage t))
  else (t, None).

Definition goalCheck (dateNow : Z) (prev : list timer) : list timer :=
  map (fun t => fst (goalCheck1 dateNow t)) prev.

Definition goalCheck_events (dateNow : Z) (prev : list timer) : list string :=
  omap (fun t => snd (goalCheck1 dateNow t)) prev.

(** *** Actions *)

Definition startTimer1 (dateNow : Z) (i : string) (t : timer) : timer :=
  if String.eqb (id t) i then
    if running t then t
    else set_startTs (Some dateNow) (set_running true t)
  else if running t then
    let add := runSoFar dateNow t in
    set_elapsedSec (Qmax 0 (elapsedSec t + add))
      (set_startTs None (set_running false t))
  else t.

Definition startTimer (dateNow : Z) (i : string) (prev : list timer) : list timer :=
  map (startTimer1 dateNow i) prev.

Definition pauseTimer1 (dateNow : Z) (i : string) (t : timer) : timer :=
  if negb (String.eqb (id t) i) then t
  else if negb (running t) then t
  else
    let add := runSoFar dateNow t in
    set_elapsedSec (Qmax 0 (elapsedSec t + add))
      (set_startTs None (set_running false t)).

Definition pauseTimer (dateNow : Z) (i : string) (prev : list timer) : list timer :=
  map (pauseTimer1 dateNow i) prev.

Definition cleared (t : timer) : timer :=
  set_goalFired false
    (set_revisionSec 0
       (set_elapsedSec 0 (set_startTs None (set_running false t)))).

Definition resetTimer1 (i : string) (t : timer) : timer :=
  if String.eqb (id t) i then cleared t else t.

Definition resetTimer (i : string) (prev : list timer) : list timer :=
  map (resetTimer1 i) prev.

Definition resetAll (prev : list timer) : list timer := map cleared prev.

Definition adjustTimer1 (dateNow : Z) (i : string) (deltaSeconds : Q)
    (t : timer) : timer :=
  if negb (String.eqb (id t) i) then t
  else if running t then
    let add := runSoFar dateNow t in
    let newElapsed := Qmax 0 (elapsedSec t + add + deltaSeconds) in
    set_startTs (Some dateNow) (set_elapsedSec newElapsed t)
  else
    let newElapsed := Qmax 0 (elapsedSec t + deltaSeconds) in
    set_elapsedSec newElapsed t.

Definition adjustTimer (dateNow : Z) (i : string) (deltaSeconds : Q)
    (prev : list timer) : list timer :=
  map (adjustTimer1 dateNow i deltaSeconds) prev.

(** [applyPatch(id, patch)]: [{ ...t, ...patch }].  The only caller, the
    editor, passes a complete timer object (its form is a copy of the
    timer it was opened on), so the result is the patch itself. *)
Definition applyPatch (i : string) (patch : timer) (prev : list timer) : list timer :=
  map (fun t => if String.eqb (id t) i then patch else t) prev.

Definition newTimer (fresh : string) (len : nat) : timer :=
  mkTimer fresh "New Timer" 0 0 0 None false false false "neutral"
    "from-violet-500/30 to-fuchsia-500/30" (Z.of_nat len) false.

Definition addTimer (fresh : string) (prev : list timer) : list timer :=
  newTimer fresh (length prev) :: prev.

Definition removeTimer (i : string) (prev : list timer) : list timer :=
  List.filter (fun t => negb (String.eqb (id t) i)) prev.

(** [TimerEditor]'s [save]: the form with its edited fields and the
    clamped target. *)
Definition editorSave (form : timer) (nm cat : string) (goal : bool)
    (col : string) (targetH targetM : Q) : timer :=
  let form := set_color col (set_goalOn goal (set_category cat (set_name nm form))) in
  let tSec := clamp (targetH * 3600 + targetM * 60) 0 (999 * 3600) in
  set_targetSec tSec form.

(** [exportCSV(timers)]: the cells of a row are JavaScript values, texts
    or numbers; their final rendering by [String] is not modelled. *)
Inductive cell := CStr (s : string) | CNum (q : Q).

Definition exportCSV_header : list cell :=
  map CStr ["id"; "name"; "category"; "targetSec"; "elapsedSec";
            "revisionSec"; "running"; "startTs"; "goalOn"; "goalFired";
            "color"; "netSec"; "human"]%string.

Definition flag (b : bool) : cell := CNum (if b then 1 else 0).

Definition exportCSV_row (dateNow : Z) (t : timer) : list cell :=
  let net := timerNetSeconds dateNow t in
  [ CStr (id t); CStr (name t); CStr (category t); CNum (targetSec t);
    CNum (inject_Z (Qfloor (elapsedSec t)));
    CNum (inject_Z (Qfloor (or_q (revisionSec t) 0)));
    flag (running t);
    match startTs t with
    | Some s => if JS.truthy s then CNum (inject_Z s) else CStr ""
    | None => CStr ""
    end;
    flag (goalOn t); flag (goalFired t); CStr (color t);
    CNum (inject_Z (Qfloor net)); CStr (fmtHMS net) ].

Definition exportCSV_rows (dateNow : Z) (timers : list timer) : list (list cell) :=
  exportCSV_header :: map (exportCSV_row dateNow) timers.

(** [totalTracked]: the reduce over the timers. *)
Definition totalTracked (dateNow : Z) (timers : list timer) : Q :=
  fold_left (fun a t => a + timerNetSeconds dateNow t) timers 0.

(** *** The component as a state machine *)

Record celebrationT := mkCelebrationT { active : bool; message : string }.

Record app := mkApp {
  timers : list timer;
  celebrating : celebrationT;
  editTimer : option timer
}.

Inductive event :=
| Tick
| Start (i : string)
| Pause (i : string)
| Reset (i : string)
| ResetAll
| Adjust (i : string) (deltaSeconds : Q)
| Add (fresh : string)
| Remove (i : string)
| Edit (k : nat)
| Save (nm cat : string) (goal : bool) (col : string) (targetH targetM : Q)
| CloseEditor
| StopCelebration.

Definition handle (dateNow : Z) (e : event) (a : app) : app :=
  match e with
  | Tick =>
      mkApp (goalCheck dateNow (timers a))
        (match last (goalCheck_events dateNow (timers a)) with
         | Some m => mkCelebrationT true m
         | None => celebrating a
         end)
        (editTimer a)
  | Start i => mkApp (startTimer dateNow i (timers a)) (celebrating a) (editTimer a)
  | Pause i => mkApp (pauseTimer dateNow i (timers a)) (celebrating a) (editTimer a)
  | Reset i => mkApp (resetTimer i (timers a)) (celebrating a) (editTimer a)
  | ResetAll => mkApp (resetAll (timers a)) (celebrating a) (editTimer a)
  | Adjust i d => mkApp (adjustTimer dateNow i d (timers a)) (celebrating a) (editTimer a)
  | Add fresh =>
      mkApp (addTimer fresh (timers a)) (celebrating a)
        (Some (newTimer fresh (length (timers a))))
  | Remove i => mkApp (removeTimer i (timers a)) (celebrating a) None
  | Edit k => mkApp (timers a) (celebrating a) (timers a !! k)
  | Save nm cat goal col th tm =>
      match editTimer a with
      | Some et =>
          mkApp (applyPatch (id et) (editorSave et nm cat goal col th tm) (timers a))
            (celebrating a) None
      | None => a
      end
  | CloseEditor => mkApp (timers a) (celebrating a) None
  | StopCelebration => mkApp (timers a) (mkCelebrationT false "") (editTimer a)
  end.

(** What one event does to a timer that stays in the list, at the clock
    reading [dateNow], when the editor holds the copy [et]. *)
Definition handle1 (dateNow : Z) (et : option timer) (e : event) (t : timer)
    : timer * option string :=
  match e with
  | Tick => goalCheck1 dateNow t
  | Start i => (startTimer1 dateNow i t, None)
  | Pause i => (pauseTimer1 dateNow i t, None)
  | Reset i => (resetTimer1 i t, None)
  | ResetAll => (cleared t, None)
  | Adjust i d => (adjustTimer1 dateNow i d t, None)
  | Save nm cat goal col th tm =>
      match et with
      | Some f =>
          (if String.eqb (id t) (id f)
           then editorSave f nm cat goal col th tm else t, None)
      | None => (t, None)
      end
  | Add _ | Remove _ | Edit _ | CloseEditor | StopCelebration => (t, None)
  end.

(** Events that reset the timer with id [i]. *)
Definition resets (i : string) (e : event) : bool :=
  match e with
  | Reset j => String.eqb i j
  | ResetAll => true
  | _ => false
  end.

(** Events that adjust or reset some timer. *)
Definition adjusts_or_resets (e : event) : bool :=
  match e with
  | Adjust _ _ | Reset _ | ResetAll => true
  | _ => false
  end.

(** The editor writing its copy back. *)
Definition saves (e : event) : bool :=
  match e with Save _ _ _ _ _ _ => true | _ => false end.

(** [history ok c t c' t' log]: starting as [t] at clock reading [c], the
    timer is [t'] at reading [c'] after a sequence of events, each
    allowed by [ok] and handled at a reading not before the previous
    one, whatever copy the editor holds; [log] lists the celebrations
    started for it on the way. *)
Inductive history (ok : event -> bool) (c : Z) (t : timer)
    : Z -> timer -> list string -> Prop :=
| history_nil : history ok c t c t []
| history_step c' t' log d et e :
    history ok c t c' t' log ->
    (c' <= d)%Z ->
    ok e = true ->
    history ok c t d (fst (handle1 d et e t'))
      (log ++ option_list (snd (handle1 d et e t'))).

(** The formula of the specification read on a timer, timestamps and
    clock converted from milliseconds to seconds. *)
Definition spec_net (dateNow : Z) (t : timer) : Q :=
  Spec.netQ (elapsedSec t) (running t)
    (option_map (fun s => inject_Z s / 1000) (startTs t))
    (revisionSec t) (inject_Z dateNow / 1000).

(** A timer is consistent when it runs exactly when it has a start
    timestamp. *)
Definition consistent (t : timer) : Prop :=
  running t = true <-> is_Some (startTs t).

(** At clock reading [c] a timer is well stamped when its start
    timestamp, if any, is a positive reading not after [c]. *)
Definition stamped (c : Z) (t : timer) : Prop :=
  forall s, startTs t = Some s -> (0 < s <= c)%Z.

(** The invariant of the whole state: the timers and the editor's copy
    are consistent. *)
Definition app_consistent (a : app) : Prop :=
  Forall consistent (timers a)
  /\ forall et, editTimer a = Some et -> consistent et.

(** The goal check at each of the clock readings [l], oldest first, as
    the timer sees it. *)
Definition ticks (l : list Z) (t : timer) : timer :=
  fold_left (fun t d => fst (goalCheck1 d t)) l t.

Definition initial (uid : nat -> string) : app :=
  mkApp (DEFAULT_TIMERS uid) (mkCelebrationT false "") None.

Definition run (evs : list (Z * event)) (a : app) : app :=
  fold_left (fun a de => handle (fst de) (snd de) a) evs a.

(** A timer is in good order at clock reading [c] (milliseconds) when it
    is consistent, well stamped, and has accumulated no negative time. *)
Definition good (c : Z) (t : timer) : Prop :=
  consistent t /\ stamped c t /\ 0 <= elapsedSec t.

(** [reachable d a]: the component is in state [a] at wall-clock reading
    [d] (milliseconds), having been mounted on the defaults at a positive
    reading and having handled events at readings that never went back. *)
Inductive reachable : Z -> app -> Prop :=
| reachable_initial uid d :
    (0 < d)%Z -> reachable d (initial uid)
| reachable_step d a d' e :
    reachable d a -> (d <= d')%Z -> reachable d' (handle d' e a).

(** *** Quick adjust, drag and drop, and the cloud rows *)

Definition set_sort_index (v : Z) (t : timer) : timer :=
  mkTimer (id t) (name t) (targetSec t) (revisionSec t) (elapsedSec t)
    (startTs t) (running t) (goalOn t) (goalFired t) (category t) (color t)
    v (deleted t).

(** [toSec()] of [QuickAdjust] on the form fields [h] and [m]. *)
Definition toSec (h m : option Z) : Z :=
  Z.max 0 (Common.field_or0 h * 3600 + Common.field_or0 m * 60).

(** [add()] and [sub()], with the card's wiring [onAdd = s => adjust(+s)]
    and [onSub = s => adjust(-s)], as updaters of the timers. *)
Definition QuickAdjust_add (dateNow : Z) (i : string) (h m : option Z)
    (prev : list timer) : list timer :=
  let s := toSec h m in
  if (0 <? s)%Z then adjustTimer dateNow i (inject_Z s) prev else prev.

Definition QuickAdjust_sub (dateNow : Z) (i : string) (h m : option Z)
    (prev : list timer) : list timer :=
  let s := toSec h m in
  if (0 <? s)%Z then adjustTimer dateNow i (- inject_Z s) prev else prev.

Definition onDragOverItem (dragId : option string) (overId : string)
    (prev : list timer) : list timer :=
  Common.drag_over id (fun idx t => set_sort_index (Z.of_nat idx) t)
    dragId overId prev.

(** The rows [upsertAllToCloud(userId, list)] sends; [stamp] is the text
    of [new Date().toISOString()]. *)
Definition toRow (userId stamp : string) (idx : nat) (t : timer) : Common.row :=
  Common.mkRow (id t) userId (name t)
    (Qfloor (or_q (targetSec t) 0)) (Qfloor (or_q (revisionSec t) 0))
    (Qfloor (or_q (elapsedSec t) 0))
    (match startTs t with
     | Some s => if JS.truthy s then Some s else None
     | None => None
     end)
    (running t) (goalOn t) (goalFired t) (category t) (color t)
    (Some (Z.of_nat idx)) (Some (deleted t)) stamp.

Definition upsertAllToCloud (userId stamp : string)
    (list : Datatypes.list timer) : Datatypes.list Common.row :=
  imap (toRow userId stamp) list.

(** The timer a row is mapped to, on load and on a realtime notice. *)
Definition fromRow (r : Common.row) : timer :=
  mkTimer (Common.row_id r) (Common.row_name r)
    (inject_Z (Common.target_sec r)) (inject_Z (Common.revision_sec r))
    (inject_Z (Common.elapsed_sec r)) (Common.start_ts r)
    (Common.row_running r) (Common.goal_on r) (Common.goal_fired r)
    (Common.row_category r) (Common.row_color r) (Common.sort_index_or0 r)
    (Common.deleted_flag r).

(** The timers after the load on sign-in answered with [rows] ([None]
    for null): with no rows and local timers, the local timers stay (and
    are uploaded). *)
Definition loadFromCloud (rows : option (list Common.row))
    (timers : list timer) : list timer :=
  match rows with
  | None => timers
  | Some rows =>
      if (length rows =? 0)%nat && (0 <? length timers)%nat then timers
      else Common.sort_by sort_index (map fromRow rows)
  end.

(** The realtime handler as an updater of the timers; the row is
    [payload.new || payload.old]. *)
Definition onRealtime (p : Common.payload) (prev : list timer) : list timer :=
  match p with
  | Common.DELETE old_id =>
      match old_id with
      | Some i => if String.eqb i "" then prev else Common.drop_id id i prev
      | None => prev
      end
  | Common.CHANGE new old =>
      match (match new with Some r => Some r | None => old end) with
      | None => prev
      | Some r =>
          if Common.deleted_flag r then Common.drop_id id (Common.row_id r) prev
          else Common.upsert id sort_index (fromRow r) prev
      end
  end.

End AppSecond.

(** ** Concrete timers used as test inputs *)

Module Examples.

(** A timer of the stand-alone component, running since reading 100 with
    50 seconds accumulated. *)
Definition stand_running : Part000.timer :=
  Part000.mkTimer "t1" "Focus" 3600 0 50 (Some 100) true true false
    "work" "from-slate-400/20 to-slate-600/20" 0 false.

Definition stand_paused : Part000.timer :=
  Part000.mkTimer "t2" "Break" 600 0 20 None false true false
    "break" "from-amber-400/20 to-orange-600/20" 1 false.

(** The same two timers in the first component of [src/App.jsx]. *)
Definition first_running : AppFirst.timer :=
  AppFirst.mkTimer "t1" "Focus" 3600 0 50 (Some 100) true true false
    "work" "from-slate-400/20 to-slate-600/20" 0.

Definition first_paused : AppFirst.timer :=
  AppFirst.mkTimer "t2" "Break" 600 0 20 None false true false
    "break" "from-amber-400/20 to-orange-600/20" 1.

(** A paused timer of the first component whose net seconds have passed
    its target while its goal has not fired. *)
Definition first_reached : AppFirst.timer :=
  AppFirst.mkTimer "t3" "Music" 60 0 100 None false true false
    "neutral" "from-rose-400/20 to-rose-600/20" 2.

(** A fresh timer of the first component. *)
Definition first_fresh : AppFirst.timer :=
  AppFirst.mkTimer "t1" "Focus" 3600 0 0 None false true false
    "work" "from-slate-400/20 to-slate-600/20" 0.

(** The same two timers in the second component; the start timestamp is
    in milliseconds. *)
Definition second_running : AppSecond.timer :=
  AppSecond.mkTimer "t1" "Focus" 3600 0 50 (Some 100000) true true false
    "work" "from-cyan-500/30 to-blue-500/30" 0 false.

Definition second_paused : AppSecond.timer :=
  AppSecond.mkTimer "t2" "Break" 600 0 20 None false true false
    "break" "from-amber-500/30 to-orange-500/30" 1 false.

(** A timer of the second component with a one-minute goal. *)
Definition second_minute : AppSecond.timer :=
  AppSecond.mkTimer "t4" "Music" 60 0 0 None false true false
    "neutral" "from-rose-500/30 to-red-500/30" 0 false.

(** Ids as [uid()] could have drawn them: the decimal of the call count. *)
Definition uid (k : nat) : string := pretty k.

(** The three components mounted at reading 100000 (100 seconds), with the
    first default timer started at once; the second component got a new
    timer before. *)
Definition stand_started : Part000.app :=
  Part000.handle 100000 (Part000.Start "0") (Part000.initial uid 100000).

Definition first_started : AppFirst.app :=
  AppFirst.handle 100000 (AppFirst.Start "0") (AppFirst.initial uid).

Definition second_started : AppSecond.app :=
  AppSecond.handle 100000 (AppSecond.Start "0")
    (AppSecond.handle 100000 (AppSecond.Add "n1") (AppSecond.initial uid)).

(** The second component after one more timer was added. *)
Definition second_three : AppSecond.app :=
  AppSecond.handle 100000 (AppSecond.Add "n2") second_started.

(** The started default timer as it stands in each of these states. *)
Definition stand_working : Part000.timer :=
  Part000.mkTimer (uid 0) "Working Hour" (11 * 3600) 0 0 (Some 100) true
    true false "work" "from-slate-400/20 to-slate-600/20" 0 false.

Definition first_working : AppFirst.timer :=
  AppFirst.mkTimer (uid 0) "Working Hour" (11 * 3600) 0 0 (Some 100) true
    true false "work" "from-slate-400/20 to-slate-600/20" 0.

Definition second_working : AppSecond.timer :=
  AppSecond.mkTimer (uid 0) "Working Hour" (11 * 3600) 0 0 (Some 100000) true
    true false "work" "from-cyan-500/30 to-blue-500/30" 0 false.

(** Rows of the cloud table as another device could have written them:
    a live one for a timer not yet in the list, and a soft-deleted one
    for the timer t2. *)
Definition row_music : Common.row :=
  Common.mkRow "t4" "u1" "Music" 60 0 30 None false true false "neutral"
    "from-rose-400/20 to-rose-600/20" (Some 1) (Some false)
    "2024-01-01T00:00:00.000Z".

Definition row_gone : Common.row :=
  Common.mkRow "t2" "u1" "Break" 600 0 20 None false true false "break"
    "from-amber-400/20 to-orange-600/20" (Some 1) (Some true)
    "2024-01-01T00:00:00.000Z".

(** A paused timer of the second component with 59.5 seconds
    accumulated. *)
Definition second_fraction : AppSecond.timer :=
  AppSecond.mkTimer "t5" "Read" 600 0 (119 # 2) None false true false
    "neutral" "from-rose-500/30 to-red-500/30" 0 false.

(** A paused timer of the stand-alone component whose target is not a
    whole number of minutes, and with no category. *)
Definition stand_odd : Part000.timer :=
  Part000.mkTimer "t6" "Walk" 90 0 0 None false true false
    "" "from-emerald-400/20 to-green-600/20" 1 false.

(** Rows for a running timer as another device could have written them:
    one whose start timestamp lies ahead of this device's clock (200
    seconds, in milliseconds, while the local readings below are around
    100 seconds), and one whose start timestamp is 0. *)
Definition row_ahead : Common.row :=
  Common.mkRow "t7" "u1" "Run" 3600 0 5 (Some 200000) true true false
    "neutral" "from-rose-500/30 to-red-500/30" (Some 0) (Some false)
    "2024-01-01T00:00:00.000Z".

Definition row_zero : Common.row :=
  Common.mkRow "t8" "u1" "Run" 3600 0 5 (Some 0) true true false
    "neutral" "from-rose-400/20 to-rose-600/20" (Some 0) (Some false)
    "2024-01-01T00:00:00.000Z".

(** The second component and the stand-alone component after the
    realtime notice for such a row arrived on a list holding one paused
    timer. *)
Definition second_synced : AppSecond.app :=
  AppSecond.mkApp
    (AppSecond.onRealtime (Common.CHANGE (Some row_ahead) None)
       [second_paused])
    (AppSecond.mkCelebrationT false EmptyString) None.

Definition stand_synced : Part000.app :=
  Part000.mkApp
    (Part000.onRealtime (Common.CHANGE (Some row_zero) None) [stand_paused])
    None 100.

End Examples.

(** ** Readers

    What a reader of the texts the code writes gets back: the seconds
    from an hh:mm:ss text and the text from an escaped cell body.  They
    are used to show that the texts determine what was written. *)

Module Readers.

(** The decimal digit [d] as a character, and the value of a digit
    character. *)
Definition digit (d : Z) : Ascii.ascii := Ascii.ascii_of_nat (48 + Z.to_nat d).
Definition digit_val (c : Ascii.ascii) : Z := Z.of_nat (Ascii.nat_of_ascii c) - 48.

(** A number below 100 written with two digits. *)
Definition two_digits (n : Z) : string :=
  String (digit (n / 10)) (String (digit (n mod 10)) EmptyString).

(** The seconds an eight-character hh:mm:ss text stands for. *)
Definition unHMS (s : string) : option Z :=
  match s with
  | String a (String b (String _ (String c (String d (String _
      (String e (String f EmptyString))))))) =>
      Some ((10 * digit_val a + digit_val b) * 3600
            + (10 * digit_val c + digit_val d) * 60
            + (10 * digit_val e + digit_val f))
  | _ => None
  end.

(** Every doubled double quote read as one. *)
Fixpoint undouble (s : string) : string :=
  match s with
  | EmptyString => EmptyString
  | String c r =>
      if Ascii.eqb c (Ascii.ascii_of_nat 34)
      then match r with
           | String _ r' => String c (undouble r')
           | EmptyString => String c EmptyString
           end
      else String c (undouble r)
  end.

End Readers.

(** * Properties *)

(** ** JavaScript conventions *)

Module JSFacts.

Lemma or_num_0 (x : Z) : JS.or_num x 0 = x.
Proof. unfold JS.or_num. destruct (Z.eqb_spec x 0); congruence. Qed.

Lemma or_num_nonzero (x d : Z) : x <> 0 -> JS.or_num x d = x.
Proof. unfold JS.or_num. destruct (Z.eqb_spec x 0); congruence. Qed.

Lemma or_ts_nonzero (s d : Z) : s <> 0 -> JS.or_ts (Some s) d = s.
Proof. apply or_num_nonzero. Qed.

Lemma truthy_nonzero (s : Z) : s <> 0 -> JS.truthy s = true.
Proof. unfold JS.truthy. destruct (Z.eqb_spec s 0); simpl; congruence. Qed.

Lemma truthy_pos (s : Z) : 0 < s -> JS.truthy s = true.
Proof. intros H. apply truthy_nonzero. lia. Qed.

End JSFacts.

(** ** The stand-alone component *)

Module Part000Facts.

Import Part000.

(** The shared net expression is the formula of the specification. *)
Lemma stand_net_spec (nowSec : Z) (t : timer) : net nowSec t = spec_net nowSec t.
Proof.
  unfold net, spec_net, Spec.net, runExtra.
  now rewrite JSFacts.or_num_0.
Qed.

Lemma stand_net_nonneg (nowSec : Z) (t : timer) : 0 <= net nowSec t.
Proof. unfold net. lia. Qed.

Section Totals.

Variable nowSec : Z.

Let body (acc : Z * gmap string Z) (t : timer) : Z * gmap string Z :=
  (fst acc + net nowSec t, <[id t := net nowSec t]> (snd acc)).

Lemma stand_loop_sum (ts : list timer) (acc : Z * gmap string Z) :
  fst (fold_left body ts acc)
  = fst acc + foldr Z.add 0 (map (net nowSec) ts).
Proof.
  revert acc. induction ts as [|t ts IH]; intros acc; simpl.
  - lia.
  - rewrite IH. simpl. lia.
Qed.

Lemma stand_loop_lookup_other (ts : list timer) (acc : Z * gmap string Z) (i : string) :
  i ∉ map id ts ->
  snd (fold_left body ts acc) !! i = snd acc !! i.
Proof.
  revert acc. induction ts as [|t ts IH]; intros acc Hi; simpl; [done|].
  simpl in Hi. apply not_elem_of_cons in Hi as [Hne Hi].
  rewrite IH by done. simpl. by rewrite lookup_insert_ne.
Qed.

Lemma stand_loop_lookup (ts : list timer) (acc : Z * gmap string Z) (t : timer) :
  NoDup (map id ts) -> t ∈ ts ->
  snd (fold_left body ts acc) !! id t = Some (net nowSec t).
Proof.
  revert acc. induction ts as [|u ts IH]; intros acc Hnd Hin.
  - by apply elem_of_nil in Hin.
  - simpl in Hnd. apply NoDup_cons in Hnd as [Hu Hnd].
    apply elem_of_cons in Hin as [->|Hin]; simpl.
    + rewrite stand_loop_lookup_other by done. simpl. apply lookup_insert_eq.
    + by apply IH.
Qed.

End Totals.

(** The card of every timer shows the formula, provided ids are not
    shared. *)
Lemma stand_netSeconds_spec (nowSec : Z) (ts : list timer) (t : timer) :
  NoDup (map id ts) -> t ∈ ts ->
  netSeconds nowSec ts t = spec_net nowSec t.
Proof.
  intros Hnd Hin. unfold netSeconds, totals, totals_loop. simpl.
  rewrite (stand_loop_lookup nowSec ts (0, ∅) t Hnd Hin).
  rewrite JSFacts.or_num_0. apply stand_net_spec.
Qed.

Lemma stand_total_spec (nowSec : Z) (ts : list timer) :
  total (totals nowSec ts)
  = JS.fmtHMS (foldr Z.add 0 (map (spec_net nowSec) ts)).
Proof.
  unfold totals, totals_loop. simpl. f_equal.
  rewrite (stand_loop_sum nowSec ts (0, ∅)). simpl fst.
  rewrite Z.add_0_l. f_equal. apply map_ext. intros t. apply stand_net_spec.
Qed.

(** *** The goal check *)

Lemma stand_goalCheck1_fires (nowSec : Z) (t : timer) :
  goalOn t = true -> goalFired t = false -> 0 < targetSec t ->
  targetSec t <= spec_net nowSec t ->
  goalCheck1 nowSec t
  = (set_goalFired true t, Some (mkCelebration (name t) (targetSec t))).
Proof.
  intros Hon Hfired Hpos Hnet. unfold goalCheck1.
  rewrite Hon, Hfired, JSFacts.truthy_pos by done. simpl.
  rewrite stand_net_spec.
  destruct (Z.leb_spec (targetSec t) (spec_net nowSec t)); [done | lia].
Qed.

Lemma stand_goalCheck1_fired (nowSec : Z) (t : timer) :
  goalFired t = true -> goalCheck1 nowSec t = (t, None).
Proof.
  intros H. unfold goalCheck1. rewrite H.
  by rewrite orb_true_r.
Qed.

(** The goal check touches [goalFired] only. *)
Lemma stand_goalCheck1_shape (nowSec : Z) (t : timer) :
  fst (goalCheck1 nowSec t) = t
  \/ fst (goalCheck1 nowSec t) = set_goalFired true t.
Proof.
  unfold goalCheck1.
  destruct (negb (goalOn t) || goalFired t || negb (JS.truthy (targetSec t)));
    [by left|].
  destruct (targetSec t <=? net nowSec t); [by right | by left].
Qed.

(** The updaters are the callbacks mapped over the list. *)
Lemma stand_handle_timers (dateNow : Z) (e : event) (a : app) (k : nat) (t : timer) :
  match e with Add _ | Remove _ => False | _ => True end ->
  timers a !! k = Some t ->
  timers (handle dateNow e a) !! k = Some t
  \/ timers (handle dateNow e a) !! k
     = Some (fst (handle1 (JS.nowSeconds dateNow) e t)).
Proof.
  intros He Hk.
  destruct e; try done; simpl;
    try (right; unfold startTimer, pauseTimer, resetTimer, adjustTimer,
           setTheme, setTarget, setName, setGoal, setCategory, resetDay;
         rewrite list_lookup_fmap, Hk; reflexivity);
    try (by left).
  destruct (JS.nowSeconds dateNow =? nowSec a); [by left|].
  right. simpl. unfold goalCheck. by rewrite list_lookup_fmap, Hk.
Qed.

Ltac cases :=
  repeat match goal with
         | |- context [if ?b then _ else _] => destruct b eqn:?
         | |- context [match ?o with Some _ => _ | None => _ end] =>
             destruct o eqn:?
         end.

(** No event but a reset of the timer clears [goalFired]; none changes
    the id. *)
Lemma stand_handle1_id (now : Z) (e : event) (t : timer) :
  id (fst (handle1 now e t)) = id t.
Proof.
  destruct e; simpl; try reflexivity;
    unfold goalCheck1, startTimer1, pauseTimer1, resetTimer1, adjustTimer1;
    cases; reflexivity.
Qed.

Lemma stand_handle1_goalFired (now : Z) (e : event) (t : timer) :
  resets (id t) e = false -> goalFired t = true ->
  goalFired (fst (handle1 now e t)) = true
  /\ snd (handle1 now e t) = None.
Proof.
  intros He Hf.
  destruct e; simpl in *; try done;
    try (rewrite stand_goalCheck1_fired by done; done);
    unfold startTimer1, pauseTimer1, resetTimer1, adjustTimer1;
    try rewrite He; cases; done.
Qed.

Lemma stand_history_goalFired (i : string) (c c' : Z) (t t' : timer)
    (log : list celebration) :
  id t = i -> goalFired t = true ->
  history (fun e => negb (resets i e)) c t c' t' log ->
  id t' = i /\ goalFired t' = true /\ log = [].
Proof.
  intros Hi Hf H. induction H as [|c' t' log d e H IH Hle Hok].
  - done.
  - destruct IH as (Hi' & Hf' & ->).
    apply negb_true_iff in Hok. rewrite <- Hi' in Hok.
    destruct (stand_handle1_goalFired d e t' Hok Hf') as [Hg Hn].
    rewrite stand_handle1_id, Hn. done.
Qed.

(** *** Start and pause *)

Lemma stand_pauseTimer1_running (now s : Z) (t : timer) :
  running t = true -> startTs t = Some s -> s <> 0 ->
  pauseTimer1 now (id t) t
  = set_elapsedSec (elapsedSec t + (now - s))
      (set_startTs None (set_running false t)).
Proof.
  intros Hr Hs Hnz. unfold pauseTimer1.
  rewrite String.eqb_refl, Hr, Hs. simpl.
  by rewrite JSFacts.or_num_nonzero.
Qed.

Lemma stand_pauseTimer1_paused (now : Z) (i : string) (t : timer) :
  running t = false -> pauseTimer1 now i t = t.
Proof. intros Hr. unfold pauseTimer1. rewrite Hr. by rewrite orb_true_r. Qed.

Lemma stand_pauseTimer1_other (now : Z) (i : string) (t : timer) :
  id t <> i -> pauseTimer1 now i t = t.
Proof.
  intros Hne. unfold pauseTimer1.
  apply String.eqb_neq in Hne. by rewrite Hne.
Qed.

Lemma stand_startTimer1_paused (now : Z) (t : timer) :
  running t = false ->
  startTimer1 now (id t) t = set_startTs (Some now) (set_running true t).
Proof. intros Hr. unfold startTimer1. by rewrite String.eqb_refl, Hr. Qed.

Lemma stand_startTimer1_other_running (now s : Z) (i : string) (t : timer) :
  id t <> i -> running t = true -> startTs t = Some s -> s <> 0 ->
  startTimer1 now i t
  = set_elapsedSec (elapsedSec t + (now - s))
      (set_startTs None (set_running false t)).
Proof.
  intros Hne Hr Hs Hnz. unfold startTimer1.
  apply String.eqb_neq in Hne. rewrite Hne, Hr, Hs. simpl.
  by rewrite JSFacts.or_num_nonzero.
Qed.

Lemma stand_startTimer1_other_paused (now : Z) (i : string) (t : timer) :
  id t <> i -> running t = false -> startTimer1 now i t = t.
Proof.
  intros Hne Hr. unfold startTimer1.
  apply String.eqb_neq in Hne. by rewrite Hne, Hr.
Qed.

(** *** Adjust *)

Lemma stand_adjustTimer1_running (now s deltaSec : Z) (t : timer) :
  running t = true -> startTs t = Some s ->
  adjustTimer1 now (id t) deltaSec t
  = set_startTs (Some now)
      (set_elapsedSec (Z.max 0 (elapsedSec t + (now - s) + deltaSec)) t).
Proof.
  intros Hr Hs. unfold adjustTimer1.
  by rewrite String.eqb_refl, Hr, Hs.
Qed.

Lemma stand_adjustTimer1_paused (now deltaSec : Z) (t : timer) :
  running t = false ->
  adjustTimer1 now (id t) deltaSec t
  = set_elapsedSec (Z.max 0 (elapsedSec t + deltaSec)) t.
Proof.
  intros Hr. unfold adjustTimer1.
  rewrite String.eqb_refl, Hr. simpl. by destruct (startTs t).
Qed.

(** Adjusting a running timer moves its net seconds by the delta: the
    run so far is neither lost nor counted twice. *)
Lemma stand_adjustTimer1_net (now deltaSec : Z) (t : timer) :
  running t = true ->
  0 <= revisionSec t ->
  0 <= elapsedSec t + runExtra now t - revisionSec t ->
  net now (adjustTimer1 now (id t) deltaSec t)
  = Z.max 0 (net now t + deltaSec).
Proof.
  intros Hr Hrev Hraw. unfold adjustTimer1, net, runExtra in *.
  rewrite String.eqb_refl, Hr in *. simpl.
  destruct (startTs t) as [s|] eqn:Hs; simpl;
    rewrite ?Hr, ?Hs, !JSFacts.or_num_0; lia.
Qed.

(** *** Net seconds never go down without an adjustment or a reset *)

Lemma stand_net_mono_clock (now1 now2 : Z) (t : timer) :
  now1 <= now2 -> net now1 t <= net now2 t.
Proof.
  intros Hle. unfold net, runExtra.
  destruct (startTs t), (running t); lia.
Qed.

Lemma stand_handle1_mono (c d : Z) (e : event) (t : timer) :
  0 < c -> c <= d -> stamped c t -> adjusts_or_resets e = false ->
  stamped d (fst (handle1 d e t))
  /\ net c t <= net d (fst (handle1 d e t)).
Proof.
  intros Hc Hcd Hst He.
  assert (Hkeep : stamped d t) by (intros s Hs; specialize (Hst s Hs); lia).
  assert (Hnet := stand_net_mono_clock c d t Hcd).
  destruct e; simpl in *; try done;
    try (split; [done | exact Hnet]).
  - (* goal check *)
    destruct (stand_goalCheck1_shape d t) as [-> | ->]; done.
  - (* start *)
    unfold startTimer1. destruct (String.eqb (id t) i).
    + destruct (running t) eqn:Hr; [done|]. split.
      * intros s [= <-]. lia.
      * revert Hnet. unfold net, runExtra. simpl. rewrite Hr.
        destruct (startTs t); lia.
    + destruct (running t) eqn:Hr; [|done]. split.
      * intros s [=].
      * unfold net, runExtra. simpl. rewrite Hr.
        destruct (startTs t) as [s|] eqn:Hs; simpl.
        -- rewrite (JSFacts.or_num_nonzero s d) by (specialize (Hst s Hs); lia). lia.
        -- lia.
  - (* pause *)
    unfold pauseTimer1. destruct (String.eqb (id t) i); simpl; [|done].
    destruct (running t) eqn:Hr; simpl; [|done]. split.
    + intros s [=].
    + unfold net, runExtra. simpl. rewrite Hr.
      destruct (startTs t) as [s|] eqn:Hs; simpl.
      * rewrite (JSFacts.or_num_nonzero s d) by (specialize (Hst s Hs); lia). lia.
      * lia.
  - destruct (String.eqb (id t) i); done.
  - destruct (String.eqb (id t) i); done.
  - destruct (String.eqb (id t) i); done.
  - destruct (String.eqb (id t) i); done.
  - destruct (String.eqb (id t) i); done.
Qed.

Lemma stand_history_mono (c c' : Z) (t t' : timer) (log : list celebration) :
  0 < c -> stamped c t ->
  history (fun e => negb (adjusts_or_resets e)) c t c' t' log ->
  c <= c' /\ stamped c' t' /\ net c t <= net c' t'.
Proof.
  intros Hc Hst H. induction H as [|c' t' log d e H IH Hle Hok].
  - split; [|split]; [lia | done | lia].
  - destruct IH as (Hcc & Hst' & Hnet).
    apply negb_true_iff in Hok.
    destruct (stand_handle1_mono c' d e t') as [Hs Hn]; [lia | done | done | done |].
    split; [|split]; [lia | done | lia].
Qed.

(** *** Consistency of the running flag and the start timestamp *)

Lemma stand_handle1_consistent (now : Z) (e : event) (t : timer) :
  consistent t -> consistent (fst (handle1 now e t)).
Proof.
  unfold consistent. intros [H1 H2].
  assert (Hc : (running t = true /\ exists s, startTs t = Some s)
               \/ (running t = false /\ startTs t = None)).
  { destruct (running t) eqn:Hr; destruct (startTs t) as [s|] eqn:Hs.
    - left. eauto.
    - destruct (H1 eq_refl) as [x [=]].
    - discriminate H2. eauto.
    - right. done. }
  clear H1 H2.
  destruct Hc as [[Hr [s Hs]] | [Hr Hs]];
    destruct e; simpl;
    unfold goalCheck1, startTimer1, pauseTimer1, resetTimer1, adjustTimer1,
      cleared;
    rewrite ?Hr, ?Hs; cases; simpl; rewrite ?Hr, ?Hs;
    (split; [intros Hx; by eauto | intros [x Hx]; by simplify_eq]).
Qed.

Lemma stand_newTimer_consistent (fresh : string) (len : nat) :
  consistent (newTimer fresh len).
Proof. split; [done | by intros [x Hx]]. Qed.

Lemma stand_DEFAULT_TIMERS_consistent (uid : nat -> string) :
  Forall consistent (DEFAULT_TIMERS uid).
Proof. repeat constructor; try done; by intros [x Hx]. Qed.

Lemma stand_handle_consistent (dateNow : Z) (e : event) (a : app) :
  Forall consistent (timers a) ->
  Forall consistent (timers (handle dateNow e a)).
Proof.
  intros H.
  assert (Hmap : forall ev, Forall consistent
            (map (fun t => fst (handle1 (JS.nowSeconds dateNow) ev t)) (timers a))).
  { intros ev. apply Forall_fmap. eapply Forall_impl; [exact H|].
    intros t Ht. by apply stand_handle1_consistent. }
  destruct e; simpl; try done;
    try (exact (Hmap (Start i))); try (exact (Hmap (Pause i)));
    try (exact (Hmap (Reset i))); try (exact (Hmap (Adjust i deltaSec)));
    try (exact (Hmap (SetTheme i cls))); try (exact (Hmap (SetTarget i sec)));
    try (exact (Hmap (SetName i nm))); try (exact (Hmap (SetGoal i on)));
    try (exact (Hmap (SetCategory i c))); try (exact (Hmap ResetDay)).
  - destruct (JS.nowSeconds dateNow =? nowSec a); [done|]. exact (Hmap Tick).
  - unfold removeTimer. apply List.Forall_forall. intros t Ht.
    apply List.filter_In in Ht as [Ht _].
    by apply (proj1 (List.Forall_forall _ _) H).
  - unfold addTimer. apply Forall_app. split; [done|].
    constructor; [apply stand_newTimer_consistent | constructor].
Qed.

Lemma stand_initial_consistent (uid : nat -> string) (dateNow : Z) :
  Forall consistent (timers (initial uid dateNow)).
Proof.
  change (timers (initial uid dateNow))
    with (goalCheck (JS.nowSeconds dateNow) (DEFAULT_TIMERS uid)).
  unfold goalCheck. apply Forall_fmap.
  eapply Forall_impl; [apply stand_DEFAULT_TIMERS_consistent|].
  intros t Ht. exact (stand_handle1_consistent _ Tick t Ht).
Qed.

(** *** Two runs add up *)

Lemma stand_ticks_shape (l : list Z) (t : timer) :
  elapsedSec (ticks l t) = elapsedSec t
  /\ startTs (ticks l t) = startTs t
  /\ running (ticks l t) = running t
  /\ id (ticks l t) = id t.
Proof.
  revert t. induction l as [|d l IH]; intros t; [done|].
  unfold ticks in *. simpl.
  destruct (IH (fst (goalCheck1 d t))) as (He & Hs & Hr & Hi).
  rewrite He, Hs, Hr, Hi.
  by destruct (stand_goalCheck1_shape d t) as [-> | ->].
Qed.

Lemma stand_start_pause_twice (t1 t2 t3 t4 : Z) (l1 l2 l3 : list Z) (t : timer) :
  running t = false -> t1 <> 0 -> t3 <> 0 ->
  elapsedSec
    (pauseTimer1 t4 (id t)
       (ticks l3
          (startTimer1 t3 (id t)
             (ticks l2
                (pauseTimer1 t2 (id t)
                   (ticks l1 (startTimer1 t1 (id t) t)))))))
  = elapsedSec t + ((t2 - t1) + (t4 - t3)).
Proof.
  intros Hr H1 H3.
  pose (a := startTimer1 t1 (id t) t).
  assert (Ha : elapsedSec a = elapsedSec t /\ startTs a = Some t1
               /\ running a = true /\ id a = id t).
  { unfold a. by rewrite stand_startTimer1_paused. }
  pose (b := ticks l1 a).
  destruct (stand_ticks_shape l1 a) as (Hb1 & Hb2 & Hb3 & Hb4). fold b in Hb1, Hb2, Hb3, Hb4.
  destruct Ha as (Ha1 & Ha2 & Ha3 & Ha4).
  pose (c := pauseTimer1 t2 (id t) b).
  assert (Hc : elapsedSec c = elapsedSec t + (t2 - t1) /\ startTs c = None
               /\ running c = false /\ id c = id t).
  { unfold c. rewrite <- Ha4, <- Hb4.
    rewrite (stand_pauseTimer1_running t2 t1) by congruence.
    simpl. rewrite Hb1, Ha1, Hb4, Ha4. done. }
  destruct Hc as (Hc1 & Hc2 & Hc3 & Hc4).
  pose (d := ticks l2 c).
  destruct (stand_ticks_shape l2 c) as (Hd1 & Hd2 & Hd3 & Hd4). fold d in Hd1, Hd2, Hd3, Hd4.
  pose (e := startTimer1 t3 (id t) d).
  assert (He : elapsedSec e = elapsedSec t + (t2 - t1) /\ startTs e = Some t3
               /\ running e = true /\ id e = id t).
  { unfold e. rewrite <- Hc4, <- Hd4.
    rewrite stand_startTimer1_paused by congruence.
    simpl. rewrite Hd1, Hc1, Hd4, Hc4. done. }
  destruct He as (He1 & He2 & He3 & He4).
  pose (f := ticks l3 e).
  destruct (stand_ticks_shape l3 e) as (Hf1 & Hf2 & Hf3 & Hf4). fold f in Hf1, Hf2, Hf3, Hf4.
  fold a b c d e f. rewrite <- He4, <- Hf4.
  rewrite (stand_pauseTimer1_running t4 t3) by congruence.
  simpl. rewrite Hf1, He1. lia.
Qed.

(** *** The export *)

Lemma stand_exportCSV_row (nowSec : Z) (ts : list timer) (k : nat) (t : timer) :
  ts !! k = Some t ->
  exportCSV_rows nowSec ts !! S k
  = Some [name t; JS.String_of (spec_net nowSec t);
          JS.fmtHMS (spec_net nowSec t)].
Proof.
  intros Hk. unfold exportCSV_rows. simpl.
  rewrite list_lookup_fmap, Hk. simpl. by rewrite stand_net_spec.
Qed.

(** *** Good order of every reachable state *)

Lemma stand_good_later (c d : Z) (t : timer) :
  c <= d -> good c t -> good d t.
Proof.
  intros Hcd (Hcons & Hst & He). split; [done|]. split; [|done].
  intros s Hs. specialize (Hst s Hs). lia.
Qed.

Lemma stand_handle1_good (c d : Z) (e : event) (t : timer) :
  0 < c -> c <= d -> good c t -> good d (fst (handle1 d e t)).
Proof.
  intros Hc Hcd (Hcons & Hst & He).
  split; [by apply stand_handle1_consistent|].
  assert (Hkeep : stamped d t) by (intros s Hs; specialize (Hst s Hs); lia).
  assert (Hrun : 0 <= elapsedSec t + (d - JS.or_ts (startTs t) d)).
  { unfold JS.or_ts. destruct (startTs t) as [s|] eqn:Hs; [|lia].
    specialize (Hst s Hs). rewrite JSFacts.or_num_nonzero; lia. }
  destruct e; simpl;
    unfold goalCheck1, startTimer1, pauseTimer1, resetTimer1, adjustTimer1,
      cleared;
    cases; simpl;
    (split; [intros s Hs; simpl in Hs; first [by apply Hkeep | simplify_eq; lia]
            | first [exact He | exact Hrun | lia]]).
Qed.

Lemma stand_newTimer_good (c : Z) (fresh : string) (len : nat) :
  good c (newTimer fresh len).
Proof.
  split; [apply stand_newTimer_consistent|]. split; [intros s [=] | done].
Qed.

Lemma stand_DEFAULT_TIMERS_good (c : Z) (uid : nat -> string) :
  Forall (good c) (DEFAULT_TIMERS uid).
Proof.
  unfold DEFAULT_TIMERS.
  repeat (apply Forall_cons; split;
          [split; [split; [done | by intros [x Hx]]
                  | split; [intros s [=] | done]] |]).
  apply Forall_nil_2.
Qed.

Lemma stand_handle_good (c d : Z) (e : event) (a : app) :
  0 < c -> c <= JS.nowSeconds d ->
  Forall (good c) (timers a) ->
  Forall (good (JS.nowSeconds d)) (timers (handle d e a)).
Proof.
  intros Hc Hcd H.
  assert (Hlater : Forall (good (JS.nowSeconds d)) (timers a)).
  { eapply Forall_impl; [exact H|]. intros t. by apply stand_good_later. }
  assert (Hmap : forall ev, Forall (good (JS.nowSeconds d))
            (map (fun t => fst (handle1 (JS.nowSeconds d) ev t)) (timers a))).
  { intros ev. apply Forall_fmap. eapply Forall_impl; [exact H|].
    intros t Ht. by apply (stand_handle1_good c). }
  destruct e; simpl; try done;
    try (exact (Hmap (Start i))); try (exact (Hmap (Pause i)));
    try (exact (Hmap (Reset i))); try (exact (Hmap (Adjust i deltaSec)));
    try (exact (Hmap (SetTheme i cls))); try (exact (Hmap (SetTarget i sec)));
    try (exact (Hmap (SetName i nm))); try (exact (Hmap (SetGoal i on)));
    try (exact (Hmap (SetCategory i c0))); try (exact (Hmap ResetDay)).
  - destruct (JS.nowSeconds d =? nowSec a); [done|]. exact (Hmap Tick).
  - unfold removeTimer. apply List.Forall_forall. intros t Ht.
    apply List.filter_In in Ht as [Ht _].
    by apply (proj1 (List.Forall_forall _ _) Hlater).
  - unfold addTimer. apply Forall_app. split; [done|].
    constructor; [apply stand_newTimer_good | constructor].
Qed.

Lemma stand_nowSeconds_mono (d d' : Z) :
  d <= d' -> JS.nowSeconds d <= JS.nowSeconds d'.
Proof. intros H. unfold JS.nowSeconds. apply Z.div_le_mono; lia. Qed.

Lemma stand_reachable_good (d : Z) (a : app) :
  reachable d a ->
  0 < JS.nowSeconds d /\ Forall (good (JS.nowSeconds d)) (timers a).
Proof.
  intros H. induction H as [uid d Hd | d a d' e H [Hd IH] Hle].
  - split; [done|].
    change (timers (initial uid d))
      with (goalCheck (JS.nowSeconds d) (DEFAULT_TIMERS uid)).
    unfold goalCheck. apply Forall_fmap.
    eapply Forall_impl; [exact (stand_DEFAULT_TIMERS_good (JS.nowSeconds d) uid)|].
    intros t Ht.
    exact (stand_handle1_good _ _ Tick t Hd (Z.le_refl _) Ht).
  - pose proof (stand_nowSeconds_mono d d' Hle) as Hm.
    split; [lia|]. by apply (stand_handle_good (JS.nowSeconds d)).
Qed.

Lemma stand_reachable_lookup (d : Z) (a : app) (k : nat) (t : timer) :
  reachable d a -> timers a !! k = Some t ->
  0 < JS.nowSeconds d /\ good (JS.nowSeconds d) t.
Proof.
  intros Ha Hk. destruct (stand_reachable_good d a Ha) as [Hd Hall].
  split; [done|]. apply (proj1 (List.Forall_forall _ _) Hall).
  apply list_elem_of_In. by eapply list_elem_of_lookup_2.
Qed.

Lemma stand_good_running (c : Z) (t : timer) :
  good c t -> running t = true ->
  exists s, startTs t = Some s /\ 0 < s <= c.
Proof.
  intros ([H1 _] & Hst & _) Hr. destruct (H1 Hr) as [s Hs].
  exists s. split; [done|]. by apply Hst.
Qed.

(** *** Additions and removals keep the other timers as they are *)

Lemma stand_add_keeps (d : Z) (fresh : string) (a : app) (k : nat) (t : timer) :
  timers a !! k = Some t ->
  timers (handle d (Add fresh) a) !! k = Some t.
Proof. intros Hk. simpl. unfold addTimer. by apply lookup_app_l_Some. Qed.

Lemma stand_remove_keeps (d : Z) (i : string) (a : app) (t : timer) :
  In t (timers (handle d (Remove i) a)) -> In t (timers a) /\ id t <> i.
Proof.
  simpl. unfold removeTimer. intros [Hin Hid]%List.filter_In.
  split; [done|]. apply negb_true_iff in Hid. by apply String.eqb_neq.
Qed.

(** *** The revision stays at zero, so an adjustment moves the net
    seconds of every reachable running timer by exactly the delta *)

Lemma stand_handle1_unrevised (now : Z) (e : event) (t : timer) :
  revisionSec t = 0 -> revisionSec (fst (handle1 now e t)) = 0.
Proof.
  intros H.
  destruct e; simpl;
    unfold goalCheck1, startTimer1, pauseTimer1, resetTimer1, adjustTimer1,
      cleared;
    cases; simpl; done.
Qed.

Lemma stand_reachable_unrevised (d : Z) (a : app) :
  reachable d a -> Forall (fun t => revisionSec t = 0) (timers a).
Proof.
  intros H. induction H as [uid d Hd | d a d' e H IH Hle].
  - change (timers (initial uid d))
      with (goalCheck (JS.nowSeconds d) (DEFAULT_TIMERS uid)).
    unfold goalCheck. apply Forall_fmap.
    assert (Hdef : Forall (fun t => revisionSec t = 0) (DEFAULT_TIMERS uid))
      by (unfold DEFAULT_TIMERS; repeat (apply Forall_cons; split; [done|]);
          apply Forall_nil_2).
    eapply Forall_impl; [exact Hdef|]. intros t Ht.
    exact (stand_handle1_unrevised _ Tick t Ht).
  - assert (Hmap : forall ev, Forall (fun t => revisionSec t = 0)
              (map (fun t => fst (handle1 (JS.nowSeconds d') ev t)) (timers a))).
    { intros ev. apply Forall_fmap. eapply Forall_impl; [exact IH|].
      intros t Ht. by apply stand_handle1_unrevised. }
    destruct e; simpl; try done;
      try (exact (Hmap (Start i))); try (exact (Hmap (Pause i)));
      try (exact (Hmap (Reset i))); try (exact (Hmap (Adjust i deltaSec)));
      try (exact (Hmap (SetTheme i cls))); try (exact (Hmap (SetTarget i sec)));
      try (exact (Hmap (SetName i nm))); try (exact (Hmap (SetGoal i on)));
      try (exact (Hmap (SetCategory i c))); try (exact (Hmap ResetDay)).
    + destruct (JS.nowSeconds d' =? nowSec a); [done|]. exact (Hmap Tick).
    + unfold removeTimer. apply List.Forall_forall. intros t Ht.
      apply List.filter_In in Ht as [Ht _].
      by apply (proj1 (List.Forall_forall _ _) IH).
    + unfold addTimer. apply Forall_app. split; [done|].
      by constructor.
Qed.

Lemma stand_adjust_reachable (d d' : Z) (deltaSec : Z) (a : app)
    (k : nat) (t : timer) :
  reachable d a -> d <= d' -> timers a !! k = Some t -> running t = true ->
  exists t',
    timers (handle d' (Adjust (id t) deltaSec) a) !! k = Some t'
    /\ net (JS.nowSeconds d') t'
       = Z.max 0 (net (JS.nowSeconds d') t + deltaSec).
Proof.
  intros Ha Hd Hk Hr.
  exists (adjustTimer1 (JS.nowSeconds d') (id t) deltaSec t). split.
  - simpl. unfold adjustTimer. by rewrite list_lookup_fmap, Hk.
  - destruct (stand_reachable_lookup d a k t Ha Hk) as (Hc & Hg).
    destruct (stand_good_running _ t Hg Hr) as (s & Hs & Hpos).
    assert (Hrev : revisionSec t = 0).
    { apply (proj1 (List.Forall_forall _ _) (stand_reachable_unrevised d a Ha)).
      apply list_elem_of_In. by eapply list_elem_of_lookup_2. }
    pose proof (stand_nowSeconds_mono d d' Hd) as Hm.
    apply stand_adjustTimer1_net; [done | lia |].
    unfold runExtra. rewrite Hs, Hr, Hrev.
    destruct Hg as (_ & _ & He). lia.
Qed.

End Part000Facts.

(** ** The first component of [src/App.jsx] *)

Module AppFirstFacts.

Import AppFirst.

Ltac cases :=
  repeat match goal with
         | |- context [if ?b then _ else _] => destruct b eqn:?
         | |- context [match ?o with Some _ => _ | None => _ end] =>
             destruct o eqn:?
         end.

(** The net seconds shown, summed and exported leave the current run
    out. *)
Lemma first_netSeconds_eq (t : timer) :
  netSeconds t = Z.max 0 (elapsedSec t - revisionSec t).
Proof. unfold netSeconds. by rewrite !JSFacts.or_num_0. Qed.

Lemma first_totalTracked_eq (ts : list timer) :
  totalTracked ts
  = JS.fmtHMS (foldr Z.add 0
                 (map (fun t => Z.max 0 (elapsedSec t - revisionSec t)) ts)).
Proof.
  unfold totalTracked. f_equal.
  assert (H : forall z, fold_left (fun a t => a + netSeconds t) ts z
              = z + foldr Z.add 0
                      (map (fun t => Z.max 0 (elapsedSec t - revisionSec t)) ts)).
  { induction ts as [|t ts IH]; intros z; simpl; [lia|].
    rewrite IH, first_netSeconds_eq. lia. }
  rewrite H. lia.
Qed.

Lemma first_exportCSV_row (ts : list timer) (k : nat) (t : timer) :
  ts !! k = Some t ->
  exportCSV_rows ts !! S k
  = Some [name t; JS.String_of (Z.max 0 (elapsedSec t - revisionSec t));
          JS.fmtHMS (Z.max 0 (elapsedSec t - revisionSec t))].
Proof.
  intros Hk. unfold exportCSV_rows. simpl.
  rewrite list_lookup_fmap, Hk. simpl. by rewrite first_netSeconds_eq.
Qed.

(** *** The timer loop *)

Lemma first_loop1_fires (now s : Z) (t : timer) :
  running t = true -> startTs t = Some s ->
  goalOn t = true -> goalFired t = false -> 0 < targetSec t ->
  targetSec t <= spec_net now t ->
  loop1 now t
  = (set_elapsedSec (elapsedSec t + (now - s)) (set_goalFired true t),
     Some (mkCelebration (name t) (targetSec t))).
Proof.
  intros Hr Hs Hon Hfired Hpos Hnet. unfold loop1.
  unfold spec_net, Spec.net in Hnet. rewrite Hr, Hs in *.
  rewrite Hon, Hfired, JSFacts.or_num_0. simpl.
  destruct (Z.ltb_spec 0 (targetSec t)); [simpl | lia].
  destruct (Z.leb_spec (targetSec t)
              (Z.max 0 (elapsedSec t + (now - s) - revisionSec t))); [done | lia].
Qed.

(** The loop passes over a timer that is not running. *)
Lemma first_loop1_idle (now : Z) (t : timer) :
  running t = false -> loop1 now t = (t, None).
Proof. intros Hr. unfold loop1. rewrite Hr. by destruct (startTs t). Qed.

Lemma first_loop1_fired (now : Z) (t : timer) :
  goalFired t = true ->
  goalFired (fst (loop1 now t)) = true /\ snd (loop1 now t) = None.
Proof.
  intros Hf. unfold loop1. rewrite Hf, andb_false_r. simpl.
  destruct (startTs t); [|done]. by destruct (running t).
Qed.

(** On a running timer every pass adds the whole run so far once more. *)
Lemma first_loop1_running (now s : Z) (t : timer) :
  running t = true -> startTs t = Some s ->
  elapsedSec (fst (loop1 now t)) = elapsedSec t + (now - s)
  /\ startTs (fst (loop1 now t)) = Some s
  /\ running (fst (loop1 now t)) = true.
Proof.
  intros Hr Hs. unfold loop1. rewrite Hr, Hs. simpl.
  cases; simpl; by rewrite ?Hr, ?Hs.
Qed.

Lemma first_handle_timers (dateNow : Z) (e : event) (a : app) (k : nat) (t : timer) :
  match e with Add _ | Remove _ => False | _ => True end ->
  timers a !! k = Some t ->
  timers (handle dateNow e a) !! k = Some t
  \/ timers (handle dateNow e a) !! k
     = Some (fst (handle1 (JS.nowSeconds dateNow) e t)).
Proof.
  intros He Hk.
  destruct e; try done; simpl;
    try (right; unfold loop, startTimer, pauseTimer, resetTimer, adjustTimer,
           setTheme, setTarget, setName, setGoal, setCategory, resetDay;
         rewrite list_lookup_fmap, Hk; reflexivity);
    try (by left).
Qed.

Lemma first_handle1_id (now : Z) (e : event) (t : timer) :
  id (fst (handle1 now e t)) = id t.
Proof.
  destruct e; simpl; try reflexivity;
    unfold loop1, startTimer1, pauseTimer1, resetTimer1, adjustTimer1;
    cases; reflexivity.
Qed.

Lemma first_handle1_goalFired (now : Z) (e : event) (t : timer) :
  resets (id t) e = false -> goalFired t = true ->
  goalFired (fst (handle1 now e t)) = true
  /\ snd (handle1 now e t) = None.
Proof.
  intros He Hf.
  destruct e; simpl in *; try done;
    try (by apply first_loop1_fired);
    unfold startTimer1, pauseTimer1, resetTimer1, adjustTimer1;
    try rewrite He; cases; done.
Qed.

Lemma first_history_goalFired (i : string) (c c' : Z) (t t' : timer)
    (log : list celebration) :
  id t = i -> goalFired t = true ->
  history (fun e => negb (resets i e)) c t c' t' log ->
  id t' = i /\ goalFired t' = true /\ log = [].
Proof.
  intros Hi Hf H. induction H as [|c' t' log d e H IH Hle Hok].
  - done.
  - destruct IH as (Hi' & Hf' & ->).
    apply negb_true_iff in Hok. rewrite <- Hi' in Hok.
    destruct (first_handle1_goalFired d e t' Hok Hf') as [Hg Hn].
    rewrite first_handle1_id, Hn. done.
Qed.

(** *** Start, pause and adjust *)

Lemma first_pauseTimer1_running (now s : Z) (t : timer) :
  running t = true -> startTs t = Some s -> s <> 0 ->
  pauseTimer1 now (id t) t
  = set_elapsedSec (elapsedSec t + (now - s))
      (set_startTs None (set_running false t)).
Proof.
  intros Hr Hs Hnz. unfold pauseTimer1.
  rewrite String.eqb_refl, Hr, Hs. simpl.
  by rewrite JSFacts.or_num_nonzero.
Qed.

Lemma first_pauseTimer1_paused (now : Z) (i : string) (t : timer) :
  running t = false -> pauseTimer1 now i t = t.
Proof. intros Hr. unfold pauseTimer1. rewrite Hr. by rewrite orb_true_r. Qed.

Lemma first_pauseTimer1_other (now : Z) (i : string) (t : timer) :
  id t <> i -> pauseTimer1 now i t = t.
Proof.
  intros Hne. unfold pauseTimer1.
  apply String.eqb_neq in Hne. by rewrite Hne.
Qed.

Lemma first_startTimer1_paused (now : Z) (t : timer) :
  running t = false ->
  startTimer1 now (id t) t = set_startTs (Some now) (set_running true t).
Proof. intros Hr. unfold startTimer1. by rewrite String.eqb_refl, Hr. Qed.

Lemma first_startTimer1_other (now : Z) (i : string) (t : timer) :
  id t <> i -> startTimer1 now i t = t.
Proof.
  intros Hne. unfold startTimer1.
  apply String.eqb_neq in Hne. by rewrite Hne.
Qed.

(** The adjustment moves [revisionSec] only: the run is not
    materialised and the start timestamp stays. *)
Lemma first_adjustTimer1_eq (deltaSec : Z) (t : timer) :
  adjustTimer1 (id t) deltaSec t
  = set_revisionSec (Z.max 0 (revisionSec t - deltaSec)) t.
Proof.
  unfold adjustTimer1. by rewrite String.eqb_refl, JSFacts.or_num_0.
Qed.

(** *** Net seconds never go down without an adjustment or a reset *)

Lemma first_handle1_mono (c d : Z) (e : event) (t : timer) :
  0 < c -> c <= d -> stamped c t -> adjusts_or_resets e = false ->
  stamped d (fst (handle1 d e t))
  /\ netSeconds t <= netSeconds (fst (handle1 d e t)).
Proof.
  intros Hc Hcd Hst He.
  assert (Hkeep : stamped d t) by (intros s Hs; specialize (Hst s Hs); lia).
  destruct e; simpl in *; try done;
    try (split; [done | lia]).
  - (* timer loop *)
    destruct (startTs t) as [s|] eqn:Hs;
      [|unfold loop1; rewrite Hs; simpl; split; [done | lia]].
    destruct (running t) eqn:Hr;
      [|rewrite first_loop1_idle by done; simpl; split; [done | lia]].
    destruct (first_loop1_running d s t Hr Hs) as (H1 & H2 & H3).
    split.
    + intros s' Hs'. apply Hkeep. congruence.
    + rewrite !first_netSeconds_eq, H1.
      assert (revisionSec (fst (loop1 d t)) = revisionSec t) as ->.
      { unfold loop1. rewrite Hs, Hr. simpl. by cases. }
      specialize (Hkeep s Hs). lia.
  - (* start *)
    unfold startTimer1. destruct (String.eqb (id t) i); [|split; [done | lia]].
    destruct (running t) eqn:Hr; [split; [done | lia]|]. split.
    + intros s [= <-]. lia.
    + rewrite !first_netSeconds_eq. simpl. lia.
  - (* pause *)
    unfold pauseTimer1. destruct (String.eqb (id t) i); simpl; [|split; [done | lia]].
    destruct (running t) eqn:Hr; simpl; [|split; [done | lia]]. split.
    + intros s [=].
    + rewrite !first_netSeconds_eq. simpl.
      destruct (startTs t) as [s|] eqn:Hs; simpl.
      * rewrite (JSFacts.or_num_nonzero s d) by (specialize (Hst s Hs); lia).
        specialize (Hkeep s Hs). lia.
      * lia.
  - destruct (String.eqb (id t) i); split; done || (rewrite ?first_netSeconds_eq; simpl; lia).
  - destruct (String.eqb (id t) i); split; done || (rewrite ?first_netSeconds_eq; simpl; lia).
  - destruct (String.eqb (id t) i); split; done || (rewrite ?first_netSeconds_eq; simpl; lia).
  - destruct (String.eqb (id t) i); split; done || (rewrite ?first_netSeconds_eq; simpl; lia).
  - destruct (String.eqb (id t) i); split; done || (rewrite ?first_netSeconds_eq; simpl; lia).
Qed.

Lemma first_history_mono (c c' : Z) (t t' : timer) (log : list celebration) :
  0 < c -> stamped c t ->
  history (fun e => negb (adjusts_or_resets e)) c t c' t' log ->
  c <= c' /\ stamped c' t' /\ netSeconds t <= netSeconds t'.
Proof.
  intros Hc Hst H. induction H as [|c' t' log d e H IH Hle Hok].
  - split; [|split]; [lia | done | lia].
  - destruct IH as (Hcc & Hst' & Hnet).
    apply negb_true_iff in Hok.
    destruct (first_handle1_mono c' d e t') as [Hs Hn]; [lia | done | done | done |].
    split; [|split]; [lia | done | lia].
Qed.

(** The same holds for the formula of the specification read on the
    timer, which counts the current run. *)
Lemma first_spec_net_mono_clock (now1 now2 : Z) (t : timer) :
  now1 <= now2 -> spec_net now1 t <= spec_net now2 t.
Proof.
  intros Hle. unfold spec_net, Spec.net.
  destruct (startTs t), (running t); lia.
Qed.

Lemma first_handle1_mono_spec (c d : Z) (e : event) (t : timer) :
  0 < c -> c <= d -> stamped c t -> adjusts_or_resets e = false ->
  spec_net c t <= spec_net d (fst (handle1 d e t)).
Proof.
  intros Hc Hcd Hst He.
  assert (Hkeep : stamped d t) by (intros s Hs; specialize (Hst s Hs); lia).
  assert (Hnet := first_spec_net_mono_clock c d t Hcd).
  destruct e; simpl in *; try done.
  - (* timer loop *)
    destruct (startTs t) as [s|] eqn:Hs;
      [|unfold loop1; rewrite Hs; simpl; exact Hnet].
    destruct (running t) eqn:Hr;
      [|rewrite first_loop1_idle by done; simpl; exact Hnet].
    destruct (first_loop1_running d s t Hr Hs) as (H1 & H2 & H3).
    assert (H4 : revisionSec (fst (loop1 d t)) = revisionSec t).
    { unfold loop1. rewrite Hs, Hr. simpl. by cases. }
    unfold spec_net, Spec.net. rewrite H1, H2, H3, H4, Hs, Hr.
    specialize (Hst s Hs). lia.
  - (* start *)
    unfold startTimer1. destruct (String.eqb (id t) i); [|exact Hnet].
    destruct (running t) eqn:Hr; [exact Hnet|].
    unfold spec_net, Spec.net. simpl. rewrite Hr.
    destruct (startTs t); lia.
  - (* pause *)
    unfold pauseTimer1. destruct (String.eqb (id t) i); simpl; [|exact Hnet].
    destruct (running t) eqn:Hr; simpl; [|exact Hnet].
    unfold spec_net, Spec.net. simpl. rewrite Hr.
    destruct (startTs t) as [s|] eqn:Hs; simpl.
    + rewrite (JSFacts.or_num_nonzero s d) by (specialize (Hst s Hs); lia).
      lia.
    + lia.
  - destruct (String.eqb (id t) i); exact Hnet.
  - destruct (String.eqb (id t) i); exact Hnet.
  - destruct (String.eqb (id t) i); exact Hnet.
  - destruct (String.eqb (id t) i); exact Hnet.
  - destruct (String.eqb (id t) i); exact Hnet.
Qed.

Lemma first_history_mono_spec (c c' : Z) (t t' : timer) (log : list celebration) :
  0 < c -> stamped c t ->
  history (fun e => negb (adjusts_or_resets e)) c t c' t' log ->
  spec_net c t <= spec_net c' t'.
Proof.
  intros Hc Hst H. induction H as [|c' t' log d e H IH Hle Hok].
  - lia.
  - destruct (first_history_mono c c' t t' log Hc Hst H) as (Hcc & Hst' & _).
    apply negb_true_iff in Hok.
    pose proof (first_handle1_mono_spec c' d e t' ltac:(lia) Hle Hst' Hok).
    lia.
Qed.

(** *** Consistency of the running flag and the start timestamp *)


Lemma first_handle1_consistent (now : Z) (e : event) (t : timer) :
  consistent t -> consistent (fst (handle1 now e t)).
Proof.
  unfold consistent. intros [H1 H2].
  assert (Hc : (running t = true /\ exists s, startTs t = Some s)
               \/ (running t = false /\ startTs t = None)).
  { destruct (running t) eqn:Hr; destruct (startTs t) as [s|] eqn:Hs.
    - left. eauto.
    - destruct (H1 eq_refl) as [x [=]].
    - discriminate H2. eauto.
    - right. done. }
  clear H1 H2.
  destruct Hc as [[Hr [s Hs]] | [Hr Hs]];
    destruct e; simpl;
    unfold loop1, startTimer1, pauseTimer1, resetTimer1, adjustTimer1,
      cleared;
    rewrite ?Hr, ?Hs; cases; simpl; rewrite ?Hr, ?Hs;
    (split; [intros Hx; by eauto | intros [x Hx]; by simplify_eq]).
Qed.

Lemma first_newTimer_consistent (fresh : string) (len : nat) :
  consistent (newTimer fresh len).
Proof. split; [done | by intros [x Hx]]. Qed.

Lemma first_DEFAULT_TIMERS_consistent (uid : nat -> string) :
  Forall consistent (DEFAULT_TIMERS uid).
Proof. repeat constructor; try done; by intros [x Hx]. Qed.

Lemma first_handle_consistent (dateNow : Z) (e : event) (a : app) :
  Forall consistent (timers a) ->
  Forall consistent (timers (handle dateNow e a)).
Proof.
  intros H.
  assert (Hmap : forall ev, Forall consistent
            (map (fun t => fst (handle1 (JS.nowSeconds dateNow) ev t)) (timers a))).
  { intros ev. apply Forall_fmap. eapply Forall_impl; [exact H|].
    intros t Ht. by apply first_handle1_consistent. }
  destruct e; simpl; try done;
    try (exact (Hmap Tick));
    try (exact (Hmap (Start i))); try (exact (Hmap (Pause i)));
    try (exact (Hmap (Reset i))); try (exact (Hmap (Adjust i deltaSec)));
    try (exact (Hmap (SetTheme i cls))); try (exact (Hmap (SetTarget i sec)));
    try (exact (Hmap (SetName i nm))); try (exact (Hmap (SetGoal i on)));
    try (exact (Hmap (SetCategory i c))); try (exact (Hmap ResetDay)).
  - unfold removeTimer. apply List.Forall_forall. intros t Ht.
    apply List.filter_In in Ht as [Ht _].
    by apply (proj1 (List.Forall_forall _ _) H).
  - unfold addTimer. apply Forall_app. split; [done|].
    constructor; [apply first_newTimer_consistent | constructor].
Qed.

(** *** Good order of every reachable state *)

Lemma first_good_later (c d : Z) (t : timer) :
  c <= d -> good c t -> good d t.
Proof.
  intros Hcd (Hcons & Hst & He). split; [done|]. split; [|done].
  intros s Hs. specialize (Hst s Hs). lia.
Qed.

Lemma first_handle1_good (c d : Z) (e : event) (t : timer) :
  0 < c -> c <= d -> good c t -> good d (fst (handle1 d e t)).
Proof.
  intros Hc Hcd (Hcons & Hst & He).
  split; [by apply first_handle1_consistent|].
  assert (Hkeep : stamped d t) by (intros s Hs; specialize (Hst s Hs); lia).
  assert (Hrun : 0 <= elapsedSec t + (d - JS.or_ts (startTs t) d)).
  { unfold JS.or_ts. destruct (startTs t) as [s|] eqn:Hs; [|lia].
    specialize (Hst s Hs). rewrite JSFacts.or_num_nonzero; lia. }
  assert (Hloop : forall s, startTs t = Some s -> 0 <= elapsedSec t + (d - s)).
  { intros s Hs. specialize (Hst s Hs). lia. }
  destruct e; simpl;
    unfold loop1, startTimer1, pauseTimer1, resetTimer1, adjustTimer1,
      cleared;
    cases; simpl;
    (split; [intros s Hs; simpl in Hs; first [by apply Hkeep | simplify_eq; lia]
            | first [exact He | exact Hrun | by apply Hloop | lia]]).
Qed.

Lemma first_newTimer_good (c : Z) (fresh : string) (len : nat) :
  good c (newTimer fresh len).
Proof.
  split; [apply first_newTimer_consistent|]. split; [intros s [=] | done].
Qed.

Lemma first_DEFAULT_TIMERS_good (c : Z) (uid : nat -> string) :
  Forall (good c) (DEFAULT_TIMERS uid).
Proof.
  unfold DEFAULT_TIMERS.
  repeat (apply Forall_cons; split;
          [split; [split; [done | by intros [x Hx]]
                  | split; [intros s [=] | done]] |]).
  apply Forall_nil_2.
Qed.

Lemma first_handle_good (c d : Z) (e : event) (a : app) :
  0 < c -> c <= JS.nowSeconds d ->
  Forall (good c) (timers a) ->
  Forall (good (JS.nowSeconds d)) (timers (handle d e a)).
Proof.
  intros Hc Hcd H.
  assert (Hlater : Forall (good (JS.nowSeconds d)) (timers a)).
  { eapply Forall_impl; [exact H|]. intros t. by apply first_good_later. }
  assert (Hmap : forall ev, Forall (good (JS.nowSeconds d))
            (map (fun t => fst (handle1 (JS.nowSeconds d) ev t)) (timers a))).
  { intros ev. apply Forall_fmap. eapply Forall_impl; [exact H|].
    intros t Ht. by apply (first_handle1_good c). }
  destruct e; simpl; try done;
    try (exact (Hmap Tick));
    try (exact (Hmap (Start i))); try (exact (Hmap (Pause i)));
    try (exact (Hmap (Reset i))); try (exact (Hmap (Adjust i deltaSec)));
    try (exact (Hmap (SetTheme i cls))); try (exact (Hmap (SetTarget i sec)));
    try (exact (Hmap (SetName i nm))); try (exact (Hmap (SetGoal i on)));
    try (exact (Hmap (SetCategory i c0))); try (exact (Hmap ResetDay)).
  - unfold removeTimer. apply List.Forall_forall. intros t Ht.
    apply List.filter_In in Ht as [Ht _].
    by apply (proj1 (List.Forall_forall _ _) Hlater).
  - unfold addTimer. apply Forall_app. split; [done|].
    constructor; [apply first_newTimer_good | constructor].
Qed.

Lemma first_reachable_good (d : Z) (a : app) :
  reachable d a ->
  0 < JS.nowSeconds d /\ Forall (good (JS.nowSeconds d)) (timers a).
Proof.
  intros H. induction H as [uid d Hd | d a d' e H [Hd IH] Hle].
  - split; [done|]. apply first_DEFAULT_TIMERS_good.
  - assert (Hm : JS.nowSeconds d <= JS.nowSeconds d')
      by (unfold JS.nowSeconds; apply Z.div_le_mono; lia).
    split; [lia|]. by apply (first_handle_good (JS.nowSeconds d)).
Qed.

Lemma first_reachable_lookup (d : Z) (a : app) (k : nat) (t : timer) :
  reachable d a -> timers a !! k = Some t ->
  0 < JS.nowSeconds d /\ good (JS.nowSeconds d) t.
Proof.
  intros Ha Hk. destruct (first_reachable_good d a Ha) as [Hd Hall].
  split; [done|]. apply (proj1 (List.Forall_forall _ _) Hall).
  apply list_elem_of_In. by eapply list_elem_of_lookup_2.
Qed.

Lemma first_good_running (c : Z) (t : timer) :
  good c t -> running t = true ->
  exists s, startTs t = Some s /\ 0 < s <= c.
Proof.
  intros ([H1 _] & Hst & _) Hr. destruct (H1 Hr) as [s Hs].
  exists s. split; [done|]. by apply Hst.
Qed.

(** *** Additions and removals keep the other timers as they are *)

Lemma first_add_keeps (d : Z) (fresh : string) (a : app) (k : nat) (t : timer) :
  timers a !! k = Some t ->
  timers (handle d (Add fresh) a) !! k = Some t.
Proof. intros Hk. simpl. unfold addTimer. by apply lookup_app_l_Some. Qed.

Lemma first_remove_keeps (d : Z) (i : string) (a : app) (t : timer) :
  In t (timers (handle d (Remove i) a)) -> In t (timers a) /\ id t <> i.
Proof.
  simpl. unfold removeTimer. intros [Hin Hid]%List.filter_In.
  split; [done|]. apply negb_true_iff in Hid. by apply String.eqb_neq.
Qed.

End AppFirstFacts.

(** ** The second component of [src/App.jsx] *)

Module AppSecondFacts.

Import AppSecond.
Local Open Scope Q_scope.

Ltac cases :=
  repeat match goal with
         | |- context [if ?b then _ else _] => destruct b eqn:?
         | |- context [match ?o with Some _ => _ | None => _ end] =>
             destruct o eqn:?
         end.

(** Every [Qmax] of the goal and of the hypotheses is named and given
    its two-case description, for linear arithmetic to split on. *)
Ltac qmax :=
  repeat match goal with
         | |- context [Qmax ?a ?b] =>
             let m := fresh "m" in
             pose proof (Q.max_spec a b);
             set (m := Qmax a b) in *; clearbody m
         | H : context [Qmax ?a ?b] |- _ =>
             let m := fresh "m" in
             pose proof (Q.max_spec a b);
             set (m := Qmax a b) in *; clearbody m
         end.

Lemma second_inject_Z_sub (x y : Z) : inject_Z (x - y) = inject_Z x - inject_Z y.
Proof. unfold Z.sub, Qminus. by rewrite inject_Z_plus, inject_Z_opp. Qed.

Ltac qarith :=
  rewrite ?second_inject_Z_sub in *; unfold Qdiv in *;
  change (/ 1000) with (1 # 1000) in *; qmax; lra.

Lemma second_or_q_0 (x : Q) : or_q x 0 == x.
Proof.
  unfold or_q. destruct (Qeq_bool x 0) eqn:H; [|reflexivity].
  apply Qeq_bool_iff in H. by symmetry.
Qed.

Lemma second_runSoFar_eq (dateNow s : Z) (t : timer) :
  startTs t = Some s -> s <> 0%Z ->
  runSoFar dateNow t = inject_Z (dateNow - s) / 1000.
Proof.
  intros Hs Hnz. unfold runSoFar.
  by rewrite Hs, JSFacts.truthy_nonzero.
Qed.

(** With a start timestamp other than the zero reading, the net seconds
    are the formula of the specification. *)
Lemma second_timerNetSeconds_spec (dateNow : Z) (t : timer) :
  startTs t <> Some 0%Z ->
  timerNetSeconds dateNow t == spec_net dateNow t.
Proof.
  intros Hnz. unfold timerNetSeconds, spec_net, Spec.netQ, runningNow, runSoFar.
  rewrite second_or_q_0.
  destruct (startTs t) as [s|]; simpl; destruct (running t); try reflexivity.
  rewrite JSFacts.truthy_nonzero by congruence.
  apply Q.max_compat; [reflexivity|]. qarith.
Qed.

Lemma second_timerNetSeconds_nonneg (dateNow : Z) (t : timer) :
  0 <= timerNetSeconds dateNow t.
Proof. unfold timerNetSeconds. apply Q.le_max_l. Qed.

Lemma second_totalTracked_eq (dateNow : Z) (ts : list timer) :
  totalTracked dateNow ts
  == foldr Qplus 0 (map (timerNetSeconds dateNow) ts).
Proof.
  unfold totalTracked.
  assert (H : forall z, fold_left (fun a t => a + timerNetSeconds dateNow t) ts z
              == z + foldr Qplus 0 (map (timerNetSeconds dateNow) ts)).
  { induction ts as [|t ts IH]; intros z; simpl; [lra|].
    rewrite IH. lra. }
  rewrite H. lra.
Qed.

(** *** The export *)

Lemma second_exportCSV_row_net (dateNow : Z) (ts : list timer) (k : nat) (t : timer) :
  ts !! k = Some t -> startTs t <> Some 0%Z ->
  exists row,
    exportCSV_rows dateNow ts !! S k = Some row
    /\ row !! 11%nat = Some (CNum (inject_Z (Qfloor (spec_net dateNow t))))
    /\ row !! 12%nat = Some (CStr (JS.fmtHMS (Qfloor (spec_net dateNow t)))).
Proof.
  intros Hk Hnz. exists (exportCSV_row dateNow t). split.
  - unfold exportCSV_rows. simpl. by rewrite list_lookup_fmap, Hk.
  - unfold exportCSV_row, fmtHMS. simpl.
    by rewrite (Qfloor_comp _ _ (second_timerNetSeconds_spec dateNow t Hnz)).
Qed.

(** *** The goal checker *)

Lemma second_goalCheck1_fires (dateNow : Z) (t : timer) :
  startTs t <> Some 0%Z ->
  goalOn t = true -> goalFired t = false -> 0 < targetSec t ->
  targetSec t <= spec_net dateNow t ->
  goalCheck1 dateNow t = (set_goalFired true t, Some (goalMessage t)).
Proof.
  intros Hnz Hon Hfired Hpos Hnet. unfold goalCheck1.
  rewrite Hon, Hfired. simpl.
  assert (gt0 (targetSec t) = true) as ->.
  { unfold gt0. apply negb_true_iff.
    destruct (Qle_bool (targetSec t) 0) eqn:H; [|done].
    apply Qle_bool_iff in H. lra. }
  assert (geq (timerNetSeconds dateNow t) (targetSec t) = true) as ->.
  { unfold geq. apply Qle_bool_iff.
    rewrite (second_timerNetSeconds_spec dateNow t Hnz). done. }
  done.
Qed.

Lemma second_goalCheck1_fired (dateNow : Z) (t : timer) :
  goalFired t = true -> goalCheck1 dateNow t = (t, None).
Proof.
  intros H. unfold goalCheck1. rewrite H. simpl.
  by rewrite andb_false_r.
Qed.

Lemma second_goalCheck1_shape (dateNow : Z) (t : timer) :
  fst (goalCheck1 dateNow t) = t
  \/ fst (goalCheck1 dateNow t) = set_goalFired true t.
Proof. unfold goalCheck1. cases; [by right | by left]. Qed.

Lemma second_handle_timers (dateNow : Z) (e : event) (a : app) (k : nat) (t : timer) :
  match e with Add _ | Remove _ => False | _ => True end ->
  timers a !! k = Some t ->
  timers (handle dateNow e a) !! k
  = Some (fst (handle1 dateNow (editTimer a) e t)).
Proof.
  intros He Hk.
  destruct e; try done; simpl;
    try (unfold goalCheck, startTimer, pauseTimer, resetTimer, adjustTimer,
           resetAll;
         rewrite list_lookup_fmap, Hk; reflexivity).
  destruct (editTimer a) as [f|]; simpl; [|done].
  unfold applyPatch. by rewrite list_lookup_fmap, Hk.
Qed.

Lemma second_handle1_id (dateNow : Z) (et : option timer) (e : event) (t : timer) :
  saves e = false ->
  id (fst (handle1 dateNow et e t)) = id t.
Proof.
  intros Hs.
  destruct e; simpl in *; try done;
    unfold goalCheck1, startTimer1, pauseTimer1, resetTimer1, adjustTimer1;
    cases; reflexivity.
Qed.

Lemma second_handle1_goalFired (dateNow : Z) (et : option timer) (e : event) (t : timer) :
  resets (id t) e = false -> saves e = false -> goalFired t = true ->
  goalFired (fst (handle1 dateNow et e t)) = true
  /\ snd (handle1 dateNow et e t) = None.
Proof.
  intros He Hs Hf.
  destruct e; simpl in *; try done;
    try (rewrite second_goalCheck1_fired by done; done);
    unfold startTimer1, pauseTimer1, resetTimer1, adjustTimer1;
    try rewrite He; cases; done.
Qed.

Lemma second_history_goalFired (i : string) (c c' : Z) (t t' : timer)
    (log : list string) :
  id t = i -> goalFired t = true ->
  history (fun e => negb (resets i e) && negb (saves e)) c t c' t' log ->
  id t' = i /\ goalFired t' = true /\ log = [].
Proof.
  intros Hi Hf H. induction H as [|c' t' log d et e H IH Hle Hok].
  - done.
  - destruct IH as (Hi' & Hf' & ->).
    apply andb_true_iff in Hok as [Hr Hs].
    apply negb_true_iff in Hr, Hs. rewrite <- Hi' in Hr.
    destruct (second_handle1_goalFired d et e t' Hr Hs Hf') as [Hg Hn].
    rewrite second_handle1_id, Hn by done. done.
Qed.

(** *** Start and pause *)

Lemma second_pauseTimer1_running (dateNow s : Z) (t : timer) :
  running t = true -> startTs t = Some s -> s <> 0%Z ->
  pauseTimer1 dateNow (id t) t
  = set_elapsedSec (Qmax 0 (elapsedSec t + inject_Z (dateNow - s) / 1000))
      (set_startTs None (set_running false t)).
Proof.
  intros Hr Hs Hnz. unfold pauseTimer1.
  rewrite String.eqb_refl, Hr. simpl.
  by rewrite (second_runSoFar_eq dateNow s).
Qed.

(** The clamp of a pause or of a single-focus stop is idle when the
    accumulated seconds and the run are not negative. *)
Lemma second_clamp_idle (dateNow s : Z) (e : Q) :
  0 <= e + inject_Z (dateNow - s) / 1000 ->
  Qmax 0 (e + inject_Z (dateNow - s) / 1000)
  == e + inject_Z (dateNow - s) / 1000.
Proof. intros H. by apply Q.max_r. Qed.

Lemma second_pauseTimer1_paused (dateNow : Z) (i : string) (t : timer) :
  running t = false -> pauseTimer1 dateNow i t = t.
Proof. intros Hr. unfold pauseTimer1. rewrite Hr. simpl. by cases. Qed.

Lemma second_pauseTimer1_other (dateNow : Z) (i : string) (t : timer) :
  id t <> i -> pauseTimer1 dateNow i t = t.
Proof.
  intros Hne. unfold pauseTimer1.
  apply String.eqb_neq in Hne. by rewrite Hne.
Qed.

Lemma second_startTimer1_paused (dateNow : Z) (t : timer) :
  running t = false ->
  startTimer1 dateNow (id t) t
  = set_startTs (Some dateNow) (set_running true t).
Proof. intros Hr. unfold startTimer1. by rewrite String.eqb_refl, Hr. Qed.

Lemma second_startTimer1_other_running (dateNow s : Z) (i : string) (t : timer) :
  id t <> i -> running t = true -> startTs t = Some s -> s <> 0%Z ->
  startTimer1 dateNow i t
  = set_elapsedSec (Qmax 0 (elapsedSec t + inject_Z (dateNow - s) / 1000))
      (set_startTs None (set_running false t)).
Proof.
  intros Hne Hr Hs Hnz. unfold startTimer1.
  apply String.eqb_neq in Hne. rewrite Hne, Hr.
  by rewrite (second_runSoFar_eq dateNow s).
Qed.

Lemma second_startTimer1_other_paused (dateNow : Z) (i : string) (t : timer) :
  id t <> i -> running t = false -> startTimer1 dateNow i t = t.
Proof.
  intros Hne Hr. unfold startTimer1.
  apply String.eqb_neq in Hne. by rewrite Hne, Hr.
Qed.

(** *** Adjust *)

Lemma second_adjustTimer1_running (dateNow s : Z) (deltaSeconds : Q) (t : timer) :
  running t = true -> startTs t = Some s -> s <> 0%Z ->
  adjustTimer1 dateNow (id t) deltaSeconds t
  = set_startTs (Some dateNow)
      (set_elapsedSec
         (Qmax 0 (elapsedSec t + inject_Z (dateNow - s) / 1000 + deltaSeconds))
         t).
Proof.
  intros Hr Hs Hnz. unfold adjustTimer1.
  rewrite String.eqb_refl, Hr. simpl.
  by rewrite (second_runSoFar_eq dateNow s).
Qed.

Lemma second_adjustTimer1_paused (dateNow : Z) (deltaSeconds : Q) (t : timer) :
  running t = false ->
  adjustTimer1 dateNow (id t) deltaSeconds t
  = set_elapsedSec (Qmax 0 (elapsedSec t + deltaSeconds)) t.
Proof.
  intros Hr. unfold adjustTimer1. by rewrite String.eqb_refl, Hr.
Qed.

(** Adjusting a running timer moves its net seconds by the delta: the
    run so far is neither lost nor counted twice. *)
Lemma second_adjustTimer1_net (dateNow : Z) (deltaSeconds : Q) (t : timer) :
  running t = true ->
  0 <= revisionSec t ->
  0 <= elapsedSec t + runningNow dateNow t - revisionSec t ->
  timerNetSeconds dateNow (adjustTimer1 dateNow (id t) deltaSeconds t)
  == Qmax 0 (timerNetSeconds dateNow t + deltaSeconds).
Proof.
  intros Hr Hrev Hraw. unfold adjustTimer1, timerNetSeconds, runningNow in *.
  rewrite String.eqb_refl, Hr in *. simpl. rewrite Hr.
  assert (Hnow : runSoFar dateNow
                   (set_startTs (Some dateNow)
                      (set_elapsedSec
                         (Qmax 0 (elapsedSec t + runSoFar dateNow t + deltaSeconds))
                         t)) == 0).
  { unfold runSoFar. simpl. destruct (JS.truthy dateNow); [|reflexivity].
    qarith. }
  rewrite Hnow, !second_or_q_0.
  generalize dependent (runSoFar dateNow t). intros run Hraw _.
  qmax. lra.
Qed.

(** *** Net seconds never go down without an adjustment or a reset *)

Lemma second_net_mono_clock (d1 d2 : Z) (t : timer) :
  (d1 <= d2)%Z -> timerNetSeconds d1 t <= timerNetSeconds d2 t.
Proof.
  intros Hle. unfold timerNetSeconds, runningNow, runSoFar.
  apply Q.max_le_compat_l.
  rewrite Zle_Qle in Hle.
  destruct (running t), (startTs t) as [s|]; try lra.
  destruct (JS.truthy s); [qarith | lra].
Qed.

Lemma second_handle1_mono (c d : Z) (et : option timer) (e : event) (t : timer) :
  (0 < c)%Z -> (c <= d)%Z -> stamped c t ->
  adjusts_or_resets e = false -> saves e = false ->
  stamped d (fst (handle1 d et e t))
  /\ timerNetSeconds c t <= timerNetSeconds d (fst (handle1 d et e t)).
Proof.
  intros Hc Hcd Hst He Hsv.
  assert (Hkeep : stamped d t) by (intros s Hs; specialize (Hst s Hs); lia).
  assert (Hnet := second_net_mono_clock c d t Hcd).
  destruct e; simpl in *; try done.
  - (* goal checker *)
    destruct (second_goalCheck1_shape d t) as [-> | ->]; done.
  - (* start *)
    unfold startTimer1. destruct (String.eqb (id t) i).
    + destruct (running t) eqn:Hr; [done|]. split.
      * intros s [= <-]. lia.
      * revert Hnet. unfold timerNetSeconds, runningNow, runSoFar. simpl.
        rewrite Hr, JSFacts.truthy_pos by lia. intros Hnet. qarith.
    + destruct (running t) eqn:Hr; [|done]. split.
      * intros s [=].
      * unfold timerNetSeconds, runningNow. simpl. rewrite Hr.
        destruct (startTs t) as [s|] eqn:Hs.
        -- rewrite !(second_runSoFar_eq _ s) by (done || specialize (Hst s Hs); lia).
           rewrite Zle_Qle in Hcd. qarith.
        -- unfold runSoFar. rewrite Hs. qarith.
  - (* pause *)
    unfold pauseTimer1. destruct (String.eqb (id t) i); simpl; [|done].
    destruct (running t) eqn:Hr; simpl; [|done]. split.
    + intros s [=].
    + unfold timerNetSeconds, runningNow. simpl. rewrite Hr.
      destruct (startTs t) as [s|] eqn:Hs.
      * rewrite !(second_runSoFar_eq _ s) by (done || specialize (Hst s Hs); lia).
        rewrite Zle_Qle in Hcd. qarith.
      * unfold runSoFar. rewrite Hs. qarith.
Qed.

Lemma second_history_mono (c c' : Z) (t t' : timer) (log : list string) :
  (0 < c)%Z -> stamped c t ->
  history (fun e => negb (adjusts_or_resets e) && negb (saves e)) c t c' t' log ->
  (c <= c')%Z /\ stamped c' t'
  /\ timerNetSeconds c t <= timerNetSeconds c' t'.
Proof.
  intros Hc Hst H. induction H as [|c' t' log d et e H IH Hle Hok].
  - split; [|split]; [lia | done | lra].
  - destruct IH as (Hcc & Hst' & Hnet).
    apply andb_true_iff in Hok as [Ha Hs]. apply negb_true_iff in Ha, Hs.
    destruct (second_handle1_mono c' d et e t') as [Hs' Hn];
      [lia | done | done | done | done |].
    split; [|split]; [lia | done | lra].
Qed.

(** *** Two runs add up *)

Lemma second_ticks_shape (l : list Z) (t : timer) :
  elapsedSec (ticks l t) = elapsedSec t
  /\ startTs (ticks l t) = startTs t
  /\ running (ticks l t) = running t
  /\ id (ticks l t) = id t.
Proof.
  revert t. induction l as [|d l IH]; intros t; [done|].
  unfold ticks in *. simpl.
  destruct (IH (fst (goalCheck1 d t))) as (He & Hs & Hr & Hi).
  rewrite He, Hs, Hr, Hi.
  by destruct (second_goalCheck1_shape d t) as [-> | ->].
Qed.

Lemma second_start_pause_twice (t1 t2 t3 t4 : Z) (l1 l2 l3 : list Z) (t : timer) :
  running t = false -> t1 <> 0%Z -> t3 <> 0%Z ->
  0 <= elapsedSec t -> (t1 <= t2)%Z -> (t3 <= t4)%Z ->
  elapsedSec
    (pauseTimer1 t4 (id t)
       (ticks l3
          (startTimer1 t3 (id t)
             (ticks l2
                (pauseTimer1 t2 (id t)
                   (ticks l1 (startTimer1 t1 (id t) t)))))))
  == elapsedSec t
     + (inject_Z (t2 - t1) / 1000 + inject_Z (t4 - t3) / 1000).
Proof.
  intros Hr H1 H3 He0 H12 H34.
  pose (a := startTimer1 t1 (id t) t).
  assert (Ha : elapsedSec a = elapsedSec t /\ startTs a = Some t1
               /\ running a = true /\ id a = id t).
  { unfold a. by rewrite second_startTimer1_paused. }
  pose (b := ticks l1 a).
  destruct (second_ticks_shape l1 a) as (Hb1 & Hb2 & Hb3 & Hb4). fold b in Hb1, Hb2, Hb3, Hb4.
  destruct Ha as (Ha1 & Ha2 & Ha3 & Ha4).
  pose (c := pauseTimer1 t2 (id t) b).
  assert (Hc : elapsedSec c = Qmax 0 (elapsedSec t + inject_Z (t2 - t1) / 1000)
               /\ startTs c = None /\ running c = false /\ id c = id t).
  { unfold c. rewrite <- Ha4, <- Hb4.
    rewrite (second_pauseTimer1_running t2 t1) by congruence.
    simpl. rewrite Hb1, Ha1, Hb4, Ha4. done. }
  destruct Hc as (Hc1 & Hc2 & Hc3 & Hc4).
  pose (d := ticks l2 c).
  destruct (second_ticks_shape l2 c) as (Hd1 & Hd2 & Hd3 & Hd4). fold d in Hd1, Hd2, Hd3, Hd4.
  pose (e := startTimer1 t3 (id t) d).
  assert (He : elapsedSec e = Qmax 0 (elapsedSec t + inject_Z (t2 - t1) / 1000)
               /\ startTs e = Some t3 /\ running e = true /\ id e = id t).
  { unfold e. rewrite <- Hc4, <- Hd4.
    rewrite second_startTimer1_paused by congruence.
    simpl. rewrite Hd1, Hc1, Hd4, Hc4. done. }
  destruct He as (He1 & He2 & He3 & He4).
  pose (f := ticks l3 e).
  destruct (second_ticks_shape l3 e) as (Hf1 & Hf2 & Hf3 & Hf4). fold f in Hf1, Hf2, Hf3, Hf4.
  fold a b c d e f. rewrite <- He4, <- Hf4.
  rewrite (second_pauseTimer1_running t4 t3) by congruence.
  simpl. rewrite Hf1, He1.
  rewrite Zle_Qle in H12, H34. qarith.
Qed.

(** *** Consistency of the running flag and the start timestamp *)

Lemma second_editorSave_consistent (f : timer) (nm cat : string) (goal : bool)
    (col : string) (th tm : Q) :
  consistent f -> consistent (editorSave f nm cat goal col th tm).
Proof. done. Qed.

Lemma second_handle1_consistent (dateNow : Z) (et : option timer) (e : event) (t : timer) :
  (forall f, et = Some f -> consistent f) ->
  consistent t -> consistent (fst (handle1 dateNow et e t)).
Proof.
  intros Het Ht.
  destruct e; simpl; try done;
    try (destruct et as [f|]; simpl; [|done];
         destruct (String.eqb (id t) (id f)); [|done];
         apply second_editorSave_consistent, Het; done).
  all: revert Ht; unfold consistent; intros [H1 H2].
  all: assert (Hc : (running t = true /\ exists s, startTs t = Some s)
                    \/ (running t = false /\ startTs t = None))
         by (destruct (running t) eqn:Hr; destruct (startTs t) as [s|] eqn:Hs;
             [ left; eauto
             | destruct (H1 eq_refl) as [x [=]]
             | discriminate H2; eauto
             | right; done ]).
  all: clear H1 H2.
  all: destruct Hc as [[Hr [s Hs]] | [Hr Hs]];
    unfold goalCheck1, startTimer1, pauseTimer1, resetTimer1, adjustTimer1,
      cleared;
    rewrite ?Hr, ?Hs; cases; simpl; rewrite ?Hr, ?Hs;
    (split; [intros Hx; by eauto | intros [x Hx]; by simplify_eq]).
Qed.

Lemma second_newTimer_consistent (fresh : string) (len : nat) :
  consistent (newTimer fresh len).
Proof. split; [done | by intros [x Hx]]. Qed.

Lemma second_initial_consistent (uid : nat -> string) :
  app_consistent (initial uid).
Proof.
  split; [|done]. repeat constructor; try done. by intros [x Hx].
Qed.

Lemma second_handle_consistent (dateNow : Z) (e : event) (a : app) :
  app_consistent a -> app_consistent (handle dateNow e a).
Proof.
  intros [H Het].
  assert (Hmap : forall ev, Forall consistent
            (map (fun t => fst (handle1 dateNow (editTimer a) ev t)) (timers a))).
  { intros ev. apply Forall_fmap. eapply Forall_impl; [exact H|].
    intros t Ht. by apply second_handle1_consistent. }
  destruct e; simpl.
  - split; [exact (Hmap Tick) | done].
  - split; [exact (Hmap (Start i)) | done].
  - split; [exact (Hmap (Pause i)) | done].
  - split; [exact (Hmap (Reset i)) | done].
  - split; [exact (Hmap ResetAll) | done].
  - split; [exact (Hmap (Adjust i deltaSeconds)) | done].
  - split; simpl.
    + unfold addTimer. constructor; [apply second_newTimer_consistent | done].
    + intros et [= <-]. apply second_newTimer_consistent.
  - split; simpl; [|done].
    unfold removeTimer. apply List.Forall_forall. intros t Ht.
    apply List.filter_In in Ht as [Ht _].
    by apply (proj1 (List.Forall_forall _ _) H).
  - split; simpl; [done|].
    intros et Hk. apply (proj1 (List.Forall_forall _ _) H).
    apply list_elem_of_In. by eapply list_elem_of_lookup_2.
  - specialize (Hmap (Save nm cat goal col targetH targetM)).
    simpl in Hmap. destruct (editTimer a) as [f|] eqn:Hf; simpl.
    + split; [exact Hmap | done].
    + split; [done|]. intros et Hx. rewrite Hf in Hx. done.
  - split; simpl; done.
  - split; simpl; done.
Qed.

(** *** Good order of every reachable state *)

Lemma second_good_later (c d : Z) (t : timer) :
  (c <= d)%Z -> good c t -> good d t.
Proof.
  intros Hcd (Hcons & Hst & He). split; [done|]. split; [|done].
  intros s Hs. specialize (Hst s Hs). lia.
Qed.

Lemma second_handle1_good (c d : Z) (et : option timer) (e : event) (t : timer) :
  (0 < c)%Z -> (c <= d)%Z ->
  (forall f, et = Some f -> good d f) ->
  good c t -> good d (fst (handle1 d et e t)).
Proof.
  intros Hc Hcd Het (Hcons & Hst & He).
  assert (Hcons' : consistent (fst (handle1 d et e t))).
  { apply second_handle1_consistent; [|done].
    intros f Hf. by destruct (Het f Hf). }
  split; [exact Hcons'|]. clear Hcons'.
  assert (Hkeep : stamped d t) by (intros s Hs; specialize (Hst s Hs); lia).
  destruct e; simpl; try done;
    try (destruct et as [f|]; simpl; [|done];
         destruct (String.eqb (id t) (id f)); [|done];
         by destruct (Het f eq_refl) as (Hf1 & Hf2 & Hf3)).
  all: unfold goalCheck1, startTimer1, pauseTimer1, resetTimer1, adjustTimer1,
         cleared;
       cases; simpl;
       (split; [intros s Hs; simpl in Hs; first [by apply Hkeep | simplify_eq; lia]
               | first [exact He | apply Q.le_max_l | lra]]).
Qed.

Lemma second_newTimer_good (c : Z) (fresh : string) (len : nat) :
  good c (newTimer fresh len).
Proof.
  split; [apply second_newTimer_consistent|]. split; [intros s [=] | done].
Qed.

Lemma second_handle_good (c d : Z) (e : event) (a : app) :
  (0 < c)%Z -> (c <= d)%Z ->
  Forall (good c) (timers a) ->
  (forall f, editTimer a = Some f -> good c f) ->
  Forall (good d) (timers (handle d e a))
  /\ (forall f, editTimer (handle d e a) = Some f -> good d f).
Proof.
  intros Hc Hcd H Het.
  assert (Hlater : Forall (good d) (timers a)).
  { eapply Forall_impl; [exact H|]. intros t. by apply second_good_later. }
  assert (Het' : forall f, editTimer a = Some f -> good d f).
  { intros f Hf. apply (second_good_later c); [done|]. by apply Het. }
  assert (Hmap : forall ev, Forall (good d)
            (map (fun t => fst (handle1 d (editTimer a) ev t)) (timers a))).
  { intros ev. apply Forall_fmap. eapply Forall_impl; [exact H|].
    intros t Ht. by apply (second_handle1_good c). }
  destruct e; simpl.
  - split; [exact (Hmap Tick) | done].
  - split; [exact (Hmap (Start i)) | done].
  - split; [exact (Hmap (Pause i)) | done].
  - split; [exact (Hmap (Reset i)) | done].
  - split; [exact (Hmap ResetAll) | done].
  - split; [exact (Hmap (Adjust i deltaSeconds)) | done].
  - split; simpl.
    + unfold addTimer. constructor; [apply second_newTimer_good | done].
    + intros f [= <-]. apply second_newTimer_good.
  - split; simpl; [|done].
    unfold removeTimer. apply List.Forall_forall. intros t Ht.
    apply List.filter_In in Ht as [Ht _].
    by apply (proj1 (List.Forall_forall _ _) Hlater).
  - split; simpl; [done|].
    intros f Hk. apply (proj1 (List.Forall_forall _ _) Hlater).
    apply list_elem_of_In. by eapply list_elem_of_lookup_2.
  - specialize (Hmap (Save nm cat goal col targetH targetM)).
    simpl in Hmap. destruct (editTimer a) as [f|] eqn:Hf; simpl.
    + split; [exact Hmap | done].
    + split; [done|]. intros f Hx. rewrite Hf in Hx. done.
  - split; simpl; done.
  - split; simpl; done.
Qed.

Lemma second_reachable_good (d : Z) (a : app) :
  reachable d a ->
  (0 < d)%Z /\ Forall (good d) (timers a)
  /\ (forall f, editTimer a = Some f -> good d f).
Proof.
  intros H. induction H as [uid d Hd | d a d' e H (Hd & IH & IHe) Hle].
  - split; [done|]. split; [|done].
    unfold initial, DEFAULT_TIMERS. simpl.
    apply Forall_cons. split; [|apply Forall_nil_2].
    split; [split; [done | by intros [x Hx]] | split; [intros s [=] | done]].
  - split; [lia|]. by apply (second_handle_good d).
Qed.

Lemma second_reachable_lookup (d : Z) (a : app) (k : nat) (t : timer) :
  reachable d a -> timers a !! k = Some t ->
  (0 < d)%Z /\ good d t.
Proof.
  intros Ha Hk. destruct (second_reachable_good d a Ha) as (Hd & Hall & _).
  split; [done|]. apply (proj1 (List.Forall_forall _ _) Hall).
  apply list_elem_of_In. by eapply list_elem_of_lookup_2.
Qed.

Lemma second_good_running (c : Z) (t : timer) :
  good c t -> running t = true ->
  exists s, startTs t = Some s /\ (0 < s <= c)%Z.
Proof.
  intros ([H1 _] & Hst & _) Hr. destruct (H1 Hr) as [s Hs].
  exists s. split; [done|]. by apply Hst.
Qed.

(** The run of a well-stamped timer is not negative. *)
Lemma second_run_nonneg (c d s : Z) (e : Q) :
  (0 < s <= c)%Z -> (c <= d)%Z -> 0 <= e ->
  0 <= e + inject_Z (d - s) / 1000.
Proof.
  intros Hs Hcd He.
  assert (H : (s <= d)%Z) by lia. rewrite Zle_Qle in H. qarith.
Qed.

(** *** The editor's copy *)

(** Saving the editor writes back the copy of the timer it was opened on,
    [goalFired] included: a goal that fired while the editor was open
    fires again at the tick after the save. *)
Lemma second_save_rearms_goal :
  let a0 := mkApp [Examples.second_minute] (mkCelebrationT false "") None in
  let a1 := handle 1000 (Start "t4") a0 in
  let a2 := handle 2000 (Edit 0) a1 in
  let a3 := handle 62000 Tick a2 in
  let a4 :=
    handle 63000
      (Save "Music" "neutral" true "from-rose-500/30 to-red-500/30" 0 1) a3 in
  goalCheck_events 62000 (timers a2) = [goalMessage Examples.second_minute]
  /\ map goalFired (timers a3) = [true]
  /\ map goalFired (timers a4) = [false]
  /\ goalCheck_events 64000 (timers a4) = [goalMessage Examples.second_minute].
Proof. vm_compute. repeat split. Qed.

(** *** Additions and removals keep the other timers as they are *)

Lemma second_add_keeps (d : Z) (fresh : string) (a : app) (k : nat) (t : timer) :
  timers a !! k = Some t ->
  timers (handle d (Add fresh) a) !! S k = Some t.
Proof. intros Hk. simpl. unfold addTimer. done. Qed.

Lemma second_remove_keeps (d : Z) (i : string) (a : app) (t : timer) :
  In t (timers (handle d (Remove i) a)) -> In t (timers a) /\ id t <> i.
Proof.
  simpl. unfold removeTimer. intros [Hin Hid]%List.filter_In.
  split; [done|]. apply negb_true_iff in Hid. by apply String.eqb_neq.
Qed.

(** *** The revision stays at zero, so an adjustment moves the net
    seconds of every reachable running timer by exactly the delta *)

Lemma second_handle1_unrevised (dateNow : Z) (et : option timer) (e : event)
    (t : timer) :
  (forall f, et = Some f -> revisionSec f = 0) ->
  revisionSec t = 0 -> revisionSec (fst (handle1 dateNow et e t)) = 0.
Proof.
  intros Het H.
  destruct e; simpl; try done;
    try (destruct et as [f|]; simpl; [|done];
         destruct (String.eqb (id t) (id f)); [|done];
         exact (Het f eq_refl));
    unfold goalCheck1, startTimer1, pauseTimer1, resetTimer1, adjustTimer1,
      cleared;
    cases; simpl; done.
Qed.

Lemma second_reachable_unrevised (d : Z) (a : app) :
  reachable d a ->
  Forall (fun t => revisionSec t = 0) (timers a)
  /\ (forall f, editTimer a = Some f -> revisionSec f = 0).
Proof.
  intros H. induction H as [uid d Hd | d a d' e H [IH IHe] Hle].
  - split; [|done]. unfold initial, DEFAULT_TIMERS. simpl.
    apply Forall_cons. split; [done | apply Forall_nil_2].
  - assert (Hmap : forall ev, Forall (fun t => revisionSec t = 0)
              (map (fun t => fst (handle1 d' (editTimer a) ev t)) (timers a))).
    { intros ev. apply Forall_fmap. eapply Forall_impl; [exact IH|].
      intros t Ht. by apply second_handle1_unrevised. }
    destruct e; simpl.
    + split; [exact (Hmap Tick) | done].
    + split; [exact (Hmap (Start i)) | done].
    + split; [exact (Hmap (Pause i)) | done].
    + split; [exact (Hmap (Reset i)) | done].
    + split; [exact (Hmap ResetAll) | done].
    + split; [exact (Hmap (Adjust i deltaSeconds)) | done].
    + split; simpl.
      * unfold addTimer. by constructor.
      * by intros f [= <-].
    + split; simpl; [|done].
      unfold removeTimer. apply List.Forall_forall. intros t Ht.
      apply List.filter_In in Ht as [Ht _].
      by apply (proj1 (List.Forall_forall _ _) IH).
    + split; simpl; [done|].
      intros f Hk. apply (proj1 (List.Forall_forall _ _) IH).
      apply list_elem_of_In. by eapply list_elem_of_lookup_2.
    + specialize (Hmap (Save nm cat goal col targetH targetM)).
      simpl in Hmap. destruct (editTimer a) as [f|] eqn:Hf; simpl.
      * split; [exact Hmap | done].
      * split; [done|]. intros f Hx. rewrite Hf in Hx. done.
    + split; simpl; done.
    + split; simpl; done.
Qed.

Lemma second_adjust_reachable (d d' : Z) (deltaSeconds : Q) (a : app)
    (k : nat) (t : timer) :
  reachable d a -> (d <= d')%Z -> timers a !! k = Some t -> running t = true ->
  exists t',
    timers (handle d' (Adjust (id t) deltaSeconds) a) !! k = Some t'
    /\ timerNetSeconds d' t' == Qmax 0 (timerNetSeconds d' t + deltaSeconds).
Proof.
  intros Ha Hd Hk Hr.
  exists (adjustTimer1 d' (id t) deltaSeconds t). split.
  - simpl. unfold adjustTimer. by rewrite list_lookup_fmap, Hk.
  - destruct (second_reachable_lookup d a k t Ha Hk) as (Hc & Hg).
    destruct (second_good_running _ t Hg Hr) as (s & Hs & Hpos).
    assert (Hrev : revisionSec t = 0).
    { apply (proj1 (List.Forall_forall _ _)
                   (proj1 (second_reachable_unrevised d a Ha))).
      apply list_elem_of_In. by eapply list_elem_of_lookup_2. }
    apply second_adjustTimer1_net; [done | rewrite Hrev; lra |].
    unfold runningNow. rewrite Hr, (second_runSoFar_eq d' s t Hs ltac:(lia)), Hrev.
    destruct Hg as (_ & _ & He).
    pose proof (second_run_nonneg d d' s (elapsedSec t) Hpos Hd He). lra.
Qed.

End AppSecondFacts.

(** * The claims *)

(** C1, as stated, fails on the first component of [src/App.jsx]: the net
    seconds it shows for a timer running since reading 100 with 50 seconds
    accumulated are 50, while the formula evaluated at reading 105 gives
    55. *)
Lemma first_variant_net_leaves_run_out :
  AppFirst.netSeconds Examples.first_running = 50
  /\ AppFirst.spec_net 105 Examples.first_running = 55
  /\ AppFirst.netSeconds Examples.first_running
     <> AppFirst.spec_net 105 Examples.first_running.
Proof. repeat split. vm_compute. discriminate. Qed.

(** C1 (amended).  In the stand-alone component the net seconds shown on
    the card of every timer of a list without shared ids, the total, and
    the value the goal check and the export use are the formula of the
    specification at the ticking [nowSec].  In the second component of
    [src/App.jsx] the net seconds are the formula at the clock reading,
    for a start timestamp that is null or not the zero reading, and the
    total is their sum.  In the first component the net seconds shown,
    summed and exported are [max(0, elapsedSec - revisionSec)]: the
    current run is left out. *)
Theorem net_seconds_per_variant
    (nowSec : Z) (ts : list Part000.timer) (p : Part000.timer)
    (Hids : NoDup (map Part000.id ts)) (Hp : p ∈ ts)
    (dateNow : Z) (qs : list AppSecond.timer) (q : AppSecond.timer)
    (Hq : AppSecond.startTs q <> Some 0)
    (fs : list AppFirst.timer) (f : AppFirst.timer) :
  (Part000.netSeconds nowSec ts p = Part000.spec_net nowSec p
   /\ Part000.total (Part000.totals nowSec ts)
      = JS.fmtHMS (foldr Z.add 0 (map (Part000.spec_net nowSec) ts))
   /\ Part000.net nowSec p = Part000.spec_net nowSec p)
  /\ ((AppSecond.timerNetSeconds dateNow q == AppSecond.spec_net dateNow q)%Q
      /\ (AppSecond.totalTracked dateNow qs
          == foldr Qplus 0 (map (AppSecond.timerNetSeconds dateNow) qs))%Q)
  /\ (AppFirst.netSeconds f
      = Z.max 0 (AppFirst.elapsedSec f - AppFirst.revisionSec f)
      /\ AppFirst.totalTracked fs
         = JS.fmtHMS
             (foldr Z.add 0
                (map (fun t => Z.max 0 (AppFirst.elapsedSec t - AppFirst.revisionSec t))
                   fs))).
Proof.
  split; [|split].
  - split; [|split].
    + by apply Part000Facts.stand_netSeconds_spec.
    + apply Part000Facts.stand_total_spec.
    + apply Part000Facts.stand_net_spec.
  - split.
    + by apply AppSecondFacts.second_timerNetSeconds_spec.
    + apply AppSecondFacts.second_totalTracked_eq.
  - split.
    + apply AppFirstFacts.first_netSeconds_eq.
    + apply AppFirstFacts.first_totalTracked_eq.
Qed.

Lemma net_seconds_per_variant_witness :
  Part000.netSeconds 105 [Examples.stand_running; Examples.stand_paused]
    Examples.stand_running = 55
  /\ (AppSecond.timerNetSeconds 105000 Examples.second_running == 55)%Q
  /\ AppFirst.netSeconds Examples.first_running = 50.
Proof.
  assert (Hids : NoDup (map Part000.id
                          [Examples.stand_running; Examples.stand_paused]))
    by (apply NoDup_cons; split;
        [ intros H%list_elem_of_singleton; discriminate H
        | apply NoDup_singleton ]).
  assert (Hp : Examples.stand_running
               ∈ [Examples.stand_running; Examples.stand_paused])
    by constructor.
  assert (Hq : AppSecond.startTs Examples.second_running <> Some 0)
    by discriminate.
  destruct (net_seconds_per_variant 105 _ _ Hids Hp
              105000 [Examples.second_running] _ Hq
              [Examples.first_running] Examples.first_running)
    as ((H1 & _ & _) & (H2 & _) & (H3 & _)).
  split; [|split].
  - rewrite H1. reflexivity.
  - rewrite H2. reflexivity.
  - rewrite H3. reflexivity.
Defined.

(** C5, as stated, fails on the first component of [src/App.jsx]: for a
    timer running since reading 100 with 50 seconds accumulated, the
    exported row carries 50 seconds, while the formula evaluated at an
    export at reading 105 gives 55. *)
Lemma first_variant_export_leaves_run_out :
  AppFirst.exportCSV_rows [Examples.first_running] !! 1%nat
  = Some ["Focus"; "50"; "00:00:50"]
  /\ JS.String_of (AppFirst.spec_net 105 Examples.first_running) = "55"
  /\ AppFirst.exportCSV_rows [Examples.first_running] !! 1%nat
     <> Some ["Focus";
              JS.String_of (AppFirst.spec_net 105 Examples.first_running);
              JS.fmtHMS (AppFirst.spec_net 105 Examples.first_running)].
Proof. repeat split. vm_compute. discriminate. Qed.

(** C5 (amended).  The data row exported for the k-th timer carries, in
    the stand-alone component, the formula of the specification at the
    ticking [nowSec]; in the first component of [src/App.jsx],
    [max(0, elapsedSec - revisionSec)] without the current run; in the
    second component, the floor of the formula at the clock reading of the
    export, for a start timestamp that is null or not the zero reading. *)
Theorem export_net_per_variant
    (nowSec : Z) (ts : list Part000.timer) (k : nat) (p : Part000.timer)
    (Hp : ts !! k = Some p)
    (fs : list AppFirst.timer) (kf : nat) (f : AppFirst.timer)
    (Hf : fs !! kf = Some f)
    (dateNow : Z) (qs : list AppSecond.timer) (kq : nat) (q : AppSecond.timer)
    (Hq : qs !! kq = Some q) (Hq0 : AppSecond.startTs q <> Some 0) :
  Part000.exportCSV_rows nowSec ts !! S k
  = Some [Part000.name p; JS.String_of (Part000.spec_net nowSec p);
          JS.fmtHMS (Part000.spec_net nowSec p)]
  /\ AppFirst.exportCSV_rows fs !! S kf
     = Some [AppFirst.name f;
             JS.String_of (Z.max 0 (AppFirst.elapsedSec f - AppFirst.revisionSec f));
             JS.fmtHMS (Z.max 0 (AppFirst.elapsedSec f - AppFirst.revisionSec f))]
  /\ exists row,
       AppSecond.exportCSV_rows dateNow qs !! S kq = Some row
       /\ row !! 11%nat
          = Some (AppSecond.CNum
                    (inject_Z (Qfloor (AppSecond.spec_net dateNow q))))
       /\ row !! 12%nat
          = Some (AppSecond.CStr
                    (JS.fmtHMS (Qfloor (AppSecond.spec_net dateNow q)))).
Proof.
  split; [|split].
  - by apply Part000Facts.stand_exportCSV_row.
  - by apply AppFirstFacts.first_exportCSV_row.
  - by apply AppSecondFacts.second_exportCSV_row_net.
Qed.

Lemma export_net_per_variant_witness :
  Part000.exportCSV_rows 105 [Examples.stand_running] !! 1%nat
  = Some ["Focus"; "55"; "00:00:55"]
  /\ AppFirst.exportCSV_rows [Examples.first_running] !! 1%nat
     = Some ["Focus"; "50"; "00:00:50"]
  /\ exists row,
       AppSecond.exportCSV_rows 105500 [Examples.second_running] !! 1%nat
       = Some row
       /\ row !! 11%nat = Some (AppSecond.CNum (inject_Z 55))
       /\ row !! 12%nat = Some (AppSecond.CStr "00:00:55").
Proof.
  assert (Hq0 : AppSecond.startTs Examples.second_running <> Some 0)
    by discriminate.
  exact (export_net_per_variant 105 [Examples.stand_running] 0
           Examples.stand_running eq_refl
           [Examples.first_running] 0 Examples.first_running eq_refl
           105500 [Examples.second_running] 0 Examples.second_running
           eq_refl Hq0).
Defined.

(** C2, as stated, fails on the first component of [src/App.jsx]: its
    timer loop passes over a timer that is not running, so a paused timer
    with its goal on, not yet fired, a positive target and net seconds at
    or above the target raises no celebration at a tick and keeps
    [goalFired] false. *)
Lemma first_variant_skips_paused_goal :
  AppFirst.goalOn Examples.first_reached = true
  /\ AppFirst.goalFired Examples.first_reached = false
  /\ 0 < AppFirst.targetSec Examples.first_reached
  /\ AppFirst.targetSec Examples.first_reached
     <= AppFirst.netSeconds Examples.first_reached
  /\ AppFirst.targetSec Examples.first_reached
     <= AppFirst.spec_net 200 Examples.first_reached
  /\ snd (AppFirst.loop1 200 Examples.first_reached) = None
  /\ AppFirst.goalFired (fst (AppFirst.loop1 200 Examples.first_reached))
     = false.
Proof. repeat split; vm_compute; congruence. Qed.

(** C2 (amended).  At a tick, a timer with its goal on, not yet fired, a
    positive target and net seconds at or above the target raises a
    celebration and gets [goalFired] set: in the stand-alone component and
    in the second component of [src/App.jsx] for every such timer, in the
    first component for every such timer that is running with a start
    timestamp.  In all three, once [goalFired] is true it stays true and
    no celebration is raised for the timer through any sequence of ticks,
    starts, pauses, adjustments, field edits by id, additions and removals
    of other list elements, as long as no reset of the timer and no
    reset-day occurs. *)
Theorem goal_check_per_variant
    (nowSec : Z) (p : Part000.timer)
    (Hp_on : Part000.goalOn p = true)
    (Hp_unfired : Part000.goalFired p = false)
    (Hp_pos : 0 < Part000.targetSec p)
    (Hp_net : Part000.targetSec p <= Part000.spec_net nowSec p)
    (p0 p1 : Part000.timer) (cp cp' : Z) (logp : list celebration)
    (Hp0 : Part000.goalFired p0 = true)
    (Hhp : Part000.history
             (fun e => negb (Part000.resets (Part000.id p0) e))
             cp p0 cp' p1 logp)
    (dateNow : Z) (q : AppSecond.timer)
    (Hq_ts : AppSecond.startTs q <> Some 0)
    (Hq_on : AppSecond.goalOn q = true)
    (Hq_unfired : AppSecond.goalFired q = false)
    (Hq_pos : (0 < AppSecond.targetSec q)%Q)
    (Hq_net : (AppSecond.targetSec q <= AppSecond.spec_net dateNow q)%Q)
    (q0 q1 : AppSecond.timer) (cq cq' : Z) (logq : list string)
    (Hq0 : AppSecond.goalFired q0 = true)
    (Hhq : AppSecond.history
             (fun e => negb (AppSecond.resets (AppSecond.id q0) e)
                       && negb (AppSecond.saves e))
             cq q0 cq' q1 logq)
    (now s : Z) (f : AppFirst.timer)
    (Hf_run : AppFirst.running f = true)
    (Hf_ts : AppFirst.startTs f = Some s)
    (Hf_on : AppFirst.goalOn f = true)
    (Hf_unfired : AppFirst.goalFired f = false)
    (Hf_pos : 0 < AppFirst.targetSec f)
    (Hf_net : AppFirst.targetSec f <= AppFirst.spec_net now f)
    (f0 f1 : AppFirst.timer) (cf cf' : Z) (logf : list celebration)
    (Hf0 : AppFirst.goalFired f0 = true)
    (Hhf : AppFirst.history
             (fun e => negb (AppFirst.resets (AppFirst.id f0) e))
             cf f0 cf' f1 logf) :
  (Part000.goalCheck1 nowSec p
   = (Part000.set_goalFired true p,
      Some (mkCelebration (Part000.name p) (Part000.targetSec p)))
   /\ Part000.goalFired p1 = true /\ logp = [])
  /\ (AppSecond.goalCheck1 dateNow q
      = (AppSecond.set_goalFired true q, Some (AppSecond.goalMessage q))
      /\ AppSecond.goalFired q1 = true /\ logq = [])
  /\ (AppFirst.loop1 now f
      = (AppFirst.set_elapsedSec (AppFirst.elapsedSec f + (now - s))
           (AppFirst.set_goalFired true f),
         Some (mkCelebration (AppFirst.name f) (AppFirst.targetSec f)))
      /\ AppFirst.goalFired f1 = true /\ logf = []).
Proof.
  split; [|split]; (split; [|]).
  - by apply Part000Facts.stand_goalCheck1_fires.
  - by destruct (Part000Facts.stand_history_goalFired _ _ _ _ _ _ eq_refl Hp0 Hhp)
      as (_ & ? & ?).
  - by apply AppSecondFacts.second_goalCheck1_fires.
  - by destruct (AppSecondFacts.second_history_goalFired _ _ _ _ _ _ eq_refl Hq0 Hhq)
      as (_ & ? & ?).
  - by apply AppFirstFacts.first_loop1_fires.
  - by destruct (AppFirstFacts.first_history_goalFired _ _ _ _ _ _ eq_refl Hf0 Hhf)
      as (_ & ? & ?).
Qed.

Lemma goal_check_per_variant_witness :
  snd (Part000.goalCheck1 4000 Examples.stand_running)
  = Some (mkCelebration "Focus" 3600)
  /\ snd (Part000.goalCheck1 4001
            (fst (Part000.goalCheck1 4000 Examples.stand_running))) = None
  /\ snd (AppSecond.goalCheck1 4000000 Examples.second_running)
     = Some (AppSecond.goalMessage Examples.second_running)
  /\ snd (AppSecond.goalCheck1 4001000
            (fst (AppSecond.goalCheck1 4000000 Examples.second_running)))
     = None
  /\ snd (AppFirst.loop1 4000 Examples.first_running)
     = Some (mkCelebration "Focus" 3600)
  /\ snd (AppFirst.loop1 4001
            (fst (AppFirst.loop1 4000 Examples.first_running))) = None.
Proof.
  pose (p0 := fst (Part000.goalCheck1 4000 Examples.stand_running)).
  pose (q0 := fst (AppSecond.goalCheck1 4000000 Examples.second_running)).
  pose (f0 := fst (AppFirst.loop1 4000 Examples.first_running)).
  assert (Hhp : Part000.history
                  (fun e => negb (Part000.resets (Part000.id p0) e))
                  4000 p0 4001 (fst (Part000.handle1 4001 Part000.Tick p0))
                  ([] ++ option_list (snd (Part000.handle1 4001 Part000.Tick p0)))).
  { refine (Part000.history_step _ 4000 p0 4000 p0 [] 4001 Part000.Tick _ _ _);
      [constructor | lia | reflexivity]. }
  assert (Hhq : AppSecond.history
                  (fun e => negb (AppSecond.resets (AppSecond.id q0) e)
                            && negb (AppSecond.saves e))
                  4000000 q0 4001000
                  (fst (AppSecond.handle1 4001000 None AppSecond.Tick q0))
                  ([] ++ option_list
                           (snd (AppSecond.handle1 4001000 None AppSecond.Tick q0)))).
  { refine (AppSecond.history_step _ 4000000 q0 4000000 q0 [] 4001000 None
              AppSecond.Tick _ _ _);
      [constructor | lia | reflexivity]. }
  assert (Hhf : AppFirst.history
                  (fun e => negb (AppFirst.resets (AppFirst.id f0) e))
                  4000 f0 4001 (fst (AppFirst.handle1 4001 AppFirst.Tick f0))
                  ([] ++ option_list (snd (AppFirst.handle1 4001 AppFirst.Tick f0)))).
  { refine (AppFirst.history_step _ 4000 f0 4000 f0 [] 4001 AppFirst.Tick _ _ _);
      [constructor | lia | reflexivity]. }
  assert (Hq_ts : AppSecond.startTs Examples.second_running <> Some 0)
    by discriminate.
  assert (Hq_pos : (0 < AppSecond.targetSec Examples.second_running)%Q)
    by reflexivity.
  assert (Hq_net : (AppSecond.targetSec Examples.second_running
                    <= AppSecond.spec_net 4000000 Examples.second_running)%Q)
    by (vm_compute; discriminate).
  assert (Hp_net : Part000.targetSec Examples.stand_running
                   <= Part000.spec_net 4000 Examples.stand_running)
    by (vm_compute; discriminate).
  assert (Hf_net : AppFirst.targetSec Examples.first_running
                   <= AppFirst.spec_net 4000 Examples.first_running)
    by (vm_compute; discriminate).
  destruct (goal_check_per_variant
              4000 Examples.stand_running eq_refl eq_refl eq_refl Hp_net
              p0 _ 4000 4001 _ eq_refl Hhp
              4000000 Examples.second_running Hq_ts eq_refl eq_refl Hq_pos Hq_net
              q0 _ 4000000 4001000 _ eq_refl Hhq
              4000 100 Examples.first_running eq_refl eq_refl eq_refl eq_refl
              eq_refl Hf_net
              f0 _ 4000 4001 _ eq_refl Hhf)
    as ((H1 & _ & H2) & (H3 & _ & H4) & (H5 & _ & H6)).
  rewrite H1, H3, H5. simpl snd.
  repeat split; reflexivity.
Defined.

(** C3, as stated, fails on the first component of [src/App.jsx]:
    adjusting a timer that has been running since reading 100, at reading
    105, neither adds the five seconds of the run to [elapsedSec] nor
    moves the start timestamp to 105; only [revisionSec] changes. *)
Lemma first_variant_adjust_keeps_run :
  AppFirst.elapsedSec (AppFirst.adjustTimer1 "t1" (-10) Examples.first_running)
  = AppFirst.elapsedSec Examples.first_running
  /\ AppFirst.elapsedSec (AppFirst.adjustTimer1 "t1" (-10) Examples.first_running)
     <> AppFirst.elapsedSec Examples.first_running + (105 - 100)
  /\ AppFirst.startTs (AppFirst.adjustTimer1 "t1" (-10) Examples.first_running)
     = Some 100
  /\ AppFirst.startTs (AppFirst.adjustTimer1 "t1" (-10) Examples.first_running)
     <> Some 105
  /\ AppFirst.revisionSec (AppFirst.adjustTimer1 "t1" (-10) Examples.first_running)
     = 10.
Proof. repeat split; vm_compute; congruence. Qed.

(** C3 (amended).  In the stand-alone component and in the second
    component of [src/App.jsx], adjusting a running timer that has a start
    timestamp (in the second component, one that is not the zero reading)
    adds the run so far and the delta to [elapsedSec], clamps the sum at 0
    and sets the start timestamp to the clock reading; adjusting a paused
    timer adds the delta to [elapsedSec] with the same clamp.  In the first
    component adjusting subtracts the delta from [revisionSec], clamped at
    0, and leaves [elapsedSec] and the start timestamp as they are.  In all
    three the net seconds after the adjustment are not negative. *)
Theorem adjust_per_variant
    (now deltaSec : Z) (c : Z)
    (p : Part000.timer) (sp : Z)
    (Hp_run : Part000.running p = true)
    (Hp_ts : Part000.startTs p = Some sp)
    (p' : Part000.timer) (Hp' : Part000.running p' = false)
    (dateNow : Z) (deltaSeconds : Q)
    (q : AppSecond.timer) (sq : Z)
    (Hq_run : AppSecond.running q = true)
    (Hq_ts : AppSecond.startTs q = Some sq) (Hq_nz : sq <> 0)
    (q' : AppSecond.timer) (Hq' : AppSecond.running q' = false)
    (f : AppFirst.timer) :
  (Part000.adjustTimer1 now (Part000.id p) deltaSec p
   = Part000.set_startTs (Some now)
       (Part000.set_elapsedSec
          (Z.max 0 (Part000.elapsedSec p + (now - sp) + deltaSec)) p)
   /\ Part000.adjustTimer1 now (Part000.id p') deltaSec p'
      = Part000.set_elapsedSec (Z.max 0 (Part000.elapsedSec p' + deltaSec)) p'
   /\ 0 <= Part000.net c (Part000.adjustTimer1 now (Part000.id p) deltaSec p)
   /\ 0 <= Part000.net c (Part000.adjustTimer1 now (Part000.id p') deltaSec p'))
  /\ (AppSecond.adjustTimer1 dateNow (AppSecond.id q) deltaSeconds q
      = AppSecond.set_startTs (Some dateNow)
          (AppSecond.set_elapsedSec
             (Qmax 0 (AppSecond.elapsedSec q + inject_Z (dateNow - sq) / 1000
                      + deltaSeconds)%Q) q)
      /\ AppSecond.adjustTimer1 dateNow (AppSecond.id q') deltaSeconds q'
         = AppSecond.set_elapsedSec
             (Qmax 0 (AppSecond.elapsedSec q' + deltaSeconds)%Q) q'
      /\ (0 <= AppSecond.timerNetSeconds c
                 (AppSecond.adjustTimer1 dateNow (AppSecond.id q) deltaSeconds q))%Q
      /\ (0 <= AppSecond.timerNetSeconds c
                 (AppSecond.adjustTimer1 dateNow (AppSecond.id q') deltaSeconds q'))%Q)
  /\ (AppFirst.adjustTimer1 (AppFirst.id f) deltaSec f
      = AppFirst.set_revisionSec
          (Z.max 0 (AppFirst.revisionSec f - deltaSec)) f
      /\ 0 <= AppFirst.netSeconds (AppFirst.adjustTimer1 (AppFirst.id f) deltaSec f)).
Proof.
  split; [|split].
  - split; [|split; [|split]].
    + by apply Part000Facts.stand_adjustTimer1_running.
    + by apply Part000Facts.stand_adjustTimer1_paused.
    + apply Part000Facts.stand_net_nonneg.
    + apply Part000Facts.stand_net_nonneg.
  - split; [|split; [|split]].
    + by apply AppSecondFacts.second_adjustTimer1_running.
    + by apply AppSecondFacts.second_adjustTimer1_paused.
    + apply AppSecondFacts.second_timerNetSeconds_nonneg.
    + apply AppSecondFacts.second_timerNetSeconds_nonneg.
  - split.
    + apply AppFirstFacts.first_adjustTimer1_eq.
    + rewrite AppFirstFacts.first_netSeconds_eq. lia.
Qed.

Lemma adjust_per_variant_witness :
  Part000.elapsedSec (Part000.adjustTimer1 105 "t1" (-10) Examples.stand_running)
  = 45
  /\ Part000.startTs (Part000.adjustTimer1 105 "t1" (-10) Examples.stand_running)
     = Some 105
  /\ Part000.elapsedSec (Part000.adjustTimer1 105 "t2" (-10) Examples.stand_paused)
     = 10
  /\ AppSecond.startTs
       (AppSecond.adjustTimer1 105000 "t1" (-10) Examples.second_running)
     = Some 105000
  /\ AppFirst.revisionSec (AppFirst.adjustTimer1 "t1" (-10) Examples.first_running)
     = 10.
Proof.
  assert (Hq_nz : 100000 <> 0) by lia.
  destruct (adjust_per_variant 105 (-10) 105
              Examples.stand_running 100 eq_refl eq_refl
              Examples.stand_paused eq_refl
              105000 (-10)%Q
              Examples.second_running 100000 eq_refl eq_refl Hq_nz
              Examples.second_paused eq_refl
              Examples.first_running)
    as ((H1 & _) & (H2 & _) & (H3 & _)).
  change (Part000.id Examples.stand_running) with "t1"%string in H1.
  change (AppSecond.id Examples.second_running) with "t1"%string in H2.
  change (AppFirst.id Examples.first_running) with "t1"%string in H3.
  rewrite H1, H2, H3. repeat split; reflexivity.
Defined.

(** C4 on the first component of [src/App.jsx], at a failing input: a
    timer running since reading 100 with 50 seconds accumulated and no
    revision has 50 net seconds at reading 100; after adding 60 seconds at
    that reading it still has 50, by the shown value and by the formula
    alike, where the claim gives 110.  The clamp of [revisionSec] at 0
    discards the added seconds. *)
Theorem first_variant_adjust_drops_added_seconds :
  let before := AppFirst.mkApp [Examples.first_running] None in
  let after := AppFirst.handle 100000 (AppFirst.Adjust "t1" 60) before in
  map AppFirst.netSeconds (AppFirst.timers before) = [50]
  /\ map (AppFirst.spec_net 100) (AppFirst.timers before) = [50]
  /\ map AppFirst.netSeconds (AppFirst.timers after) = [50]
  /\ map (AppFirst.spec_net 100) (AppFirst.timers after) = [50]
  /\ Z.max 0 (50 + 60) = 110.
Proof. repeat split. Qed.

(** C8 on the first component of [src/App.jsx], at a failing input: a
    fresh timer is started at reading 100, the timer loop runs once at
    101, the timer is paused at 102, started again at 200 and paused at
    201.  The two runs last 2 + 1 = 3 seconds; [elapsedSec] ends at 4,
    because the loop added the run so far without moving the start
    timestamp and the pause added the whole run again. *)
Theorem first_variant_loop_counts_run_twice :
  let before := AppFirst.mkApp [Examples.first_fresh] None in
  let after :=
    AppFirst.run
      [ (100000, AppFirst.Start "t1"); (101000, AppFirst.Tick);
        (102000, AppFirst.Pause "t1"); (200000, AppFirst.Start "t1");
        (201000, AppFirst.Pause "t1") ] before in
  map AppFirst.elapsedSec (AppFirst.timers before) = [0]
  /\ map AppFirst.elapsedSec (AppFirst.timers after) = [4]
  /\ (102 - 100) + (201 - 200) = 3.
Proof. repeat split. Qed.

(** C6, as stated, fails on a timer that did not get its fields from the
    local handlers.  In the second component of [src/App.jsx] a running
    timer that came in over the realtime channel with 5 seconds
    accumulated and a start timestamp 100 seconds ahead of the local
    clock is paused with 0 seconds, not 5 - 100: the sum is clamped at
    zero.  In the stand-alone component a running timer whose start
    timestamp is 0 is paused with its 5 seconds unchanged, not
    5 + (100 - 0): a start timestamp of 0 is read like null. *)
Lemma pause_clamps_and_falls_back :
  (AppSecond.running <$> AppSecond.timers Examples.second_synced !! 0%nat
   = Some true
   /\ AppSecond.startTs <$> AppSecond.timers Examples.second_synced !! 0%nat
      = Some (Some 200000)
   /\ exists q1,
        AppSecond.timers
          (AppSecond.handle 100000 (AppSecond.Pause "t7") Examples.second_synced)
        !! 0%nat = Some q1
        /\ (AppSecond.elapsedSec q1 == 0)%Q
        /\ ~ (AppSecond.elapsedSec q1
              == 5 + inject_Z (100000 - 200000) / 1000)%Q)
  /\ (Part000.running <$> Part000.timers Examples.stand_synced !! 0%nat
      = Some true
      /\ Part000.startTs <$> Part000.timers Examples.stand_synced !! 0%nat
         = Some (Some 0)
      /\ Part000.elapsedSec <$>
           Part000.timers
             (Part000.handle 100000 (Part000.Pause "t8") Examples.stand_synced)
           !! 0%nat = Some 5
      /\ 5 <> 5 + (JS.nowSeconds 100000 - 0)).
Proof.
  split.
  - split; [reflexivity|]. split; [reflexivity|].
    eexists. split; [reflexivity|]. split; [reflexivity|].
    vm_compute. discriminate.
  - split; [reflexivity|]. split; [reflexivity|]. split; [reflexivity|].
    vm_compute. discriminate.
Qed.

(** C6 (amended).  Take any timer of any state of a component.  When it
    is running with a start timestamp that is neither null nor 0, pausing
    it clears the start timestamp, clears [running], and sets
    [elapsedSec] to [elapsedSec + (now - startTs)] in the stand-alone
    component and in the first component of [src/App.jsx] (whole
    seconds), and to [max(0, elapsedSec + (Date.now() - startTs)/1000)]
    in the second component, which is [elapsedSec] plus the run whenever
    that sum is not negative.  When it is running with a start timestamp
    that is null or 0 it is stopped with [elapsedSec] as it was (clamped
    at zero in the second component).  A timer that is not running, and
    a timer with another id than the paused one, is left as it is. *)
Theorem pause_spec
    (d' : Z) (i : string)
    (ap : Part000.app) (kp : nat) (p : Part000.timer)
    (Hp_at : Part000.timers ap !! kp = Some p)
    (af : AppFirst.app) (kf : nat) (f : AppFirst.timer)
    (Hf_at : AppFirst.timers af !! kf = Some f)
    (aq : AppSecond.app) (kq : nat) (q : AppSecond.timer)
    (Hq_at : AppSecond.timers aq !! kq = Some q) :
  ((Part000.running p = true ->
    forall s, Part000.startTs p = Some s -> s <> 0 ->
    Part000.timers (Part000.handle d' (Part000.Pause (Part000.id p)) ap) !! kp
    = Some (Part000.set_elapsedSec
              (Part000.elapsedSec p + (JS.nowSeconds d' - s))
              (Part000.set_startTs None (Part000.set_running false p))))
   /\ (Part000.running p = true ->
       Part000.startTs p = None \/ Part000.startTs p = Some 0 ->
       Part000.timers (Part000.handle d' (Part000.Pause (Part000.id p)) ap) !! kp
       = Some (Part000.set_elapsedSec (Part000.elapsedSec p)
                 (Part000.set_startTs None (Part000.set_running false p))))
   /\ (Part000.running p = false \/ Part000.id p <> i ->
       Part000.timers (Part000.handle d' (Part000.Pause i) ap) !! kp = Some p))
  /\ ((AppFirst.running f = true ->
       forall s, AppFirst.startTs f = Some s -> s <> 0 ->
       AppFirst.timers (AppFirst.handle d' (AppFirst.Pause (AppFirst.id f)) af) !! kf
       = Some (AppFirst.set_elapsedSec
                 (AppFirst.elapsedSec f + (JS.nowSeconds d' - s))
                 (AppFirst.set_startTs None (AppFirst.set_running false f))))
      /\ (AppFirst.running f = true ->
          AppFirst.startTs f = None \/ AppFirst.startTs f = Some 0 ->
          AppFirst.timers (AppFirst.handle d' (AppFirst.Pause (AppFirst.id f)) af) !! kf
          = Some (AppFirst.set_elapsedSec (AppFirst.elapsedSec f)
                    (AppFirst.set_startTs None (AppFirst.set_running false f))))
      /\ (AppFirst.running f = false \/ AppFirst.id f <> i ->
          AppFirst.timers (AppFirst.handle d' (AppFirst.Pause i) af) !! kf
          = Some f))
  /\ ((AppSecond.running q = true ->
       forall s, AppSecond.startTs q = Some s -> s <> 0 ->
       AppSecond.timers
         (AppSecond.handle d' (AppSecond.Pause (AppSecond.id q)) aq) !! kq
       = Some (AppSecond.set_elapsedSec
                 (Qmax 0 (AppSecond.elapsedSec q + inject_Z (d' - s) / 1000))
                 (AppSecond.set_startTs None (AppSecond.set_running false q)))
       /\ ((0 <= AppSecond.elapsedSec q + inject_Z (d' - s) / 1000)%Q ->
           (Qmax 0 (AppSecond.elapsedSec q + inject_Z (d' - s) / 1000)
            == AppSecond.elapsedSec q + inject_Z (d' - s) / 1000)%Q))
      /\ (AppSecond.running q = true ->
          AppSecond.startTs q = None \/ AppSecond.startTs q = Some 0 ->
          AppSecond.timers
            (AppSecond.handle d' (AppSecond.Pause (AppSecond.id q)) aq) !! kq
          = Some (AppSecond.set_elapsedSec
                    (Qmax 0 (AppSecond.elapsedSec q + 0))
                    (AppSecond.set_startTs None (AppSecond.set_running false q))))
      /\ (AppSecond.running q = false \/ AppSecond.id q <> i ->
          AppSecond.timers (AppSecond.handle d' (AppSecond.Pause i) aq) !! kq
          = Some q)).
Proof.
  split; [|split].
  - simpl. unfold Part000.pauseTimer. rewrite !list_lookup_fmap, Hp_at. simpl.
    split; [|split].
    + intros Hr s Hs Hnz. f_equal.
      by apply Part000Facts.stand_pauseTimer1_running.
    + intros Hr Hs. f_equal. unfold Part000.pauseTimer1.
      rewrite String.eqb_refl, Hr. simpl.
      destruct Hs as [-> | ->]; unfold JS.or_ts, JS.or_num; simpl;
        f_equal; lia.
    + intros [Hr | Hne]; f_equal.
      * by apply Part000Facts.stand_pauseTimer1_paused.
      * by apply Part000Facts.stand_pauseTimer1_other.
  - simpl. unfold AppFirst.pauseTimer. rewrite !list_lookup_fmap, Hf_at. simpl.
    split; [|split].
    + intros Hr s Hs Hnz. f_equal.
      by apply AppFirstFacts.first_pauseTimer1_running.
    + intros Hr Hs. f_equal. unfold AppFirst.pauseTimer1.
      rewrite String.eqb_refl, Hr. simpl.
      destruct Hs as [-> | ->]; unfold JS.or_ts, JS.or_num; simpl;
        f_equal; lia.
    + intros [Hr | Hne]; f_equal.
      * by apply AppFirstFacts.first_pauseTimer1_paused.
      * by apply AppFirstFacts.first_pauseTimer1_other.
  - simpl. unfold AppSecond.pauseTimer. rewrite !list_lookup_fmap, Hq_at. simpl.
    split; [|split].
    + intros Hr s Hs Hnz. split.
      * f_equal. by apply AppSecondFacts.second_pauseTimer1_running.
      * intros H. by apply Q.max_r.
    + intros Hr Hs. f_equal. unfold AppSecond.pauseTimer1, AppSecond.runSoFar.
      rewrite String.eqb_refl, Hr. simpl.
      by destruct Hs as [-> | ->].
    + intros [Hr | Hne]; f_equal.
      * by apply AppSecondFacts.second_pauseTimer1_paused.
      * by apply AppSecondFacts.second_pauseTimer1_other.
Qed.

Lemma pause_spec_witness :
  Part000.elapsedSec <$>
    (Part000.timers
       (Part000.handle 130000 (Part000.Pause "0") Examples.stand_started)
     !! 0%nat) = Some 30
  /\ AppFirst.timers
       (AppFirst.handle 130000 (AppFirst.Pause "0") (AppFirst.initial Examples.uid))
     !! 0%nat
     = AppFirst.timers (AppFirst.initial Examples.uid) !! 0%nat
  /\ (AppSecond.elapsedSec <$>
        (AppSecond.timers
           (AppSecond.handle 130500 (AppSecond.Pause "0") Examples.second_started)
         !! 1%nat)
      = Some (Qmax 0 (0 + inject_Z (130500 - 100000) / 1000))).
Proof.
  destruct (pause_spec 130000 "0"
              Examples.stand_started 0 Examples.stand_working eq_refl
              (AppFirst.initial Examples.uid) 0 _ eq_refl
              Examples.second_started 1 Examples.second_working eq_refl)
    as ((Hp & _ & _) & (_ & _ & Hf) & _).
  destruct (pause_spec 130500 "0"
              Examples.stand_started 0 Examples.stand_working eq_refl
              (AppFirst.initial Examples.uid) 0 _ eq_refl
              Examples.second_started 1 Examples.second_working eq_refl)
    as (_ & _ & (Hq & _ & _)).
  assert (Hnz : (100 : Z) <> 0) by discriminate.
  assert (Hnz' : (100000 : Z) <> 0) by discriminate.
  split; [|split].
  - exact (f_equal (fmap Part000.elapsedSec) (Hp eq_refl 100 eq_refl Hnz)).
  - exact (Hf (or_introl eq_refl)).
  - exact (f_equal (fmap AppSecond.elapsedSec)
             (proj1 (Hq eq_refl 100000 eq_refl Hnz'))).
Defined.

(** C7, as stated, fails on the timers the single-focus start stops when
    they did not get their fields from the local handlers.  In the second
    component of [src/App.jsx], starting the paused timer t2 stops the
    running timer t7, which came in over the realtime channel with 5
    seconds accumulated and a start timestamp 100 seconds ahead of the
    local clock, with 0 seconds, not 5 - 100.  In the stand-alone
    component the running timer t8, whose start timestamp is 0, is
    stopped with its 5 seconds unchanged, not 5 + (100 - 0). *)
Lemma start_clamps_and_falls_back :
  (AppSecond.running <$> AppSecond.timers Examples.second_synced
   = [true; false]
   /\ exists r1,
        AppSecond.timers
          (AppSecond.handle 100000 (AppSecond.Start "t2") Examples.second_synced)
        !! 0%nat = Some r1
        /\ AppSecond.running r1 = false
        /\ (AppSecond.elapsedSec r1 == 0)%Q
        /\ ~ (AppSecond.elapsedSec r1
              == 5 + inject_Z (100000 - 200000) / 1000)%Q)
  /\ (Part000.running <$> Part000.timers Examples.stand_synced = [true; false]
      /\ Part000.startTs <$> Part000.timers Examples.stand_synced
         = [Some 0; None]
      /\ Part000.running <$>
           Part000.timers
             (Part000.handle 100000 (Part000.Start "t2") Examples.stand_synced)
         = [false; true]
      /\ Part000.elapsedSec <$>
           Part000.timers
             (Part000.handle 100000 (Part000.Start "t2") Examples.stand_synced)
           !! 0%nat = Some 5
      /\ 5 <> 5 + (JS.nowSeconds 100000 - 0)).
Proof.
  split.
  - split; [reflexivity|].
    eexists. split; [reflexivity|]. split; [reflexivity|].
    split; [reflexivity|]. vm_compute. discriminate.
  - split; [reflexivity|]. split; [reflexivity|]. split; [reflexivity|].
    split; [reflexivity|]. vm_compute. discriminate.
Qed.

(** C7 (amended).  Take any timer of any state of a component.  When it
    is not running, starting it sets [running] and sets the start
    timestamp to the clock reading, in all three components.  In the two
    single-focus components (the stand-alone one and the second component
    of [src/App.jsx]) a start of another id stops it when it is running:
    [running] and the start timestamp are cleared, and [elapsedSec]
    becomes [elapsedSec + (now - startTs)] when the start timestamp is
    neither null nor 0 (in the second component
    [max(0, elapsedSec + (Date.now() - startTs)/1000)], which is
    [elapsedSec] plus the run whenever that sum is not negative), and
    stays as it was when the start timestamp is null or 0 (clamped at
    zero in the second component); when it is not running, a start of
    another id leaves it as it is.  In the first component of
    [src/App.jsx] a start of another id leaves every timer as it is. *)
Theorem start_spec
    (d' : Z) (i : string)
    (ap : Part000.app) (kp : nat) (p : Part000.timer)
    (Hp_at : Part000.timers ap !! kp = Some p)
    (af : AppFirst.app) (kf : nat) (f : AppFirst.timer)
    (Hf_at : AppFirst.timers af !! kf = Some f)
    (aq : AppSecond.app) (kq : nat) (q : AppSecond.timer)
    (Hq_at : AppSecond.timers aq !! kq = Some q) :
  ((Part000.running p = false ->
    Part000.timers (Part000.handle d' (Part000.Start (Part000.id p)) ap) !! kp
    = Some (Part000.set_startTs (Some (JS.nowSeconds d'))
              (Part000.set_running true p)))
   /\ (Part000.id p <> i -> Part000.running p = true ->
       forall s, Part000.startTs p = Some s -> s <> 0 ->
       Part000.timers (Part000.handle d' (Part000.Start i) ap) !! kp
       = Some (Part000.set_elapsedSec
                 (Part000.elapsedSec p + (JS.nowSeconds d' - s))
                 (Part000.set_startTs None (Part000.set_running false p))))
   /\ (Part000.id p <> i -> Part000.running p = true ->
       Part000.startTs p = None \/ Part000.startTs p = Some 0 ->
       Part000.timers (Part000.handle d' (Part000.Start i) ap) !! kp
       = Some (Part000.set_elapsedSec (Part000.elapsedSec p)
                 (Part000.set_startTs None (Part000.set_running false p))))
   /\ (Part000.id p <> i -> Part000.running p = false ->
       Part000.timers (Part000.handle d' (Part000.Start i) ap) !! kp = Some p))
  /\ ((AppFirst.running f = false ->
       AppFirst.timers (AppFirst.handle d' (AppFirst.Start (AppFirst.id f)) af) !! kf
       = Some (AppFirst.set_startTs (Some (JS.nowSeconds d'))
                 (AppFirst.set_running true f)))
      /\ (AppFirst.id f <> i ->
          AppFirst.timers (AppFirst.handle d' (AppFirst.Start i) af) !! kf
          = Some f))
  /\ ((AppSecond.running q = false ->
       AppSecond.timers
         (AppSecond.handle d' (AppSecond.Start (AppSecond.id q)) aq) !! kq
       = Some (AppSecond.set_startTs (Some d') (AppSecond.set_running true q)))
      /\ (AppSecond.id q <> i -> AppSecond.running q = true ->
          forall s, AppSecond.startTs q = Some s -> s <> 0 ->
          AppSecond.timers (AppSecond.handle d' (AppSecond.Start i) aq) !! kq
          = Some (AppSecond.set_elapsedSec
                    (Qmax 0 (AppSecond.elapsedSec q + inject_Z (d' - s) / 1000))
                    (AppSecond.set_startTs None (AppSecond.set_running false q)))
          /\ ((0 <= AppSecond.elapsedSec q + inject_Z (d' - s) / 1000)%Q ->
              (Qmax 0 (AppSecond.elapsedSec q + inject_Z (d' - s) / 1000)
               == AppSecond.elapsedSec q + inject_Z (d' - s) / 1000)%Q))
      /\ (AppSecond.id q <> i -> AppSecond.running q = true ->
          AppSecond.startTs q = None \/ AppSecond.startTs q = Some 0 ->
          AppSecond.timers (AppSecond.handle d' (AppSecond.Start i) aq) !! kq
          = Some (AppSecond.set_elapsedSec
                    (Qmax 0 (AppSecond.elapsedSec q + 0))
                    (AppSecond.set_startTs None (AppSecond.set_running false q))))
      /\ (AppSecond.id q <> i -> AppSecond.running q = false ->
          AppSecond.timers (AppSecond.handle d' (AppSecond.Start i) aq) !! kq
          = Some q)).
Proof.
  split; [|split].
  - simpl. unfold Part000.startTimer. rewrite !list_lookup_fmap, Hp_at. simpl.
    split; [|split; [|split]].
    + intros Hr. f_equal. by apply Part000Facts.stand_startTimer1_paused.
    + intros Hne Hr s Hs Hnz. f_equal.
      by apply Part000Facts.stand_startTimer1_other_running.
    + intros Hne Hr Hs. f_equal. unfold Part000.startTimer1.
      apply String.eqb_neq in Hne. rewrite Hne, Hr. simpl.
      destruct Hs as [-> | ->]; unfold JS.or_ts, JS.or_num; simpl;
        f_equal; lia.
    + intros Hne Hr. f_equal.
      by apply Part000Facts.stand_startTimer1_other_paused.
  - simpl. unfold AppFirst.startTimer. rewrite !list_lookup_fmap, Hf_at. simpl.
    split.
    + intros Hr. f_equal. by apply AppFirstFacts.first_startTimer1_paused.
    + intros Hne. f_equal. by apply AppFirstFacts.first_startTimer1_other.
  - simpl. unfold AppSecond.startTimer. rewrite !list_lookup_fmap, Hq_at. simpl.
    split; [|split; [|split]].
    + intros Hr. f_equal. by apply AppSecondFacts.second_startTimer1_paused.
    + intros Hne Hr s Hs Hnz. split.
      * f_equal. by apply AppSecondFacts.second_startTimer1_other_running.
      * intros H. by apply Q.max_r.
    + intros Hne Hr Hs. f_equal. unfold AppSecond.startTimer1, AppSecond.runSoFar.
      apply String.eqb_neq in Hne. rewrite Hne, Hr.
      by destruct Hs as [-> | ->].
    + intros Hne Hr. f_equal.
      by apply AppSecondFacts.second_startTimer1_other_paused.
Qed.

Lemma start_spec_witness :
  Part000.timers
    (Part000.handle 130000 (Part000.Start "0") (Part000.initial Examples.uid 100000))
  !! 0%nat
  = Some (Part000.set_startTs (Some 130)
            (Part000.set_running true
               (Part000.mkTimer (Examples.uid 0) "Working Hour" (11 * 3600) 0 0
                  None false true false "work"
                  "from-slate-400/20 to-slate-600/20" 0 false)))
  /\ AppFirst.timers
       (AppFirst.handle 130000 (AppFirst.Start "1") Examples.first_started)
     !! 0%nat = Some Examples.first_working
  /\ AppSecond.elapsedSec <$>
       (AppSecond.timers
          (AppSecond.handle 130500 (AppSecond.Start "n1") Examples.second_started)
        !! 1%nat)
     = Some (Qmax 0 (0 + inject_Z (130500 - 100000) / 1000)).
Proof.
  assert (H0 : Examples.uid 0 <> "1"%string) by (vm_compute; discriminate).
  assert (Hn : Examples.uid 0 <> "n1"%string) by (vm_compute; discriminate).
  destruct (start_spec 130000 "1"
              (Part000.initial Examples.uid 100000) 0 _ eq_refl
              Examples.first_started 0 Examples.first_working eq_refl
              Examples.second_started 1 Examples.second_working eq_refl)
    as ((Hp & _) & (_ & Hf) & _).
  destruct (start_spec 130500 "n1"
              (Part000.initial Examples.uid 100000) 0 _ eq_refl
              Examples.first_started 0 Examples.first_working eq_refl
              Examples.second_started 1 Examples.second_working eq_refl)
    as (_ & _ & (_ & Hq & _)).
  split; [|split].
  - exact (Hp eq_refl).
  - exact (Hf H0).
  - assert (Hnz : (100000 : Z) <> 0) by discriminate.
    exact (f_equal (fmap AppSecond.elapsedSec)
             (proj1 (Hq Hn eq_refl 100000 eq_refl Hnz))).
Defined.


(** Two ways the net seconds go down that the amended C9 leaves out.  In
    the second component of [src/App.jsx] the editor writes its copy of
    the timer back on save: opened on the idle timer, which is then
    started at reading 1 s, a save at 61 s takes the net seconds from 60
    to 0.  In the stand-alone component the card reads the ticking
    [nowSec]: a timer paused with 10 seconds while [nowSec] is 100 and
    started at clock reading 101, before the next tick, shows 9. *)
Lemma second_save_lowers_net :
  let a0 :=
    AppSecond.mkApp [Examples.second_minute]
      (AppSecond.mkCelebrationT false EmptyString) None in
  let a2 :=
    AppSecond.run [ (1000, AppSecond.Edit 0); (1000, AppSecond.Start "t4") ] a0 in
  let a3 :=
    AppSecond.handle 61000
      (AppSecond.Save "Music" "neutral" true "from-rose-500/30 to-red-500/30"
         0 1) a2 in
  exists q q',
    AppSecond.timers a2 !! 0%nat = Some q
    /\ AppSecond.timers a3 !! 0%nat = Some q'
    /\ (AppSecond.timerNetSeconds 61000 q == 60)%Q
    /\ (AppSecond.timerNetSeconds 61000 q' == 0)%Q.
Proof. eexists _, _. repeat split. Qed.

Lemma stand_start_shows_less :
  let a :=
    Part000.run
      [ (90000, Part000.Start "0"); (100000, Part000.Tick);
        (100000, Part000.Pause "0") ]
      (Part000.initial Examples.uid 90000) in
  let a' := Part000.handle 101000 (Part000.Start "0") a in
  Part000.nowSec a = 100 /\ Part000.nowSec a' = 100
  /\ Part000.net (Part000.nowSec a) <$> Part000.timers a !! 0%nat = Some 10
  /\ Part000.net (Part000.nowSec a') <$> Part000.timers a' !! 0%nat = Some 9.
Proof. repeat split. Qed.



(** C10.  A timer is consistent when [running] is true exactly when the
    start timestamp is not null.  Every timer created locally (the
    defaults, the timer built by add-timer, the state after mounting) is
    consistent, and every local event (the tick with its goal check,
    start, pause, reset, reset-day, adjust, add-timer, removal, the field
    edits, and in the second component of [src/App.jsx] opening and saving
    the editor) keeps every timer of the state consistent, in all three
    components. *)
Theorem running_iff_start_timestamp
    (uid : nat -> string) (fresh : string) (len : nat) (dateNow : Z)
    (ep : Part000.event) (ap : Part000.app)
    (Hap : Forall Part000.consistent (Part000.timers ap))
    (ef : AppFirst.event) (af : AppFirst.app)
    (Haf : Forall AppFirst.consistent (AppFirst.timers af))
    (eq : AppSecond.event) (aq : AppSecond.app)
    (Haq : AppSecond.app_consistent aq) :
  (Forall Part000.consistent (Part000.DEFAULT_TIMERS uid)
   /\ Part000.consistent (Part000.newTimer fresh len)
   /\ Forall Part000.consistent (Part000.timers (Part000.initial uid dateNow))
   /\ Forall Part000.consistent (Part000.timers (Part000.handle dateNow ep ap)))
  /\ (Forall AppFirst.consistent (AppFirst.DEFAULT_TIMERS uid)
      /\ AppFirst.consistent (AppFirst.newTimer fresh len)
      /\ Forall AppFirst.consistent (AppFirst.timers (AppFirst.handle dateNow ef af)))
  /\ (Forall AppSecond.consistent (AppSecond.DEFAULT_TIMERS uid)
      /\ AppSecond.consistent (AppSecond.newTimer fresh len)
      /\ AppSecond.app_consistent (AppSecond.handle dateNow eq aq)).
Proof.
  split; [|split].
  - split; [|split; [|split]].
    + apply Part000Facts.stand_DEFAULT_TIMERS_consistent.
    + apply Part000Facts.stand_newTimer_consistent.
    + apply Part000Facts.stand_initial_consistent.
    + by apply Part000Facts.stand_handle_consistent.
  - split; [|split].
    + apply AppFirstFacts.first_DEFAULT_TIMERS_consistent.
    + apply AppFirstFacts.first_newTimer_consistent.
    + by apply AppFirstFacts.first_handle_consistent.
  - split; [|split].
    + apply (AppSecondFacts.second_initial_consistent uid).
    + apply AppSecondFacts.second_newTimer_consistent.
    + by apply AppSecondFacts.second_handle_consistent.
Qed.

Lemma running_iff_start_timestamp_witness :
  Forall Part000.consistent
    (Part000.timers
       (Part000.handle 130000 (Part000.Start "t2")
          (Part000.mkApp [Examples.stand_running; Examples.stand_paused] None 129)))
  /\ Forall AppFirst.consistent
       (AppFirst.timers
          (AppFirst.handle 130000 AppFirst.Tick
             (AppFirst.mkApp [Examples.first_running; Examples.first_paused] None)))
  /\ AppSecond.app_consistent
       (AppSecond.handle 130000 (AppSecond.Adjust "t1" (-10))
          (AppSecond.mkApp [Examples.second_running; Examples.second_paused]
             (AppSecond.mkCelebrationT false "") None)).
Proof.
  assert (Hyes : forall b o, b = true -> (exists s : Z, o = Some s) ->
                   b = true <-> is_Some o) by (intros; split; done).
  assert (Hno : forall b (o : option Z), b = false -> o = None ->
                  b = true <-> is_Some o).
  { intros b o -> ->. split; [discriminate | by intros [x Hx]]. }
  assert (Hap : Forall Part000.consistent
                  [Examples.stand_running; Examples.stand_paused]).
  { constructor; [apply Hyes | constructor; [apply Hno | constructor]];
      simpl; eauto. }
  assert (Haf : Forall AppFirst.consistent
                  [Examples.first_running; Examples.first_paused]).
  { constructor; [apply Hyes | constructor; [apply Hno | constructor]];
      simpl; eauto. }
  assert (Haq : AppSecond.app_consistent
                  (AppSecond.mkApp
                     [Examples.second_running; Examples.second_paused]
                     (AppSecond.mkCelebrationT false "") None)).
  { split; [|discriminate].
    constructor; [apply Hyes | constructor; [apply Hno | constructor]];
      simpl; eauto. }
  destruct (running_iff_start_timestamp (fun _ => "u"%string) "t9" 2 130000
              (Part000.Start "t2")
              (Part000.mkApp [Examples.stand_running; Examples.stand_paused]
                 None 129) Hap
              AppFirst.Tick
              (AppFirst.mkApp [Examples.first_running; Examples.first_paused]
                 None) Haf
              (AppSecond.Adjust "t1" (-10)) _ Haq)
    as ((_ & _ & _ & H1) & (_ & _ & H2) & (_ & _ & H3)).
  split; [exact H1 | split; [exact H2 | exact H3]].
Defined.

(** * Further properties of the code *)

(** ** The shared helpers *)

Module CommonFacts.

Import Common.

Lemma field_or0_eq (x : option Z) : field_or0 x = default 0 x.
Proof. destruct x as [n|]; [apply JSFacts.or_num_0 | done]. Qed.

Lemma toSeconds_eq (h m : option Z) :
  toSeconds h m = Z.max 0 (default 0 h) * 3600 + Z.max 0 (default 0 m) * 60.
Proof. unfold toSeconds. by rewrite !field_or0_eq. Qed.

Section Arrays.
Context {A B : Type}.
Implicit Types (l prev : list A) (p : A -> bool) (k : A -> Z).

Lemma findIndex_Some p l i :
  findIndex p l = Some i ->
  exists x, l !! i = Some x /\ p x = true
    /\ forall j y, (j < i)%nat -> l !! j = Some y -> p y = false.
Proof.
  revert i. induction l as [|a l IH]; intros i; simpl; [done|].
  destruct (p a) eqn:Hp.
  - intros [= <-]. exists a. split; [done|]. split; [done|]. intros j y Hj. lia.
  - destruct (findIndex p l) as [i'|] eqn:Hf; simpl; [|done].
    intros [= <-]. destruct (IH i' eq_refl) as (x & Hx & Hpx & Hlt).
    exists x. split; [done|]. split; [done|].
    intros [|j] y Hj; simpl.
    + by intros [= <-].
    + apply Hlt. lia.
Qed.

Lemma findIndex_None p l :
  findIndex p l = None -> Forall (fun x => p x = false) l.
Proof.
  induction l as [|a l IH]; simpl; [by constructor|].
  destruct (p a) eqn:Hp; [done|].
  destruct (findIndex p l); [done|]. intros _. constructor; auto.
Qed.

Lemma findIndex_first p l i x :
  l !! i = Some x -> p x = true ->
  (forall j y, (j < i)%nat -> l !! j = Some y -> p y = false) ->
  findIndex p l = Some i.
Proof.
  revert i. induction l as [|a l IH]; intros i; [done|].
  destruct i as [|i]; simpl.
  - intros [= ->] ->. done.
  - intros Hx Hp Hlt. rewrite (Hlt 0%nat a); [|lia|done].
    rewrite (IH i Hx Hp); [done|].
    intros j y Hj Hy. apply (Hlt (S j) y); [lia|done].
Qed.

Lemma splice_in_perm j (m : A) l : splice_in j m l ≡ₚ m :: l.
Proof.
  unfold splice_in. rewrite <- Permutation_middle. by rewrite take_drop.
Qed.

Lemma splice_in_lookup j (m : A) l :
  (j <= length l)%nat -> splice_in j m l !! j = Some m.
Proof.
  intros Hj. unfold splice_in.
  rewrite lookup_app_r; rewrite length_take; [|lia].
  by replace (j - j `min` length l)%nat with 0%nat by lia.
Qed.

Lemma reorder_found key (reindex : nat -> A -> A) from over prev i j :
  findIndex (fun t => String.eqb (key t) from) prev = Some i ->
  findIndex (fun t => String.eqb (key t) over) prev = Some j ->
  exists m, prev !! i = Some m
    /\ reorder key reindex from over prev
       = imap reindex (splice_in j m (delete i prev)).
Proof.
  intros Hi Hj. unfold reorder. rewrite Hi, Hj.
  destruct (findIndex_Some _ _ _ Hi) as (m & Hm & _).
  exists m. by rewrite Hm.
Qed.

Lemma reorder_perm key (reindex : nat -> A -> A) (core : A -> B) from over prev :
  (forall n t, core (reindex n t) = core t) ->
  core <$> reorder key reindex from over prev ≡ₚ core <$> prev.
Proof.
  intros Hc. unfold reorder.
  destruct (findIndex _ prev) as [i|]; [|done].
  destruct (findIndex _ prev) as [j|]; [|done].
  destruct (prev !! i) as [m|] eqn:Hm; [|done].
  rewrite fmap_imap.
  rewrite (imap_ext _ (const core)); [|intros; simpl; apply Hc].
  rewrite imap_const, splice_in_perm.
  by rewrite <- (delete_Permutation prev i m Hm).
Qed.

Lemma drag_over_perm key (reindex : nat -> A -> A) (core : A -> B)
    dragId over prev :
  (forall n t, core (reindex n t) = core t) ->
  core <$> drag_over key reindex dragId over prev ≡ₚ core <$> prev.
Proof.
  intros Hc. unfold drag_over. destruct dragId as [from|]; [|done].
  destruct (_ || _); [done|]. by apply reorder_perm.
Qed.

Lemma insert_by_perm k (x : A) l : insert_by k x l ≡ₚ x :: l.
Proof.
  induction l as [|y l IH]; simpl; [done|].
  destruct (k x <=? k y); [done|]. rewrite IH. apply Permutation_swap.
Qed.

Lemma sort_by_perm k l : sort_by k l ≡ₚ l.
Proof.
  induction l as [|x l IH]; simpl; [done|].
  by rewrite insert_by_perm, IH.
Qed.

Lemma insert_by_sorted k (x : A) l :
  StronglySorted (fun a b => k a <= k b) l ->
  StronglySorted (fun a b => k a <= k b) (insert_by k x l).
Proof.
  induction 1 as [|y l Hs IH Hy]; simpl.
  - by repeat constructor.
  - destruct (k x <=? k y) eqn:Hxy.
    + apply Z.leb_le in Hxy. constructor; [by constructor|].
      constructor; [done|].
      eapply List.Forall_impl; [|exact Hy]. simpl. intros. lia.
    + apply Z.leb_gt in Hxy. constructor; [done|].
      apply (proj2 (List.Forall_forall _ _)). intros z Hz.
      apply list_elem_of_In in Hz. rewrite insert_by_perm in Hz.
      apply elem_of_cons in Hz as [->|Hz]; [lia|].
      apply (proj1 (List.Forall_forall _ _) Hy). by apply list_elem_of_In.
Qed.

Lemma sort_by_sorted k l :
  StronglySorted (fun a b => k a <= k b) (sort_by k l).
Proof.
  induction l as [|x l IH]; simpl; [constructor|].
  by apply insert_by_sorted.
Qed.

Lemma sort_by_id k l :
  StronglySorted (fun a b => k a <= k b) l -> sort_by k l = l.
Proof.
  induction 1 as [|x l Hs IH Hx]; [done|].
  change (sort_by k (x :: l)) with (insert_by k x (sort_by k l)). rewrite IH.
  destruct l as [|y l]; simpl; [done|].
  inversion Hx as [|? ? Hxy _]; subst.
  by rewrite (proj2 (Z.leb_le _ _) Hxy).
Qed.

Lemma reorder_length key (reindex : nat -> A -> A) from over prev :
  length (reorder key reindex from over prev) = length prev.
Proof.
  unfold reorder.
  destruct (findIndex _ prev) as [i|]; [|done].
  destruct (findIndex _ prev) as [j|]; [|done].
  destruct (prev !! i) as [m|] eqn:Hm; [|done].
  rewrite length_imap, (Permutation_length (splice_in_perm j m _)). simpl.
  rewrite length_delete; [|by eexists].
  apply lookup_lt_Some in Hm. lia.
Qed.

Lemma reorder_lookup key (reindex : nat -> A -> A) from over prev i j m :
  findIndex (fun t => String.eqb (key t) from) prev = Some i ->
  findIndex (fun t => String.eqb (key t) over) prev = Some j ->
  prev !! i = Some m ->
  reorder key reindex from over prev !! j = Some (reindex j m)
  /\ forall n t, reorder key reindex from over prev !! n = Some t ->
       exists t0, t0 ∈ prev /\ t = reindex n t0.
Proof.
  intros Hi Hj Hm.
  destruct (reorder_found key reindex from over prev i j Hi Hj) as (m' & Hm' & ->).
  assert (m' = m) as -> by congruence.
  destruct (findIndex_Some _ _ _ Hj) as (o & Ho & _).
  apply lookup_lt_Some in Ho.
  split.
  - rewrite list_lookup_imap, splice_in_lookup; [done|].
    rewrite length_delete; [lia | by eexists].
  - intros n t. rewrite list_lookup_imap.
    destruct (splice_in j m (delete i prev) !! n) as [t0|] eqn:Ht0; [|done].
    intros [= <-]. exists t0. split; [|done].
    apply list_elem_of_lookup_2 in Ht0.
    rewrite splice_in_perm in Ht0.
    by rewrite <- (delete_Permutation prev i m Hm) in Ht0.
Qed.

Lemma findIndex_missing key (i : string) prev :
  i ∉ key <$> prev ->
  findIndex (fun t => String.eqb (key t) i) prev = None.
Proof.
  induction prev as [|a l IH]; simpl; [done|].
  rewrite not_elem_of_cons. intros [Ha Hl].
  destruct (String.eqb_spec (key a) i) as [E|_]; [by rewrite E in Ha|].
  by rewrite IH.
Qed.

Lemma insert_delete_perm (x : A) l i :
  (i < length l)%nat -> <[i := x]> l ≡ₚ x :: delete i l.
Proof.
  intros Hi. rewrite insert_take_drop, delete_take_drop by done.
  by rewrite <- Permutation_middle.
Qed.

Lemma upsert_perm key k (x : A) prev :
  upsert key k x prev
  ≡ₚ match findIndex (fun t => String.eqb (key t) (key x)) prev with
     | None => x :: prev
     | Some i => x :: delete i prev
     end.
Proof.
  unfold upsert. rewrite sort_by_perm.
  destruct (findIndex _ prev) as [i|] eqn:Hf.
  - destruct (findIndex_Some _ _ _ Hf) as (m & Hm & _).
    apply insert_delete_perm. by eapply lookup_lt_Some.
  - by rewrite <- Permutation_cons_append.
Qed.

Lemma upsert_spec key k (x : A) prev :
  StronglySorted (fun a b => k a <= k b) (upsert key k x prev)
  /\ x ∈ upsert key k x prev
  /\ (forall t, t ∈ upsert key k x prev -> t = x \/ t ∈ prev)
  /\ (forall t, t ∈ prev -> key t <> key x -> t ∈ upsert key k x prev)
  /\ (NoDup (key <$> prev) -> NoDup (key <$> upsert key k x prev)).
Proof.
  split; [apply sort_by_sorted|].
  pose proof (upsert_perm key k x prev) as Hp.
  destruct (findIndex _ prev) as [i|] eqn:Hf.
  - destruct (findIndex_Some _ _ _ Hf) as (m & Hm & Hk & _).
    apply String.eqb_eq in Hk.
    pose proof (delete_Permutation prev i m Hm) as Hd.
    assert (Hel : forall t, t ∈ prev <-> t = m \/ t ∈ delete i prev).
    { intros t. rewrite <- elem_of_cons. by rewrite <- Hd. }
    split; [rewrite Hp; by left|].
    split; [|split].
    + intros t. rewrite Hp, Hel, !elem_of_cons. tauto.
    + intros t. rewrite Hp, Hel, !elem_of_cons. intros [->|Ht] Hne; [done|tauto].
    + intros Hn. rewrite Hd in Hn. rewrite Hp, fmap_cons, <- Hk. done.
  - apply findIndex_None in Hf.
    split; [rewrite Hp; by left|].
    split; [|split].
    + intros t. by rewrite Hp, elem_of_cons.
    + intros t. rewrite Hp, elem_of_cons. tauto.
    + rewrite Hp, fmap_cons. intros Hn. apply NoDup_cons. split; [|done].
      intros Hin. apply list_elem_of_fmap in Hin as (y & Hy & Hin).
      apply list_elem_of_In in Hin.
      apply (proj1 (List.Forall_forall _ _) Hf) in Hin.
      apply String.eqb_neq in Hin. congruence.
Qed.

Lemma imap_sorted k (f : nat -> A -> A) l n :
  (forall i t, k (f i t) = Z.of_nat (n + i)) ->
  StronglySorted (fun a b => k a <= k b) (imap f l).
Proof.
  revert f n. induction l as [|x l IH]; intros f n Hf; simpl; [constructor|].
  constructor.
  - apply (IH _ (S n)). intros i t. simpl. rewrite Hf. f_equal. lia.
  - apply (proj2 (List.Forall_forall _ _)). intros y Hy.
    apply list_elem_of_In, list_elem_of_lookup in Hy as (i & Hy).
    rewrite list_lookup_imap in Hy.
    destruct (l !! i) as [t|]; [|done]. injection Hy as <-.
    simpl. rewrite !Hf. lia.
Qed.

Lemma drop_id_spec key (i : string) prev :
  Forall (fun t => key t <> i) (drop_id key i prev)
  /\ (forall t, t ∈ prev -> key t <> i -> t ∈ drop_id key i prev)
  /\ drop_id key i prev `sublist_of` prev.
Proof.
  unfold drop_id. split; [|split].
  - apply (proj2 (List.Forall_forall _ _)). intros t Ht.
    apply List.filter_In in Ht as [_ Ht].
    apply negb_true_iff, String.eqb_neq in Ht. done.
  - intros t Ht Hne. apply list_elem_of_In, List.filter_In.
    split; [by apply list_elem_of_In|].
    by apply negb_true_iff, String.eqb_neq.
  - induction prev as [|a l IH]; simpl; [done|].
    destruct (negb _); [by constructor | by constructor].
Qed.

Lemma findIndex_unique key (x : A) l i y :
  NoDup (key <$> l) -> x ∈ l ->
  findIndex (fun t => String.eqb (key t) (key x)) l = Some i ->
  l !! i = Some y -> y = x.
Proof.
  intros Hnd Hx Hi Hy.
  destruct (findIndex_Some _ _ _ Hi) as (m & Hm & Hk & _).
  assert (m = y) as -> by congruence.
  apply String.eqb_eq in Hk.
  apply list_elem_of_lookup in Hx as [j Hj].
  assert (i = j) as ->.
  { eapply (NoDup_lookup (key <$> l)); [done| |].
    - by rewrite list_lookup_fmap, Hy.
    - by rewrite list_lookup_fmap, Hj, Hk. }
  congruence.
Qed.

Lemma upsert_twice key k (x : A) prev :
  NoDup (key <$> prev) ->
  upsert key k x (upsert key k x prev) = upsert key k x prev.
Proof.
  intros Hnd.
  destruct (upsert_spec key k x prev) as (Hsorted & Hin & _ & _ & Hnd').
  specialize (Hnd' Hnd).
  unfold upsert at 1.
  destruct (findIndex _ (upsert key k x prev)) as [i|] eqn:Hf.
  - destruct (findIndex_Some _ _ _ Hf) as (y & Hy & _).
    rewrite (findIndex_unique key x _ i y Hnd' Hin Hf Hy) in Hy.
    rewrite (list_insert_id _ _ _ Hy). by apply sort_by_id.
  - apply findIndex_None in Hf.
    apply list_elem_of_In in Hin.
    apply (proj1 (List.Forall_forall _ _) Hf) in Hin.
    by rewrite String.eqb_refl in Hin.
Qed.

Lemma drop_id_twice key (i : string) prev :
  drop_id key i (drop_id key i prev) = drop_id key i prev.
Proof.
  unfold drop_id. induction prev as [|a l IH]; simpl; [done|].
  destruct (negb (String.eqb (key a) i)) eqn:E; simpl; [|done].
  by rewrite E, IH.
Qed.

End Arrays.

End CommonFacts.

(** ** Drag and drop *)

(** X1 -- Dragging a card over another never adds, drops or edits a
    timer: in all three components the list after the drag-over updater
    holds the same timers as before, up to their order and their
    [sort_index]. *)
Theorem drag_over_only_renumbers (dragId : option string) (overId : string) :
  (forall prev,
     Part000.set_sort_index 0 <$> Part000.onDragOverList dragId overId prev
     ≡ₚ Part000.set_sort_index 0 <$> prev)
  /\ (forall prev,
        AppFirst.set_sort_index 0 <$> AppFirst.onDragOverList dragId overId prev
        ≡ₚ AppFirst.set_sort_index 0 <$> prev)
  /\ (forall prev,
        AppSecond.set_sort_index 0 <$> AppSecond.onDragOverItem dragId overId prev
        ≡ₚ AppSecond.set_sort_index 0 <$> prev).
Proof.
  split; [|split]; intros prev; by apply CommonFacts.drag_over_perm.
Qed.

(** X2 -- When the dragged id [from] and the hovered id [overId] are two
    different ids of the list, first found at the indexes [i] and [j], the
    dragged timer lands at index [j], the list keeps its length, and
    every timer carries its new position as sort index. *)
Theorem drag_over_moves_to_hovered {A : Type} (key : A -> string)
    (reindex : nat -> A -> A) (from overId : string) (prev : list A)
    (i j : nat) (m : A)
    (Hfrom : from <> "")
    (Hdiff : from <> overId)
    (Hi : Common.findIndex (fun t => String.eqb (key t) from) prev = Some i)
    (Hj : Common.findIndex (fun t => String.eqb (key t) overId) prev = Some j)
    (Hm : prev !! i = Some m) :
  Common.drag_over key reindex (Some from) overId prev !! j
  = Some (reindex j m)
  /\ length (Common.drag_over key reindex (Some from) overId prev)
     = length prev
  /\ forall n t,
       Common.drag_over key reindex (Some from) overId prev !! n = Some t ->
       exists t0, t0 ∈ prev /\ t = reindex n t0.
Proof.
  unfold Common.drag_over.
  apply String.eqb_neq in Hfrom, Hdiff. rewrite Hfrom, Hdiff. simpl.
  destruct (CommonFacts.reorder_lookup key reindex from overId prev i j m Hi Hj Hm)
    as [H1 H2].
  split; [done|]. split; [|done]. apply CommonFacts.reorder_length.
Qed.

Lemma drag_over_moves_to_hovered_witness :
  Part000.onDragOverList (Some "t1") "t2"
    [Examples.stand_running; Examples.stand_paused] !! 1%nat
  = Some (Part000.set_sort_index 1 Examples.stand_running).
Proof.
  refine (proj1 (drag_over_moves_to_hovered Part000.id
            (fun idx t => Part000.set_sort_index (Z.of_nat idx) t)
            "t1" "t2" [Examples.stand_running; Examples.stand_paused]
            0%nat 1%nat Examples.stand_running _ _ eq_refl eq_refl eq_refl));
    discriminate.
Defined.

(** X3 -- A drag-over changes nothing when no card is being dragged,
    when the dragged card is the hovered one, or when either id is not in
    the list. *)
Theorem drag_over_idle {A : Type} (key : A -> string)
    (reindex : nat -> A -> A) (dragId : option string) (overId : string)
    (prev : list A)
    (Hidle : match dragId with
             | None => True
             | Some from =>
                 from = overId \/ from ∉ key <$> prev \/ overId ∉ key <$> prev
             end) :
  Common.drag_over key reindex dragId overId prev = prev.
Proof.
  unfold Common.drag_over. destruct dragId as [from|]; [|done].
  destruct (String.eqb from "" || String.eqb from overId) eqn:Hg; [done|].
  apply orb_false_elim in Hg as [_ Hne]. apply String.eqb_neq in Hne.
  unfold Common.reorder.
  destruct Hidle as [E | [Hf | Ho]]; [done | |].
  - by rewrite (CommonFacts.findIndex_missing key from prev Hf).
  - rewrite (CommonFacts.findIndex_missing key overId prev Ho).
    by destruct (Common.findIndex _ prev).
Qed.

Lemma drag_over_idle_witness :
  AppSecond.onDragOverItem (Some "t1") "t9"
    [Examples.second_running; Examples.second_paused]
  = [Examples.second_running; Examples.second_paused].
Proof.
  apply (drag_over_idle AppSecond.id
           (fun idx t => AppSecond.set_sort_index (Z.of_nat idx) t)
           (Some "t1") "t9" [Examples.second_running; Examples.second_paused]).
  right. right. simpl.
  intros H. apply elem_of_cons in H as [H|H]; [discriminate|].
  apply elem_of_cons in H as [H|H]; [discriminate|].
  by apply elem_of_nil in H.
Defined.

(** ** The cloud rows and the realtime channel *)

(** X4 -- After a realtime notice that carries a live row (not
    soft-deleted), in the stand-alone component and in the second
    component of App.jsx: the timers are ordered by sort index, the
    timer mapped from the row is among them, every other timer was there
    before, every timer with another id is still there, and ids that
    were unique stay unique. *)
Theorem realtime_upsert (r : Common.row) (old : option Common.row)
    (Hlive : Common.deleted_flag r = false) :
  (forall prev : list Part000.timer,
     let next := Part000.onRealtime (Common.CHANGE (Some r) old) prev in
     StronglySorted
       (fun a b => Part000.sort_index a <= Part000.sort_index b) next
     /\ Part000.fromRow r ∈ next
     /\ (forall t, t ∈ next -> t = Part000.fromRow r \/ t ∈ prev)
     /\ (forall t, t ∈ prev -> Part000.id t <> Common.row_id r -> t ∈ next)
     /\ (NoDup (Part000.id <$> prev) -> NoDup (Part000.id <$> next)))
  /\ (forall prev : list AppSecond.timer,
        let next := AppSecond.onRealtime (Common.CHANGE (Some r) old) prev in
        StronglySorted
          (fun a b => AppSecond.sort_index a <= AppSecond.sort_index b) next
        /\ AppSecond.fromRow r ∈ next
        /\ (forall t, t ∈ next -> t = AppSecond.fromRow r \/ t ∈ prev)
        /\ (forall t, t ∈ prev -> AppSecond.id t <> Common.row_id r -> t ∈ next)
        /\ (NoDup (AppSecond.id <$> prev) -> NoDup (AppSecond.id <$> next))).
Proof.
  split; intros prev; simpl; rewrite Hlive.
  - apply (CommonFacts.upsert_spec Part000.id Part000.sort_index
             (Part000.fromRow r) prev).
  - apply (CommonFacts.upsert_spec AppSecond.id AppSecond.sort_index
             (AppSecond.fromRow r) prev).
Qed.

Lemma realtime_upsert_witness :
  Part000.fromRow Examples.row_music
  ∈ Part000.onRealtime (Common.CHANGE (Some Examples.row_music) None)
      [Examples.stand_running; Examples.stand_paused].
Proof.
  exact (proj1 (proj2 (proj1 (realtime_upsert Examples.row_music None eq_refl)
                         [Examples.stand_running; Examples.stand_paused]))).
Defined.

(** X5 -- A DELETE notice for a non-empty id and a notice carrying a
    soft-deleted row with that id have the same effect as the local
    remove: in the stand-alone component and in the second component of
    App.jsx, no timer with that id is left and the timers with other ids
    stay, in their order. *)
Theorem realtime_delete (i : string) (r : Common.row)
    (old : option Common.row)
    (Hi : i <> "")
    (Hr : Common.row_id r = i)
    (Hdel : Common.deleted_flag r = true) :
  (forall prev : list Part000.timer,
     let next := Part000.onRealtime (Common.DELETE (Some i)) prev in
     Part000.onRealtime (Common.CHANGE (Some r) old) prev = next
     /\ Part000.removeTimer i prev = next
     /\ Forall (fun t => Part000.id t <> i) next
     /\ (forall t, t ∈ prev -> Part000.id t <> i -> t ∈ next)
     /\ next `sublist_of` prev)
  /\ (forall prev : list AppSecond.timer,
        let next := AppSecond.onRealtime (Common.DELETE (Some i)) prev in
        AppSecond.onRealtime (Common.CHANGE (Some r) old) prev = next
        /\ AppSecond.removeTimer i prev = next
        /\ Forall (fun t => AppSecond.id t <> i) next
        /\ (forall t, t ∈ prev -> AppSecond.id t <> i -> t ∈ next)
        /\ next `sublist_of` prev).
Proof.
  apply String.eqb_neq in Hi.
  split; intros prev; simpl; rewrite Hi, Hdel, Hr;
    (split; [done|]); (split; [done|]).
  - apply (CommonFacts.drop_id_spec Part000.id i prev).
  - apply (CommonFacts.drop_id_spec AppSecond.id i prev).
Qed.

Lemma realtime_delete_witness :
  Part000.onRealtime (Common.CHANGE (Some Examples.row_gone) None)
    [Examples.stand_running; Examples.stand_paused]
  = Part000.onRealtime (Common.DELETE (Some "t2"))
      [Examples.stand_running; Examples.stand_paused].
Proof.
  refine (proj1 (proj1 (realtime_delete "t2" Examples.row_gone None
                          _ eq_refl eq_refl)
                   [Examples.stand_running; Examples.stand_paused])).
  discriminate.
Defined.



(** X7 -- In the second component of App.jsx a timer that goes to the
    cloud and comes back (its start timestamp null or non-zero) keeps
    every field but three: target, revision and accumulated seconds come
    back rounded down to whole seconds, so the accumulated time never
    grows and loses less than one second; the sort index is the
    position in the saved list. *)
Theorem second_cloud_row_floors (userId stamp : string) (idx : nat)
    (t : AppSecond.timer)
    (Hs : AppSecond.startTs t <> Some 0) :
  AppSecond.fromRow (AppSecond.toRow userId stamp idx t)
  = AppSecond.mkTimer (AppSecond.id t) (AppSecond.name t)
      (inject_Z (Qfloor (AppSecond.targetSec t)))
      (inject_Z (Qfloor (AppSecond.revisionSec t)))
      (inject_Z (Qfloor (AppSecond.elapsedSec t)))
      (AppSecond.startTs t) (AppSecond.running t) (AppSecond.goalOn t)
      (AppSecond.goalFired t) (AppSecond.category t) (AppSecond.color t)
      (Z.of_nat idx) (AppSecond.deleted t)
  /\ (AppSecond.elapsedSec
        (AppSecond.fromRow (AppSecond.toRow userId stamp idx t))
      <= AppSecond.elapsedSec t)%Q
  /\ (AppSecond.elapsedSec t
      < AppSecond.elapsedSec
          (AppSecond.fromRow (AppSecond.toRow userId stamp idx t)) + 1)%Q.
Proof.
  assert (Hfl : forall x : Q, Qfloor (AppSecond.or_q x 0) = Qfloor x).
  { intros x. apply Qfloor_comp. apply AppSecondFacts.second_or_q_0. }
  unfold AppSecond.fromRow, AppSecond.toRow, Common.sort_index_or0,
    Common.deleted_flag. simpl. rewrite !Hfl.
  split; [|split].
  - destruct (AppSecond.startTs t) as [s|]; [|done].
    rewrite JSFacts.truthy_nonzero; [done | congruence].
  - apply Qfloor_le.
  - pose proof (Qlt_floor (AppSecond.elapsedSec t)) as H.
    rewrite inject_Z_plus in H. exact H.
Qed.

Lemma second_cloud_row_floors_witness :
  AppSecond.elapsedSec
    (AppSecond.fromRow
       (AppSecond.toRow "u1" "2024-01-01T00:00:00.000Z" 0
          Examples.second_fraction))
  = 59%Q.
Proof.
  assert (H : AppSecond.startTs Examples.second_fraction <> Some 0)
    by discriminate.
  exact (f_equal AppSecond.elapsedSec
           (proj1 (second_cloud_row_floors "u1" "2024-01-01T00:00:00.000Z"
                     0 Examples.second_fraction H))).
Defined.

(** ** The editor and the quick-adjust form *)

Module EditorFacts.

Lemma toSeconds_nonneg (h m : option Z) : 0 <= Common.toSeconds h m.
Proof. unfold Common.toSeconds. lia. Qed.

(** The seconds the editor computes from the fields it opened with. *)
Lemma toSeconds_open (T : Z) :
  Common.toSeconds (Some (JS.or_num T 0 / 3600))
    (Some (Z.rem (JS.or_num T 0) 3600 / 60))
  = 60 * (Z.max 0 T / 60).
Proof.
  rewrite CommonFacts.toSeconds_eq, JSFacts.or_num_0. simpl.
  destruct (Z.le_gt_cases 0 T) as [H|H].
  - rewrite Z.rem_mod_nonneg by lia. rewrite (Z.max_r 0 T) by lia.
    pose proof (Z.div_pos T 3600 H ltac:(lia)).
    pose proof (Z.mod_pos_bound T 3600 ltac:(lia)).
    pose proof (Z.div_pos (T mod 3600) 60 ltac:(lia) ltac:(lia)).
    rewrite !Z.max_r by lia.
    Z.to_euclidean_division_equations. lia.
  - rewrite (Z.max_l 0 T) by lia. change (0 / 60) with 0.
    assert (T / 3600 < 0) by (apply Z.div_lt_upper_bound; lia).
    assert (Z.rem T 3600 <= 0) by (apply Z.rem_nonpos; lia).
    assert (Z.rem T 3600 / 60 <= 0).
    { apply Z.div_le_upper_bound; lia. }
    lia.
Qed.

(** Adjusting a timer in good order with no revision moves its net
    seconds by the delta, down to zero at most. *)
Lemma stand_adjust_net_good (now delta : Z) (t : Part000.timer) :
  Part000.good now t -> Part000.revisionSec t = 0 ->
  Part000.net now (Part000.adjustTimer1 now (Part000.id t) delta t)
  = Z.max 0 (Part000.net now t + delta).
Proof.
  intros (Hc & Hst & He) Hrev.
  unfold Part000.adjustTimer1, Part000.net, Part000.runExtra.
  rewrite String.eqb_refl. simpl.
  destruct (Part000.startTs t) as [s|] eqn:Hs.
  - specialize (Hst s Hs).
    destruct (Part000.running t) eqn:Hr; simpl;
      rewrite ?Hr, ?Hs, ?Hrev, !JSFacts.or_num_0; simpl; rewrite ?Hr; lia.
  - simpl. rewrite Hs, Hrev, !JSFacts.or_num_0. lia.
Qed.

Lemma second_adjust_net_good (d : Z) (delta : Q) (t : AppSecond.timer) :
  AppSecond.good d t -> AppSecond.revisionSec t = 0%Q ->
  (AppSecond.timerNetSeconds d
     (AppSecond.adjustTimer1 d (AppSecond.id t) delta t)
   == Qmax 0 (AppSecond.timerNetSeconds d t + delta))%Q.
Proof.
  intros (Hc & Hst & He) Hrev.
  destruct (AppSecond.running t) eqn:Hr.
  - apply AppSecondFacts.second_adjustTimer1_net; [done | rewrite Hrev; lra |].
    destruct (proj1 Hc Hr) as [s Hs]. specialize (Hst s Hs).
    unfold AppSecond.runningNow.
    rewrite Hr, (AppSecondFacts.second_runSoFar_eq d s t Hs ltac:(lia)), Hrev.
    pose proof (AppSecondFacts.second_run_nonneg d d s (AppSecond.elapsedSec t)
                  Hst (Z.le_refl _) He). lra.
  - unfold AppSecond.adjustTimer1, AppSecond.timerNetSeconds,
      AppSecond.runningNow.
    rewrite String.eqb_refl, Hr. simpl. rewrite Hr, Hrev.
    rewrite !AppSecondFacts.second_or_q_0.
    AppSecondFacts.qarith.
Qed.

End EditorFacts.

(** X8 -- Opening the editor on a timer and saving without touching a
    field is not always the identity, in the first component of App.jsx
    and in the stand-alone component: the target comes back rounded down
    to a whole minute (and as 0 when it was negative), and an empty
    category comes back as neutral; every other field is kept. *)
Theorem editor_save_unchanged
    (prevS : list Part000.timer) (kS : nat) (tS : Part000.timer)
    (prevF : list AppFirst.timer) (kF : nat) (tF : AppFirst.timer)
    (HS : prevS !! kS = Some tS)
    (HF : prevF !! kF = Some tF) :
  Part000.TimerEditor_save tS (Part000.TimerEditor_open tS) prevS !! kS
  = Some (Part000.set_category
            (if String.eqb (Part000.category tS) "" then "neutral"
             else Part000.category tS)
            (Part000.set_targetSec
               (60 * (Z.max 0 (Part000.targetSec tS) / 60)) tS))
  /\ AppFirst.TimerEditor_save tF (AppFirst.TimerEditor_open tF) prevF !! kF
     = Some (AppFirst.set_category
               (if String.eqb (AppFirst.category tF) "" then "neutral"
                else AppFirst.category tF)
               (AppFirst.set_targetSec
                  (60 * (Z.max 0 (AppFirst.targetSec tF) / 60)) tF)).
Proof.
  split.
  - unfold Part000.TimerEditor_save, Part000.setTheme, Part000.setCategory,
      Part000.setGoal, Part000.setTarget, Part000.setName.
    rewrite !list_lookup_fmap, HS. simpl.
    rewrite EditorFacts.toSeconds_open.
    destruct tS; simpl. by rewrite !String.eqb_refl.
  - unfold AppFirst.TimerEditor_save, AppFirst.setTheme, AppFirst.setCategory,
      AppFirst.setGoal, AppFirst.setTarget, AppFirst.setName.
    rewrite !list_lookup_fmap, HF. simpl.
    rewrite EditorFacts.toSeconds_open.
    destruct tF; simpl. by rewrite !String.eqb_refl.
Qed.

Lemma editor_save_unchanged_witness :
  Part000.targetSec <$>
    (Part000.TimerEditor_save Examples.stand_odd
       (Part000.TimerEditor_open Examples.stand_odd)
       [Examples.stand_running; Examples.stand_odd] !! 1%nat)
  = Some 60.
Proof.
  exact (f_equal (fmap Part000.targetSec)
           (proj1 (editor_save_unchanged
                     [Examples.stand_running; Examples.stand_odd] 1
                     Examples.stand_odd
                     [Examples.first_running] 0 Examples.first_running
                     eq_refl eq_refl))).
Defined.

(** X9 -- Saving the editor never touches the time accounting, in the
    first component of App.jsx and in the stand-alone component: whatever
    the editor holds, every timer keeps its id, accumulated and revision
    seconds, start timestamp, running flag and fired flag, hence its net
    seconds; a timer with another id than the edited one is not changed
    at all, and the list keeps its length and order. *)
Theorem editor_save_keeps_time :
  (forall (editTimer : Part000.timer) (s : Part000.editor) prev,
     Forall2
       (fun t t' =>
          Part000.id t' = Part000.id t
          /\ Part000.elapsedSec t' = Part000.elapsedSec t
          /\ Part000.revisionSec t' = Part000.revisionSec t
          /\ Part000.startTs t' = Part000.startTs t
          /\ Part000.running t' = Part000.running t
          /\ Part000.goalFired t' = Part000.goalFired t
          /\ (forall c, Part000.net c t' = Part000.net c t)
          /\ (Part000.id t <> Part000.id editTimer -> t' = t))
       prev (Part000.TimerEditor_save editTimer s prev))
  /\ (forall (editTimer : AppFirst.timer) (s : AppFirst.editor) prev,
        Forall2
          (fun t t' =>
             AppFirst.id t' = AppFirst.id t
             /\ AppFirst.elapsedSec t' = AppFirst.elapsedSec t
             /\ AppFirst.revisionSec t' = AppFirst.revisionSec t
             /\ AppFirst.startTs t' = AppFirst.startTs t
             /\ AppFirst.running t' = AppFirst.running t
             /\ AppFirst.goalFired t' = AppFirst.goalFired t
             /\ AppFirst.netSeconds t' = AppFirst.netSeconds t
             /\ (AppFirst.id t <> AppFirst.id editTimer -> t' = t))
          prev (AppFirst.TimerEditor_save editTimer s prev)).
Proof.
  split; intros editTimer s prev.
  - unfold Part000.TimerEditor_save, Part000.setTheme, Part000.setCategory,
      Part000.setGoal, Part000.setTarget, Part000.setName.
    rewrite !Forall2_fmap_r. apply Forall_Forall2_diag.
    apply (proj2 (List.Forall_forall _ _)). intros t _. simpl.
    destruct t; simpl.
    destruct (String.eqb_spec id (Part000.id editTimer)) as [E|E].
    + assert (Hb := proj2 (String.eqb_eq _ _) E).
      repeat (progress (simpl; rewrite ?Hb)). repeat split; done.
    + assert (Hb := proj2 (String.eqb_neq _ _) E).
      repeat (progress (simpl; rewrite ?Hb)). repeat split; done.
  - unfold AppFirst.TimerEditor_save, AppFirst.setTheme, AppFirst.setCategory,
      AppFirst.setGoal, AppFirst.setTarget, AppFirst.setName.
    rewrite !Forall2_fmap_r. apply Forall_Forall2_diag.
    apply (proj2 (List.Forall_forall _ _)). intros t _. simpl.
    destruct t; simpl.
    destruct (String.eqb_spec id (AppFirst.id editTimer)) as [E|E].
    + assert (Hb := proj2 (String.eqb_eq _ _) E).
      repeat (progress (simpl; rewrite ?Hb)). repeat split; done.
    + assert (Hb := proj2 (String.eqb_neq _ _) E).
      repeat (progress (simpl; rewrite ?Hb)). repeat split; done.
Qed.

(** X10 -- The argument the quick-adjust form of the first component and
    of the stand-alone component hands to adjust is never zero: a press
    does nothing exactly when both fields are empty, not numbers, zero or
    negative; otherwise Add passes a positive and Subtract a negative
    number of whole minutes, negative fields counting as zero. *)
Theorem quick_adjust_argument (delta : Z) (h m : option Z) :
  (Common.fire delta h m = None <-> default 0 h <= 0 /\ default 0 m <= 0)
  /\ forall d, Common.fire delta h m = Some d ->
       d = (if 0 <? delta then 1 else -1)
           * (Z.max 0 (default 0 h) * 3600 + Z.max 0 (default 0 m) * 60)
       /\ d <> 0
       /\ (0 < delta -> 0 < d)
       /\ (delta <= 0 -> d < 0).
Proof.
  unfold Common.fire. rewrite CommonFacts.toSeconds_eq.
  destruct (Z.ltb_spec 0 (Z.max 0 (default 0 h) * 3600 + Z.max 0 (default 0 m) * 60))
    as [Hs|Hs].
  - split; [split; [done | lia]|].
    intros d [= <-]. destruct (Z.ltb_spec 0 delta); lia.
  - split; [split; [lia | done]|]. done.
Qed.





(** X13 -- Whatever the hour and minute fields of the editor of the
    second component hold, the target it saves lies between 0 and 999
    hours; the id and the time accounting of the saved timer are those
    of the copy the editor was opened on. *)
Theorem second_editor_target_clamped (form : AppSecond.timer)
    (nm cat : string) (goal : bool) (col : string) (targetH targetM : Q) :
  let saved := AppSecond.editorSave form nm cat goal col targetH targetM in
  (0 <= AppSecond.targetSec saved)%Q
  /\ (AppSecond.targetSec saved <= 999 * 3600)%Q
  /\ ((0 <= targetH * 3600 + targetM * 60 <= 999 * 3600)%Q ->
      (AppSecond.targetSec saved == targetH * 3600 + targetM * 60)%Q)
  /\ AppSecond.id saved = AppSecond.id form
  /\ AppSecond.elapsedSec saved = AppSecond.elapsedSec form
  /\ AppSecond.startTs saved = AppSecond.startTs form
  /\ AppSecond.running saved = AppSecond.running form
  /\ AppSecond.goalFired saved = AppSecond.goalFired form.
Proof.
  simpl. unfold AppSecond.clamp.
  set (n := (targetH * 3600 + targetM * 60)%Q).
  pose proof (Q.max_spec 0 (Qmin (999 * 3600) n)) as Hmax.
  pose proof (Q.min_spec (999 * 3600) n) as Hmin.
  repeat split; try reflexivity; try intros [? ?]; lra.
Qed.

(** ** Pressing twice, single focus, the goal check *)

Module ActionFacts.

Ltac press idf runf t i :=
  destruct (String.eqb (idf t) i) eqn:Hb; destruct (runf t) eqn:Hr; simpl;
  rewrite ?Hb, ?Hr; simpl; rewrite ?Hb, ?Hr; simpl; reflexivity.

Lemma stand_start_twice (now1 now2 : Z) (i : string) (t : Part000.timer) :
  Part000.startTimer1 now2 i (Part000.startTimer1 now1 i t)
  = Part000.startTimer1 now1 i t.
Proof. unfold Part000.startTimer1. press Part000.id Part000.running t i. Qed.

Lemma stand_pause_twice (now1 now2 : Z) (i : string) (t : Part000.timer) :
  Part000.pauseTimer1 now2 i (Part000.pauseTimer1 now1 i t)
  = Part000.pauseTimer1 now1 i t.
Proof. unfold Part000.pauseTimer1. press Part000.id Part000.running t i. Qed.

Lemma first_start_twice (now1 now2 : Z) (i : string) (t : AppFirst.timer) :
  AppFirst.startTimer1 now2 i (AppFirst.startTimer1 now1 i t)
  = AppFirst.startTimer1 now1 i t.
Proof. unfold AppFirst.startTimer1. press AppFirst.id AppFirst.running t i. Qed.

Lemma first_pause_twice (now1 now2 : Z) (i : string) (t : AppFirst.timer) :
  AppFirst.pauseTimer1 now2 i (AppFirst.pauseTimer1 now1 i t)
  = AppFirst.pauseTimer1 now1 i t.
Proof. unfold AppFirst.pauseTimer1. press AppFirst.id AppFirst.running t i. Qed.

Lemma second_start_twice (now1 now2 : Z) (i : string) (t : AppSecond.timer) :
  AppSecond.startTimer1 now2 i (AppSecond.startTimer1 now1 i t)
  = AppSecond.startTimer1 now1 i t.
Proof. unfold AppSecond.startTimer1. press AppSecond.id AppSecond.running t i. Qed.

Lemma second_pause_twice (now1 now2 : Z) (i : string) (t : AppSecond.timer) :
  AppSecond.pauseTimer1 now2 i (AppSecond.pauseTimer1 now1 i t)
  = AppSecond.pauseTimer1 now1 i t.
Proof. unfold AppSecond.pauseTimer1. press AppSecond.id AppSecond.running t i. Qed.

Lemma stand_start_focus (now : Z) (i : string) (ts : list Part000.timer) :
  Forall (fun t => Part000.running t = true -> Part000.id t = i)
    (Part000.startTimer now i ts).
Proof.
  unfold Part000.startTimer. apply Forall_fmap.
  apply (proj2 (List.Forall_forall _ _)). intros t _. simpl.
  unfold Part000.startTimer1.
  destruct (String.eqb_spec (Part000.id t) i) as [E|E];
    destruct (Part000.running t) eqn:Hr; simpl; congruence.
Qed.

Lemma second_start_focus (now : Z) (i : string) (ts : list AppSecond.timer) :
  Forall (fun t => AppSecond.running t = true -> AppSecond.id t = i)
    (AppSecond.startTimer now i ts).
Proof.
  unfold AppSecond.startTimer. apply Forall_fmap.
  apply (proj2 (List.Forall_forall _ _)). intros t _. simpl.
  unfold AppSecond.startTimer1.
  destruct (String.eqb_spec (AppSecond.id t) i) as [E|E];
    destruct (AppSecond.running t) eqn:Hr; simpl; congruence.
Qed.

End ActionFacts.

(** X14 -- A second press of Start, or of Pause, on the same timer
    changes nothing, whatever the clock reading of the second press: in
    all three components the list after two presses is the list after
    the first. *)
Theorem start_and_pause_twice (i : string) (now1 now2 : Z) :
  (forall ts,
     Part000.startTimer now2 i (Part000.startTimer now1 i ts)
     = Part000.startTimer now1 i ts
     /\ Part000.pauseTimer now2 i (Part000.pauseTimer now1 i ts)
        = Part000.pauseTimer now1 i ts)
  /\ (forall ts,
        AppFirst.startTimer now2 i (AppFirst.startTimer now1 i ts)
        = AppFirst.startTimer now1 i ts
        /\ AppFirst.pauseTimer now2 i (AppFirst.pauseTimer now1 i ts)
           = AppFirst.pauseTimer now1 i ts)
  /\ (forall ts,
        AppSecond.startTimer now2 i (AppSecond.startTimer now1 i ts)
        = AppSecond.startTimer now1 i ts
        /\ AppSecond.pauseTimer now2 i (AppSecond.pauseTimer now1 i ts)
           = AppSecond.pauseTimer now1 i ts).
Proof.
  split; [|split]; intros ts; split;
    unfold Part000.startTimer, Part000.pauseTimer, AppFirst.startTimer,
      AppFirst.pauseTimer, AppSecond.startTimer, AppSecond.pauseTimer;
    rewrite List.map_map; apply List.map_ext; intros t.
  - apply ActionFacts.stand_start_twice.
  - apply ActionFacts.stand_pause_twice.
  - apply ActionFacts.first_start_twice.
  - apply ActionFacts.first_pause_twice.
  - apply ActionFacts.second_start_twice.
  - apply ActionFacts.second_pause_twice.
Qed.

(** X15 -- Right after Start on the timer [i], in the stand-alone
    component and in the second component of App.jsx, no timer with
    another id is running, whatever the list was before. *)
Theorem start_leaves_one_running (now : Z) (i : string) :
  (forall ts,
     Forall (fun t => Part000.running t = true -> Part000.id t = i)
       (Part000.startTimer now i ts))
  /\ (forall ts,
        Forall (fun t => AppSecond.running t = true -> AppSecond.id t = i)
          (AppSecond.startTimer now i ts)).
Proof.
  split; intros ts.
  - apply ActionFacts.stand_start_focus.
  - apply ActionFacts.second_start_focus.
Qed.

Module FocusFacts.

Import Part000.

(** No event but a start sets a timer running, and none changes its id. *)
Lemma handle1_running (now : Z) (e : event) (t : timer) :
  match e with Start _ => False | _ => True end ->
  running (fst (handle1 now e t)) = true -> running t = true.
Proof.
  destruct e; simpl; try done; intros _;
    unfold goalCheck1, pauseTimer1, resetTimer1, adjustTimer1;
    repeat match goal with
           | |- context [if ?b then _ else _] => destruct b eqn:?
           | |- context [match ?o with Some _ => _ | None => _ end] =>
               destruct o eqn:?
           end; simpl; congruence.
Qed.

Lemma focused_map (i : string) (now : Z) (e : event) (ts : list timer) :
  match e with Start _ => False | _ => True end ->
  Forall (fun t => running t = true -> id t = i) ts ->
  Forall (fun t => running t = true -> id t = i)
    (map (fun t => fst (handle1 now e t)) ts).
Proof.
  intros He H. apply Forall_fmap.
  eapply Forall_impl; [exact H|]. intros t Ht. simpl. intros Hr.
  rewrite Part000Facts.stand_handle1_id. apply Ht.
  by apply (handle1_running now e t He).
Qed.

Lemma reachable_focused (d : Z) (a : app) :
  reachable d a ->
  exists i, Forall (fun t => running t = true -> id t = i) (timers a).
Proof.
  intros H. induction H as [uid d Hd | d a d' e H [i IH] Hle].
  - exists "".
    change (timers (initial uid d))
      with (map (fun t => fst (handle1 (JS.nowSeconds d) Tick t))
              (DEFAULT_TIMERS uid)).
    apply focused_map; [done|].
    unfold DEFAULT_TIMERS.
    repeat (apply Forall_cons; split; [simpl; congruence|]).
    apply Forall_nil_2.
  - destruct e; simpl;
      try (exists i; exact IH);
      try (exists i;
           match goal with
           | |- Forall _ (?f ?x (timers a)) =>
               first [ exact (focused_map i (JS.nowSeconds d') (Pause x) _ I IH)
                     | exact (focused_map i (JS.nowSeconds d') (Reset x) _ I IH) ]
           | |- Forall _ (?f ?x ?y (timers a)) =>
               first [ exact (focused_map i (JS.nowSeconds d') (SetTheme x y) _ I IH)
                     | exact (focused_map i (JS.nowSeconds d') (SetTarget x y) _ I IH)
                     | exact (focused_map i (JS.nowSeconds d') (SetName x y) _ I IH)
                     | exact (focused_map i (JS.nowSeconds d') (SetGoal x y) _ I IH)
                     | exact (focused_map i (JS.nowSeconds d') (SetCategory x y) _ I IH) ]
           end).
    + (* Tick *)
      exists i. destruct (JS.nowSeconds d' =? nowSec a); [exact IH|].
      exact (focused_map i (JS.nowSeconds d') Tick _ I IH).
    + (* Start *)
      exists i0. apply ActionFacts.stand_start_focus.
    + (* Remove *)
      exists i. unfold removeTimer.
      apply (proj2 (List.Forall_forall _ _)). intros t Ht.
      apply List.filter_In in Ht as [Ht _].
      exact (proj1 (List.Forall_forall _ _) IH t Ht).
    + (* Add *)
      exists i. unfold addTimer. apply Forall_app. split; [exact IH|].
      apply Forall_cons. split; [simpl; congruence | apply Forall_nil_2].
    + (* Adjust *)
      exists i.
      exact (focused_map i (JS.nowSeconds d') (Adjust i0 deltaSec) _ I IH).
    + (* ResetDay *)
      exists i. exact (focused_map i (JS.nowSeconds d') ResetDay _ I IH).
Qed.

End FocusFacts.

(** X16 -- Single focus is an invariant of the stand-alone component: in
    every state reachable from the defaults through ticks, starts,
    pauses, resets, adjustments, field edits, additions and removals, any
    two running timers have the same id. *)
Theorem one_id_running (d : Z) (a : Part000.app) (t1 t2 : Part000.timer)
    (Ha : Part000.reachable d a)
    (H1 : t1 ∈ Part000.timers a)
    (H2 : t2 ∈ Part000.timers a)
    (Hr1 : Part000.running t1 = true)
    (Hr2 : Part000.running t2 = true) :
  Part000.id t1 = Part000.id t2.
Proof.
  destruct (FocusFacts.reachable_focused d a Ha) as [i Hi].
  pose proof (proj1 (List.Forall_forall _ _) Hi) as H.
  rewrite (H t1), (H t2); try done; by apply list_elem_of_In.
Qed.

Lemma one_id_running_witness :
  Part000.id Examples.stand_working = Part000.id Examples.stand_working.
Proof.
  refine (one_id_running 100000 Examples.stand_started
            Examples.stand_working Examples.stand_working _ _ _ eq_refl eq_refl).
  - apply (Part000.reachable_step 100000 _ 100000 (Part000.Start "0")).
    + apply (Part000.reachable_initial Examples.uid 100000). reflexivity.
    + apply Z.le_refl.
  - apply (list_elem_of_lookup_2 _ 0%nat). reflexivity.
  - apply (list_elem_of_lookup_2 _ 0%nat). reflexivity.
Defined.

Module CheckFacts.

Lemma stand_goalCheck1_twice (now : Z) (t : Part000.timer) :
  Part000.goalCheck1 now (fst (Part000.goalCheck1 now t))
  = (fst (Part000.goalCheck1 now t), None).
Proof.
  unfold Part000.goalCheck1 at 2 3.
  destruct (negb (Part000.goalOn t) || Part000.goalFired t
            || negb (JS.truthy (Part000.targetSec t))) eqn:Hg.
  - simpl. unfold Part000.goalCheck1. by rewrite Hg.
  - destruct (Part000.targetSec t <=? Part000.net now t) eqn:Hn; simpl.
    + by apply Part000Facts.stand_goalCheck1_fired.
    + unfold Part000.goalCheck1. by rewrite Hg, Hn.
Qed.

Lemma second_goalCheck1_twice (now : Z) (t : AppSecond.timer) :
  AppSecond.goalCheck1 now (fst (AppSecond.goalCheck1 now t))
  = (fst (AppSecond.goalCheck1 now t), None).
Proof.
  unfold AppSecond.goalCheck1 at 2 3.
  destruct (AppSecond.goalOn t && negb (AppSecond.goalFired t)
            && AppSecond.gt0 (AppSecond.targetSec t)
            && AppSecond.geq (AppSecond.timerNetSeconds now t)
                 (AppSecond.targetSec t)) eqn:Hg; simpl.
  - by apply AppSecondFacts.second_goalCheck1_fired.
  - unfold AppSecond.goalCheck1. by rewrite Hg.
Qed.

Lemma omap_none {A B C : Type} (f : A -> B) (g : B -> option C) (l : list A) :
  (forall x, g (f x) = None) -> omap g (map f l) = [].
Proof.
  intros H. induction l as [|x l IH]; simpl; [done|]. by rewrite H.
Qed.

End CheckFacts.

(** X17 -- The goal check is idempotent at a clock reading, in the
    stand-alone component and in the second component of App.jsx:
    running it again at the same reading changes no timer and raises no
    celebration, so a goal is announced once at most however often the
    check runs. *)
Theorem goal_check_twice (now : Z) :
  (forall ts,
     Part000.goalCheck now (Part000.goalCheck now ts)
     = Part000.goalCheck now ts
     /\ Part000.goalCheck_events now (Part000.goalCheck now ts) = [])
  /\ (forall ts,
        AppSecond.goalCheck now (AppSecond.goalCheck now ts)
        = AppSecond.goalCheck now ts
        /\ AppSecond.goalCheck_events now (AppSecond.goalCheck now ts) = []).
Proof.
  split; intros ts; split.
  - unfold Part000.goalCheck. rewrite List.map_map. apply List.map_ext.
    intros t. by rewrite CheckFacts.stand_goalCheck1_twice.
  - unfold Part000.goalCheck_events, Part000.goalCheck.
    apply CheckFacts.omap_none. intros t.
    by rewrite CheckFacts.stand_goalCheck1_twice.
  - unfold AppSecond.goalCheck. rewrite List.map_map. apply List.map_ext.
    intros t. by rewrite CheckFacts.second_goalCheck1_twice.
  - unfold AppSecond.goalCheck_events, AppSecond.goalCheck.
    apply CheckFacts.omap_none. intros t.
    by rewrite CheckFacts.second_goalCheck1_twice.
Qed.

(** ** Reset *)

Module ResetFacts.

Lemma sum_zero {A : Type} (f : A -> Z) (l : list A) :
  Forall (fun x => f x = 0) l -> foldr Z.add 0 (map f l) = 0.
Proof. induction 1 as [|x l Hx _ IH]; simpl; [done | lia]. Qed.

Lemma sumQ_zero {A : Type} (f : A -> Q) (l : list A) :
  Forall (fun x => f x == 0)%Q l -> (foldr Qplus 0 (map f l) == 0)%Q.
Proof.
  induction 1 as [|x l Hx _ IH]; simpl; [reflexivity|]. rewrite Hx, IH. lra.
Qed.

End ResetFacts.

(** X18 -- After reset-day (reset-all in the second component) every
    timer is stopped with its goal armed again, its net seconds are 0 at
    every later clock reading, and the total shown is zero, in all three
    components. *)
Theorem reset_day_zeroes :
  (forall c ts,
     Forall (fun t => Part000.net c t = 0 /\ Part000.running t = false
                      /\ Part000.startTs t = None
                      /\ Part000.goalFired t = false)
       (Part000.resetDay ts)
     /\ Part000.total (Part000.totals c (Part000.resetDay ts)) = "00:00:00")
  /\ (forall ts,
        Forall (fun t => AppFirst.netSeconds t = 0 /\ AppFirst.running t = false
                         /\ AppFirst.startTs t = None
                         /\ AppFirst.goalFired t = false)
          (AppFirst.resetDay ts)
        /\ AppFirst.totalTracked (AppFirst.resetDay ts) = "00:00:00")
  /\ (forall d ts,
        Forall (fun t => (AppSecond.timerNetSeconds d t == 0)%Q
                         /\ AppSecond.running t = false
                         /\ AppSecond.startTs t = None
                         /\ AppSecond.goalFired t = false)
          (AppSecond.resetAll ts)
        /\ (AppSecond.totalTracked d (AppSecond.resetAll ts) == 0)%Q).
Proof.
  split; [|split].
  - intros c ts.
    assert (H : Forall (fun t => Part000.net c t = 0 /\ Part000.running t = false
                                 /\ Part000.startTs t = None
                                 /\ Part000.goalFired t = false)
                  (Part000.resetDay ts)).
    { unfold Part000.resetDay. apply Forall_fmap.
      apply (proj2 (List.Forall_forall _ _)). intros t _. simpl.
      by repeat split. }
    split; [exact H|].
    rewrite Part000Facts.stand_total_spec.
    rewrite ResetFacts.sum_zero; [reflexivity|].
    eapply Forall_impl; [exact H|]. intros t [Ht _].
    by rewrite <- Part000Facts.stand_net_spec.
  - intros ts.
    assert (H : Forall (fun t => AppFirst.netSeconds t = 0
                                 /\ AppFirst.running t = false
                                 /\ AppFirst.startTs t = None
                                 /\ AppFirst.goalFired t = false)
                  (AppFirst.resetDay ts)).
    { unfold AppFirst.resetDay. apply Forall_fmap.
      apply (proj2 (List.Forall_forall _ _)). intros t _. simpl.
      by repeat split. }
    split; [exact H|].
    rewrite AppFirstFacts.first_totalTracked_eq.
    rewrite ResetFacts.sum_zero; [reflexivity|].
    eapply Forall_impl; [exact H|]. intros t [Ht _].
    by rewrite <- AppFirstFacts.first_netSeconds_eq.
  - intros d ts.
    assert (H : Forall (fun t => (AppSecond.timerNetSeconds d t == 0)%Q
                                 /\ AppSecond.running t = false
                                 /\ AppSecond.startTs t = None
                                 /\ AppSecond.goalFired t = false)
                  (AppSecond.resetAll ts)).
    { unfold AppSecond.resetAll. apply Forall_fmap.
      apply (proj2 (List.Forall_forall _ _)). intros t _. simpl.
      by repeat split. }
    split; [exact H|].
    rewrite AppSecondFacts.second_totalTracked_eq.
    apply ResetFacts.sumQ_zero.
    eapply Forall_impl; [exact H|]. by intros t [Ht _].
Qed.

(** ** Invariants of the reachable states *)

(** X19 -- In every state reachable from the defaults under a clock
    that never goes back, in all three components: no timer has
    accumulated negative seconds, and every start timestamp is a positive
    clock reading not after the current one. *)
Theorem reachable_timers_well_stamped :
  (forall d a t,
     Part000.reachable d a -> t ∈ Part000.timers a ->
     0 <= Part000.elapsedSec t
     /\ forall s, Part000.startTs t = Some s -> 0 < s <= JS.nowSeconds d)
  /\ (forall d a t,
        AppFirst.reachable d a -> t ∈ AppFirst.timers a ->
        0 <= AppFirst.elapsedSec t
        /\ forall s, AppFirst.startTs t = Some s -> 0 < s <= JS.nowSeconds d)
  /\ (forall d a t,
        AppSecond.reachable d a -> t ∈ AppSecond.timers a ->
        (0 <= AppSecond.elapsedSec t)%Q
        /\ forall s, AppSecond.startTs t = Some s -> 0 < s <= d).
Proof.
  split; [|split]; intros d a t Ha Ht; apply list_elem_of_In in Ht.
  - destruct (Part000Facts.stand_reachable_good d a Ha) as [_ H].
    destruct (proj1 (List.Forall_forall _ _) H t Ht) as (_ & Hs & He). done.
  - destruct (AppFirstFacts.first_reachable_good d a Ha) as [_ H].
    destruct (proj1 (List.Forall_forall _ _) H t Ht) as (_ & Hs & He). done.
  - destruct (AppSecondFacts.second_reachable_good d a Ha) as (_ & H & _).
    destruct (proj1 (List.Forall_forall _ _) H t Ht) as (_ & Hs & He). done.
Qed.


(** ** Adding, removing and the ids *)

Module ListFacts.

Lemma filter_all {A : Type} (p : A -> bool) (l : list A) :
  Forall (fun x => p x = true) l -> List.filter p l = l.
Proof.
  induction 1 as [|x l Hx _ IH]; simpl; [done|]. by rewrite Hx, IH.
Qed.

Lemma not_elem_ids {A : Type} (key : A -> string) (i : string) (l : list A) :
  i ∉ key <$> l -> Forall (fun t => negb (String.eqb (key t) i) = true) l.
Proof.
  intros H. apply (proj2 (List.Forall_forall _ _)). intros t Ht.
  apply negb_true_iff, String.eqb_neq. intros E. apply H.
  apply list_elem_of_fmap. exists t. split; [done | by apply list_elem_of_In].
Qed.

Lemma ids_map {A : Type} (key : A -> string) (f : A -> A) (l : list A) :
  (forall t, key (f t) = key t) -> key <$> map f l = key <$> l.
Proof.
  intros H. induction l as [|x l IH]; simpl; [done|].
  rewrite H. f_equal. exact IH.
Qed.

Lemma ids_filter {A : Type} (key : A -> string) (p : A -> bool) (l : list A) :
  NoDup (key <$> l) -> NoDup (key <$> List.filter p l).
Proof.
  induction l as [|x l IH]; simpl; [done|].
  rewrite NoDup_cons. intros [Hx Hl].
  destruct (p x); [|by apply IH].
  simpl. apply NoDup_cons. split; [|by apply IH].
  intros Hin. apply Hx.
  apply list_elem_of_fmap in Hin as (y & Hy & Hin).
  apply list_elem_of_fmap. exists y. split; [done|].
  apply list_elem_of_In in Hin. apply List.filter_In in Hin as [Hin _].
  by apply list_elem_of_In.
Qed.

End ListFacts.

(** X21 -- Adding a timer under an id no timer has yet and removing it
    again gives back the list as it was, in all three components. *)
Theorem add_then_remove (fresh : string)
    (tsS : list Part000.timer) (tsF : list AppFirst.timer)
    (tsA : list AppSecond.timer)
    (HS : fresh ∉ Part000.id <$> tsS)
    (HF : fresh ∉ AppFirst.id <$> tsF)
    (HA : fresh ∉ AppSecond.id <$> tsA) :
  Part000.removeTimer fresh (Part000.addTimer fresh tsS) = tsS
  /\ AppFirst.removeTimer fresh (AppFirst.addTimer fresh tsF) = tsF
  /\ AppSecond.removeTimer fresh (AppSecond.addTimer fresh tsA) = tsA.
Proof.
  split; [|split].
  - unfold Part000.removeTimer, Part000.addTimer.
    rewrite List.filter_app. simpl. rewrite String.eqb_refl. simpl.
    rewrite app_nil_r. apply ListFacts.filter_all.
    by apply (ListFacts.not_elem_ids Part000.id).
  - unfold AppFirst.removeTimer, AppFirst.addTimer.
    rewrite List.filter_app. simpl. rewrite String.eqb_refl. simpl.
    rewrite app_nil_r. apply ListFacts.filter_all.
    by apply (ListFacts.not_elem_ids AppFirst.id).
  - unfold AppSecond.removeTimer, AppSecond.addTimer.
    simpl. rewrite String.eqb_refl. simpl.
    apply ListFacts.filter_all.
    by apply (ListFacts.not_elem_ids AppSecond.id).
Qed.

Lemma add_then_remove_witness :
  Part000.removeTimer "n9"
    (Part000.addTimer "n9" [Examples.stand_running; Examples.stand_paused])
  = [Examples.stand_running; Examples.stand_paused].
Proof.
  refine (proj1 (add_then_remove "n9"
                   [Examples.stand_running; Examples.stand_paused]
                   [Examples.first_running] [Examples.second_running] _ _ _));
    simpl; intros H;
    repeat (apply elem_of_cons in H as [H|H]; [discriminate|]);
    by apply elem_of_nil in H.
Defined.

(** X22 -- Ids stay unique in the stand-alone component: when no two
    timers share an id, no event handler makes two share one, provided
    add-timer draws an id that is not in use. *)
Theorem ids_stay_unique (d : Z) (e : Part000.event) (a : Part000.app)
    (Hnd : NoDup (Part000.id <$> Part000.timers a))
    (Hfresh : match e with
              | Part000.Add fresh => fresh ∉ Part000.id <$> Part000.timers a
              | _ => True
              end) :
  NoDup (Part000.id <$> Part000.timers (Part000.handle d e a)).
Proof.
  assert (Hmap : forall ev,
            NoDup (Part000.id <$>
                   map (fun t => fst (Part000.handle1 (JS.nowSeconds d) ev t))
                     (Part000.timers a))).
  { intros ev. rewrite (ListFacts.ids_map Part000.id); [done|].
    intros t. apply Part000Facts.stand_handle1_id. }
  destruct e; simpl; try done.
  - destruct (JS.nowSeconds d =? Part000.nowSec a); [done|]. exact (Hmap Part000.Tick).
  - exact (Hmap (Part000.Start i)).
  - exact (Hmap (Part000.Pause i)).
  - exact (Hmap (Part000.Reset i)).
  - by apply ListFacts.ids_filter.
  - unfold Part000.addTimer. rewrite fmap_app. simpl.
    apply NoDup_app. split; [done|]. split.
    + intros x Hx Hin. apply list_elem_of_singleton in Hin. by subst.
    + apply NoDup_singleton.
  - exact (Hmap (Part000.Adjust i deltaSec)).
  - exact (Hmap (Part000.SetTheme i cls)).
  - exact (Hmap (Part000.SetTarget i sec)).
  - exact (Hmap (Part000.SetName i nm)).
  - exact (Hmap (Part000.SetGoal i on)).
  - exact (Hmap (Part000.SetCategory i c)).
  - exact (Hmap Part000.ResetDay).
Qed.

Lemma ids_stay_unique_witness :
  NoDup (Part000.id <$>
         Part000.timers
           (Part000.handle 100000 (Part000.Add "n9")
              (Part000.mkApp [Examples.stand_running; Examples.stand_paused]
                 None 100))).
Proof.
  refine (ids_stay_unique 100000 (Part000.Add "n9")
            (Part000.mkApp [Examples.stand_running; Examples.stand_paused]
               None 100) _ _); simpl.
  - apply NoDup_cons. split.
    + intros H. apply elem_of_cons in H as [H|H]; [discriminate|].
      by apply elem_of_nil in H.
    + apply NoDup_singleton.
  - intros H. repeat (apply elem_of_cons in H as [H|H]; [discriminate|]).
    by apply elem_of_nil in H.
Defined.

(** ** Undoing an adjustment *)

(** X23 -- In the stand-alone component, on whole numbers of seconds:
    adding an amount and subtracting it again at the same reading leaves
    the net seconds of a timer in good order as they were, at that
    reading and at every other one; a paused timer is literally
    unchanged. *)
Theorem adjust_add_then_subtract (now : Z) (i : string)
    (delta : Z) (t : Part000.timer)
    (Hd : 0 <= delta)
    (Hg : Part000.good now t) :
  (forall c,
     Part000.net c
       (Part000.adjustTimer1 now i (- delta)
          (Part000.adjustTimer1 now i delta t))
     = Part000.net c t)
  /\ (Part000.running t = false ->
      Part000.adjustTimer1 now i (- delta)
        (Part000.adjustTimer1 now i delta t) = t).
Proof.
  destruct Hg as (Hc & Hst & He).
  split.
  - intros c. unfold Part000.adjustTimer1.
    destruct (String.eqb (Part000.id t) i) eqn:Hb; simpl; [|by rewrite Hb].
    destruct (Part000.startTs t) as [s|] eqn:Hs.
    + specialize (Hst s Hs).
      destruct (Part000.running t) eqn:Hr; simpl; rewrite ?Hb; simpl;
        rewrite ?Hs, ?Hr; simpl; unfold Part000.net, Part000.runExtra; simpl;
        rewrite ?Hs, ?Hr; lia.
    + simpl. rewrite Hb. simpl. rewrite Hs. simpl.
      unfold Part000.net, Part000.runExtra. simpl. rewrite Hs. lia.
  - intros Hr. unfold Part000.adjustTimer1.
    destruct (String.eqb (Part000.id t) i) eqn:Hb; simpl; [|by rewrite Hb].
    assert (Hs : Part000.startTs t = None).
    { destruct (Part000.startTs t) as [s|] eqn:Hs; [|done].
      assert (Part000.running t = true) by (apply (proj2 Hc); by eexists).
      congruence. }
    rewrite Hs. simpl. rewrite Hb. simpl. rewrite Hs.
    replace (Z.max 0 (Z.max 0 (Part000.elapsedSec t + delta) + - delta))
      with (Part000.elapsedSec t) by lia.
    by destruct t.
Qed.

Lemma adjust_add_then_subtract_witness :
  Part000.net 200
    (Part000.adjustTimer1 160 "t1" (- 600)
       (Part000.adjustTimer1 160 "t1" 600 Examples.stand_running))
  = Part000.net 200 Examples.stand_running.
Proof.
  refine (proj1 (adjust_add_then_subtract 160 "t1" 600 Examples.stand_running
                   _ _) 200).
  - lia.
  - split; [split; [by eexists | done]|].
    split; [intros s [= <-]; lia | simpl; lia].
Defined.

(** ** The texts *)

Module TextFacts.

Import Readers.

Lemma digit_val_digit (d : Z) : 0 <= d < 10 -> digit_val (digit d) = d.
Proof.
  intros H. unfold digit_val, digit.
  rewrite Ascii.nat_ascii_embedding by lia. lia.
Qed.

Lemma pad2 (n : Z) :
  0 <= n < 100 -> JS.padStart0 2 (JS.String_of n) = two_digits n.
Proof.
  intros H.
  assert (Hall : forallb
                   (fun k => String.eqb
                               (JS.padStart0 2 (JS.String_of (Z.of_nat k)))
                               (two_digits (Z.of_nat k)))
                   (seq 0 100) = true) by (vm_compute; reflexivity).
  rewrite forallb_forall in Hall. specialize (Hall (Z.to_nat n)).
  rewrite Z2Nat.id in Hall by lia.
  apply String.eqb_eq, Hall. apply in_seq. lia.
Qed.

Lemma fmtHMS_shape (sec : Z) :
  0 <= sec < 360000 ->
  JS.fmtHMS sec
  = (two_digits (sec / 3600) +:+ ":" +:+ two_digits (sec mod 3600 / 60)
       +:+ ":" +:+ two_digits (sec mod 60))%string.
Proof.
  intros H. unfold JS.fmtHMS. rewrite Z.max_r by lia.
  rewrite !Z.rem_mod_nonneg by lia.
  rewrite !pad2; [done | | |].
  - pose proof (Z.mod_pos_bound sec 60 ltac:(lia)). lia.
  - pose proof (Z.mod_pos_bound sec 3600 ltac:(lia)).
    split; [apply Z.div_pos; lia | apply Z.div_lt_upper_bound; lia].
  - split; [apply Z.div_pos; lia | apply Z.div_lt_upper_bound; lia].
Qed.

Lemma unHMS_fmtHMS (sec : Z) :
  0 <= sec < 360000 -> unHMS (JS.fmtHMS sec) = Some sec.
Proof.
  intros H. rewrite (fmtHMS_shape sec H). unfold two_digits. simpl.
  assert (Hh : 0 <= sec / 3600 < 100)
    by (split; [apply Z.div_pos; lia | apply Z.div_lt_upper_bound; lia]).
  pose proof (Z.mod_pos_bound sec 3600 ltac:(lia)) as Hm0.
  assert (Hm : 0 <= sec mod 3600 / 60 < 60)
    by (split; [apply Z.div_pos; lia | apply Z.div_lt_upper_bound; lia]).
  pose proof (Z.mod_pos_bound sec 60 ltac:(lia)) as Hs.
  assert (Hd : forall n, 0 <= n < 100 ->
                 10 * digit_val (digit (n / 10)) + digit_val (digit (n mod 10)) = n).
  { intros n Hn. rewrite !digit_val_digit.
    - pose proof (Z.div_mod n 10 ltac:(lia)). lia.
    - apply Z.mod_pos_bound. lia.
    - split; [apply Z.div_pos; lia | apply Z.div_lt_upper_bound; lia]. }
  rewrite !Hd by lia. f_equal.
  Z.to_euclidean_division_equations. lia.
Qed.

Lemma undouble_double (s : string) : undouble (JS.double_quotes s) = s.
Proof.
  induction s as [|c r IH]; simpl; [done|].
  destruct (Ascii.eqb c (Ascii.ascii_of_nat 34)) eqn:E; simpl; rewrite E;
    by rewrite IH.
Qed.

Lemma length_app (a b : string) :
  String.length (a +:+ b) = (String.length a + String.length b)%nat.
Proof.
  induction a as [|c a IH]; [done|].
  change (String c a +:+ b)%string with (String c (a +:+ b)).
  simpl. by rewrite IH.
Qed.

Lemma app_inv_tail (a b c : string) : (a +:+ c = b +:+ c)%string -> a = b.
Proof.
  revert b. induction a as [|x a IH]; intros [|y b]; simpl; intros H.
  - done.
  - apply (f_equal String.length) in H.
    change (String y b +:+ c)%string with (String y (b +:+ c)) in H.
    change ("" +:+ c)%string with c in H.
    simpl in H. rewrite length_app in H. lia.
  - apply (f_equal String.length) in H.
    change (String x a +:+ c)%string with (String x (a +:+ c)) in H.
    change ("" +:+ c)%string with c in H.
    simpl in H. rewrite length_app in H. lia.
  - change (String x a +:+ c)%string with (String x (a +:+ c)) in H.
    change (String y b +:+ c)%string with (String y (b +:+ c)) in H.
    injection H as -> H. f_equal. by apply IH.
Qed.

Lemma csv_cell_inj (x y : string) : JS.csv_cell x = JS.csv_cell y -> x = y.
Proof.
  unfold JS.csv_cell, JS.dquote. intros H.
  change (String (Ascii.ascii_of_nat 34)
            (JS.double_quotes x +:+ String (Ascii.ascii_of_nat 34) "")
          = String (Ascii.ascii_of_nat 34)
              (JS.double_quotes y +:+ String (Ascii.ascii_of_nat 34) "")) in H.
  injection H as H. apply app_inv_tail in H.
  by rewrite <- (undouble_double x), <- (undouble_double y), H.
Qed.

End TextFacts.

(** X24 -- The hh:mm:ss text is faithful below one hundred hours: two
    different numbers of seconds from 0 up to 359999 never print as the
    same text. *)
Theorem fmtHMS_distinct (a b : Z)
    (Ha : 0 <= a < 360000)
    (Hb : 0 <= b < 360000)
    (Hab : a <> b) :
  JS.fmtHMS a <> JS.fmtHMS b.
Proof.
  intros E. apply Hab.
  pose proof (TextFacts.unHMS_fmtHMS a Ha) as H1.
  pose proof (TextFacts.unHMS_fmtHMS b Hb) as H2.
  rewrite E in H1. congruence.
Qed.

Lemma fmtHMS_distinct_witness : JS.fmtHMS 3599 <> JS.fmtHMS 3600.
Proof. apply fmtHMS_distinct; lia. Defined.

(** X25 -- Below one hundred hours the text is 00:00:00 exactly for the
    numbers of seconds that are zero or negative: a negative number
    prints as zero and no positive one does. *)
Theorem fmtHMS_zero (sec : Z) (Hsec : sec < 360000) :
  JS.fmtHMS sec = "00:00:00" <-> sec <= 0.
Proof.
  split.
  - intros E. destruct (Z.le_gt_cases sec 0) as [|Hpos]; [done|].
    pose proof (TextFacts.unHMS_fmtHMS sec ltac:(lia)) as H.
    rewrite E in H. vm_compute in H. injection H as H. lia.
  - intros H. unfold JS.fmtHMS. by rewrite Z.max_l by lia.
Qed.

Lemma fmtHMS_zero_witness : JS.fmtHMS (-5) = "00:00:00".
Proof. apply (fmtHMS_zero (-5)); lia. Defined.

(** X26 -- The escaping of the CSV export loses nothing: two different
    texts never give the same quoted cell, whatever double quotes they
    contain. *)
Theorem csv_cell_distinct (x y : string) (Hxy : x <> y) :
  JS.csv_cell x <> JS.csv_cell y.
Proof. intros E. by apply Hxy, TextFacts.csv_cell_inj. Qed.

Lemma csv_cell_distinct_witness :
  JS.csv_cell JS.dquote <> JS.csv_cell (JS.dquote +:+ JS.dquote).
Proof. apply csv_cell_distinct. discriminate. Defined.

(** ** The timer loop of the first component *)

Module LoopFacts.

Import AppFirst.

Lemma ticks_run (s : Z) (n : nat) (t : timer) :
  running t = true -> startTs t = Some s ->
  elapsedSec (ticks (map (fun k => s + Z.of_nat k) (seq 1 n)) t)
  = elapsedSec t + Z.of_nat n * (Z.of_nat n + 1) / 2
  /\ startTs (ticks (map (fun k => s + Z.of_nat k) (seq 1 n)) t) = Some s
  /\ running (ticks (map (fun k => s + Z.of_nat k) (seq 1 n)) t) = true.
Proof.
  intros Hr Hs. induction n as [|n (He & Hs' & Hr')].
  - change (Z.of_nat 0 * (Z.of_nat 0 + 1) / 2) with 0. simpl.
    split; [lia | done].
  - rewrite seq_S, map_app. unfold ticks in *. rewrite fold_left_app.
    cbn [map fold_left].
    destruct (AppFirstFacts.first_loop1_running (s + Z.of_nat (1 + n)) s _ Hr' Hs')
      as (E1 & E2 & E3).
    split; [|done]. rewrite E1, He.
    replace (Z.of_nat (1 + n)) with (Z.of_nat n + 1) by lia.
    replace (Z.of_nat (S n) * (Z.of_nat (S n) + 1))
      with (Z.of_nat n * (Z.of_nat n + 1) + (Z.of_nat n + 1) * 2) by lia.
    rewrite Z.div_add by lia. lia.
Qed.

End LoopFacts.

(** X27 -- In the first component of App.jsx the timer loop adds the
    whole run so far at every pass: after the passes at the n readings
    s+1, ..., s+n that follow a start at reading s, the accumulated
    seconds of the running timer have grown by 1 + 2 + ... + n, that is
    n(n+1)/2, not by n. *)
Theorem first_loop_adds_triangular (s : Z) (n : nat) (t : AppFirst.timer)
    (Hr : AppFirst.running t = true)
    (Hs : AppFirst.startTs t = Some s) :
  AppFirst.elapsedSec
    (AppFirst.ticks (map (fun k => s + Z.of_nat k) (seq 1 n)) t)
  = AppFirst.elapsedSec t + Z.of_nat n * (Z.of_nat n + 1) / 2.
Proof. exact (proj1 (LoopFacts.ticks_run s n t Hr Hs)). Qed.

Lemma first_loop_adds_triangular_witness :
  AppFirst.elapsedSec
    (AppFirst.ticks (map (fun k => 100 + Z.of_nat k) (seq 1 4))
       Examples.first_running)
  = 50 + 10.
Proof.
  exact (first_loop_adds_triangular 100 4 Examples.first_running
           eq_refl eq_refl).
Defined.

(** ** Loading from the cloud *)

(** X28 -- The load on sign-in, in the stand-alone component and in the
    second component of App.jsx: when the answer holds rows, the timers
    become exactly the timers mapped from the rows, ordered by sort
    index; when it holds none and there are local timers, the local
    timers stay as they are. *)
Theorem cloud_load (r : Common.row) (rows : list Common.row) :
  (forall timers : list Part000.timer,
     let next := Part000.loadFromCloud (Some (r :: rows)) timers in
     next ≡ₚ Part000.fromRow <$> r :: rows
     /\ StronglySorted
          (fun a b => Part000.sort_index a <= Part000.sort_index b) next)
  /\ (forall timers : list Part000.timer,
        Part000.loadFromCloud None timers = timers
        /\ Part000.loadFromCloud (Some []) timers = timers)
  /\ (forall timers : list AppSecond.timer,
        let next := AppSecond.loadFromCloud (Some (r :: rows)) timers in
        next ≡ₚ AppSecond.fromRow <$> r :: rows
        /\ StronglySorted
             (fun a b => AppSecond.sort_index a <= AppSecond.sort_index b) next)
  /\ (forall timers : list AppSecond.timer,
        AppSecond.loadFromCloud None timers = timers
        /\ AppSecond.loadFromCloud (Some []) timers = timers).
Proof.
  split; [|split; [|split]]; intros timers.
  - split; [apply CommonFacts.sort_by_perm | apply CommonFacts.sort_by_sorted].
  - done.
  - split; [apply CommonFacts.sort_by_perm | apply CommonFacts.sort_by_sorted].
  - split; [done|]. unfold AppSecond.loadFromCloud. simpl.
    destruct timers; [done | done].
Qed.

(** ** A notice delivered twice, and time kept across start and pause *)

(** X29 -- A realtime notice delivered twice has the effect of being
    delivered once, in the stand-alone component and in the second
    component of App.jsx, on a list whose ids are unique: the second
    delivery of the same notice changes nothing. *)
Theorem realtime_twice (p : Common.payload)
    (prevS : list Part000.timer) (prevA : list AppSecond.timer)
    (HS : NoDup (Part000.id <$> prevS))
    (HA : NoDup (AppSecond.id <$> prevA)) :
  Part000.onRealtime p (Part000.onRealtime p prevS)
  = Part000.onRealtime p prevS
  /\ AppSecond.onRealtime p (AppSecond.onRealtime p prevA)
     = AppSecond.onRealtime p prevA.
Proof.
  split.
  - destruct p as [[i|] | [r|] old]; simpl; try done.
    + destruct (String.eqb i ""); [done|]. apply CommonFacts.drop_id_twice.
    + destruct (Common.deleted_flag r).
      * apply CommonFacts.drop_id_twice.
      * by apply CommonFacts.upsert_twice.
  - destruct p as [[i|] | new old]; simpl; try done.
    + destruct (String.eqb i ""); [done|]. apply CommonFacts.drop_id_twice.
    + destruct (match new with Some r => Some r | None => old end) as [r|];
        [|done].
      destruct (Common.deleted_flag r).
      * apply CommonFacts.drop_id_twice.
      * by apply CommonFacts.upsert_twice.
Qed.

Lemma realtime_twice_witness :
  Part000.onRealtime (Common.CHANGE (Some Examples.row_music) None)
    (Part000.onRealtime (Common.CHANGE (Some Examples.row_music) None)
       [Examples.stand_running; Examples.stand_paused])
  = Part000.onRealtime (Common.CHANGE (Some Examples.row_music) None)
      [Examples.stand_running; Examples.stand_paused].
Proof.
  refine (proj1 (realtime_twice (Common.CHANGE (Some Examples.row_music) None)
                   [Examples.stand_running; Examples.stand_paused]
                   [Examples.second_running] _ _)); simpl.
  - apply NoDup_cons. split.
    + intros H. apply elem_of_cons in H as [H|H]; [discriminate|].
      by apply elem_of_nil in H.
    + apply NoDup_singleton.
  - apply NoDup_singleton.
Defined.

Module KeepFacts.

Lemma stand_start_net (now : Z) (i : string) (t : Part000.timer) :
  Part000.good now t ->
  Part000.net now (Part000.startTimer1 now i t) = Part000.net now t.
Proof.
  intros (Hc & Hst & He).
  unfold Part000.startTimer1, Part000.net, Part000.runExtra.
  destruct (Part000.running t) eqn:Hr.
  - destruct (proj1 Hc Hr) as [s Hs]. specialize (Hst s Hs).
    destruct (String.eqb (Part000.id t) i); simpl; rewrite ?Hs, ?Hr; [done|].
    rewrite (JSFacts.or_ts_nonzero s now) by lia. lia.
  - destruct (String.eqb (Part000.id t) i); simpl; rewrite ?Hr; [|done].
    destruct (Part000.startTs t); lia.
Qed.

Lemma stand_pause_net (now : Z) (i : string) (t : Part000.timer) :
  Part000.good now t ->
  Part000.net now (Part000.pauseTimer1 now i t) = Part000.net now t.
Proof.
  intros (Hc & Hst & He).
  unfold Part000.pauseTimer1, Part000.net, Part000.runExtra.
  destruct (Part000.running t) eqn:Hr.
  - destruct (proj1 Hc Hr) as [s Hs]. specialize (Hst s Hs).
    destruct (String.eqb (Part000.id t) i); simpl; rewrite ?Hs, ?Hr; [|done].
    rewrite (JSFacts.or_ts_nonzero s now) by lia. lia.
  - rewrite orb_true_r. by rewrite Hr.
Qed.

Lemma second_stop_net (now : Z) (t : AppSecond.timer) :
  AppSecond.good now t -> AppSecond.running t = true ->
  (AppSecond.timerNetSeconds now
     (AppSecond.set_elapsedSec
        (Qmax 0 (AppSecond.elapsedSec t + AppSecond.runSoFar now t))
        (AppSecond.set_startTs None (AppSecond.set_running false t)))
   == AppSecond.timerNetSeconds now t)%Q.
Proof.
  intros (Hc & Hst & He) Hr.
  destruct (proj1 Hc Hr) as [s Hs]. specialize (Hst s Hs).
  unfold AppSecond.timerNetSeconds, AppSecond.runningNow. simpl. rewrite Hr.
  rewrite (AppSecondFacts.second_runSoFar_eq now s t Hs ltac:(lia)).
  pose proof (AppSecondFacts.second_run_nonneg now now s (AppSecond.elapsedSec t)
                Hst (Z.le_refl _) He).
  apply Q.max_compat; [reflexivity|].
  rewrite (Q.max_r 0 (AppSecond.elapsedSec t + inject_Z (now - s) / 1000)) by done.
  lra.
Qed.

Lemma second_start_net (now : Z) (i : string) (t : AppSecond.timer) :
  AppSecond.good now t ->
  (AppSecond.timerNetSeconds now (AppSecond.startTimer1 now i t)
   == AppSecond.timerNetSeconds now t)%Q.
Proof.
  intros Hg. unfold AppSecond.startTimer1.
  destruct (AppSecond.running t) eqn:Hr.
  - destruct (String.eqb (AppSecond.id t) i); [reflexivity|].
    by apply second_stop_net.
  - destruct (String.eqb (AppSecond.id t) i); [|reflexivity].
    unfold AppSecond.timerNetSeconds, AppSecond.runningNow, AppSecond.runSoFar.
    simpl. rewrite Hr.
    destruct (JS.truthy now); replace (now - now)%Z with 0%Z by lia;
      change (inject_Z 0) with 0%Q; apply Q.max_compat; try reflexivity;
      unfold Qdiv; lra.
Qed.

Lemma second_pause_net (now : Z) (i : string) (t : AppSecond.timer) :
  AppSecond.good now t ->
  (AppSecond.timerNetSeconds now (AppSecond.pauseTimer1 now i t)
   == AppSecond.timerNetSeconds now t)%Q.
Proof.
  intros Hg. unfold AppSecond.pauseTimer1.
  destruct (negb (String.eqb (AppSecond.id t) i)); [reflexivity|].
  destruct (AppSecond.running t) eqn:Hr; simpl; [|reflexivity].
  by apply second_stop_net.
Qed.

Lemma sum_ext {A : Type} (f g : A -> Z) (h : A -> A) (l : list A) :
  Forall (fun x => f (h x) = g x) l ->
  foldr Z.add 0 (map f (map h l)) = foldr Z.add 0 (map g l).
Proof. induction 1 as [|x l Hx _ IH]; simpl; [done|]. by rewrite Hx, IH. Qed.

Lemma sumQ_ext {A : Type} (f g : A -> Q) (h : A -> A) (l : list A) :
  Forall (fun x => f (h x) == g x)%Q l ->
  (foldr Qplus 0 (map f (map h l)) == foldr Qplus 0 (map g l))%Q.
Proof.
  induction 1 as [|x l Hx _ IH]; simpl; [reflexivity|]. by rewrite Hx, IH.
Qed.

End KeepFacts.


